(** * OneFuzz: task-configuration validation and instance configuration

    A shallow embedding of two Python modules of the OneFuzz service,

    - [src/api-service/__app__/onefuzzlib/tasks/config.py]
      (module [tasks] below), and
    - [src/deployment/deploylib/configuration.py]
      (module [deploylib] below),

    together with the parts of the Python standard library they call
    ([str] methods in module [py], [pathlib.PurePosixPath] in module
    [pathlib]).  Module [spec] holds the vocabulary of the statements, and
    the modules after it hold sample catalogs and submissions on which the
    statements are run.

    Conventions.  A Python [str] is a [string]; each character stands for
    one code point below 256.  [int] is [Z], [len] is a [nat].  [Optional[T]]
    is [option T].  A function that may raise returns a [result]; a function
    that also writes to the logger returns the records it logged next to its
    result.  The collaborators the modules import from elsewhere (storage,
    queues, the pool registry, the task-definition catalog, [uuid] and
    [ipaddress]) are fields of a record passed as the first argument. *)

From Stdlib Require Import ZArith Ascii DecimalString.
From Stdlib Require DecimalZ DecimalPos.
From stdpp Require Import gmap strings list.

#[local] Set Warnings "-register-all,-clear-no-such-hyp".

(* ================================================================= *)
(** * Part I: definitions *)
(* ================================================================= *)

(** ** Python built-ins *)

Module py.

(** [str.isspace] on one character, for code points below 256: the ASCII
    whitespace table [\t \n \v \f \r], the separators [0x1c .. 0x1f], the
    space, and the two Latin-1 characters NEL [0x85] and NBSP [0xa0]. *)
Definition isspace (c : ascii) : bool :=
  let n := nat_of_ascii c in
  ((9 <=? n) && (n <=? 13)) || ((28 <=? n) && (n <=? 32))
  || (n =? 133) || (n =? 160).

(** [s.lstrip()] *)
Fixpoint lstrip (s : string) : string :=
  match s with
  | EmptyString => EmptyString
  | String c s' => if isspace c then lstrip s' else s
  end.

(** [s.rstrip()] *)
Fixpoint rstrip (s : string) : string :=
  match s with
  | EmptyString => EmptyString
  | String c s' =>
      match rstrip s' with
      | EmptyString => if isspace c then EmptyString else String c EmptyString
      | r => String c r
      end
  end.

(** [s.strip()] *)
Definition strip (s : string) : string := rstrip (lstrip s).

(** [s.split(sep)] for a one-character separator: always at least one
    field, empty fields are kept. *)
Fixpoint split (sep : ascii) (s : string) : list string :=
  match s with
  | EmptyString => [EmptyString]
  | String c s' =>
      if Ascii.eqb c sep then EmptyString :: split sep s'
      else match split sep s' with
           | h :: t => String c h :: t
           | [] => [String c EmptyString]
           end
  end.

(** [sep.join(parts)] *)
Fixpoint join (sep : string) (parts : list string) : string :=
  match parts with
  | [] => EmptyString
  | [x] => x
  | x :: rest => x +:+ sep +:+ join sep rest
  end.

(** [s.startswith(p)] *)
Definition startswith (s p : string) : bool := String.prefix p s.

(** [s.endswith(p)] *)
Definition endswith (s p : string) : bool :=
  let n := String.length s in
  let k := String.length p in
  (k <=? n) && String.eqb (String.substring (n - k) k s) p.

(** [sub in s] for strings. *)
Fixpoint contains (sub s : string) : bool :=
  match s with
  | EmptyString => String.prefix sub EmptyString
  | String _ s' => String.prefix sub s || contains sub s'
  end.

(** [s.replace(old, new)] for a non-empty [old]: every non-overlapping
    occurrence, scanning from the left.  [skip] counts the characters of an
    occurrence already replaced that remain to be passed over. *)
Fixpoint replace_from (old new s : string) (skip : nat) : string :=
  match s with
  | EmptyString => EmptyString
  | String c s' =>
      match skip with
      | S k => replace_from old new s' k
      | O =>
          if String.prefix old s
          then new +:+ replace_from old new s' (String.length old - 1)
          else String c (replace_from old new s' 0)
      end
  end.

Definition replace (s old new : string) : string := replace_from old new s 0.

(** [str(n)] and the [%d] conversion of an [int]. *)
Definition str_of_int (z : Z) : string := NilZero.string_of_int (Z.to_int z).

(** [str(n)] of a length or an index. *)
Definition str_of_nat (n : nat) : string := str_of_int (Z.of_nat n).

End py.

(** ** [pathlib.PurePosixPath]

    The parser of the pure POSIX flavour: [splitroot] takes the leading
    slashes off (exactly two are kept as the root ["//"], any other number
    collapses to ["/"]), the rest is split on ["/"] and the empty and ["."]
    components are dropped. *)

Module pathlib.

Record PurePosixPath := mkPath {
  root : string;        (* "", "/" or "//" *)
  tail : list string    (* the components after the root *)
}.

(** [s.lstrip("/")] *)
Fixpoint lstrip_sep (s : string) : string :=
  match s with
  | String "/"%char s' => lstrip_sep s'
  | _ => s
  end.

Definition splitroot (part : string) : string * string :=
  match part with
  | String "/"%char _ =>
      let stripped_part := lstrip_sep part in
      if String.length part - String.length stripped_part =? 2
      then ("//", stripped_part)
      else ("/", stripped_part)
  | _ => ("", part)
  end.

Definition keep_component (x : string) : bool :=
  negb (String.eqb x "") && negb (String.eqb x ".").

(** [PurePosixPath(s)] *)
Definition parse (s : string) : PurePosixPath :=
  let '(root, rel) := splitroot s in
  mkPath root (filter (fun x => keep_component x = true) (py.split "/"%char rel)).

(** [path.parts] *)
Definition parts (p : PurePosixPath) : list string :=
  if String.eqb (root p) "" then tail p else root p :: tail p.

(** [path.is_absolute()] *)
Definition is_absolute (p : PurePosixPath) : bool :=
  negb (String.eqb (root p) "").

(** [path.as_posix()], which is [str(path)] for this flavour. *)
Definition as_posix (p : PurePosixPath) : string :=
  let s := root p +:+ py.join "/" (tail p) in
  if String.eqb s "" then "." else s.

End pathlib.

(** ** Exceptions, results and the logger *)

Inductive result (E A : Type) : Type :=
| Ok (a : A)
| Raise (e : E).
Arguments Ok {E A} a.
Arguments Raise {E A} e.

(** [logging] levels used by the sources. *)
Inductive level := WARNING | ERROR.

(** A computation that may call [LOGGER.warning] / [LOGGER.error] and may
    raise: the records logged, in order, and the outcome. *)
Definition logged (E A : Type) : Type := list (level * string) * result E A.

Definition ret {E A} (a : A) : logged E A := ([], Ok a).
Definition raise {E A} (e : E) : logged E A := ([], Raise e).
Definition log {E} (l : level) (msg : string) : logged E unit :=
  ([(l, msg)], Ok tt).
Definition lift {E A} (r : result E A) : logged E A := ([], r).

Definition bind {E A B} (m : logged E A) (k : A -> logged E B) : logged E B :=
  match m with
  | (l, Ok a) => let '(l', r) := k a in (l ++ l', r)
  | (l, Raise e) => (l, Raise e)
  end.

#[export] Instance logged_bind {E} : MBind (logged E) :=
  fun A B k m => bind m k.

#[export] Instance result_bind {E} : MBind (result E) :=
  fun A B k m => match m with Ok a => k a | Raise e => Raise e end.

(** [for x in xs: body(x)] where the body may raise. *)
Fixpoint for_each {E A} (body : A -> result E unit) (xs : list A)
  : result E unit :=
  match xs with
  | [] => Ok tt
  | x :: rest => body x ;; for_each body rest
  end.

(** The same loop for a body that also logs. *)
Fixpoint for_each_logged {E A} (body : A -> logged E unit) (xs : list A)
  : logged E unit :=
  match xs with
  | [] => ret tt
  | x :: rest => body x ;; for_each_logged body rest
  end.

(** [if b: body] around a statement block. *)
Definition when {E} (b : bool) (body : logged E unit) : logged E unit :=
  if b then body else ret tt.

(** The two components of a logged computation. *)
Definition records {E A} (m : logged E A) : list (level * string) := m.1.
Definition outcome {E A} (m : logged E A) : result E A := m.2.

(** ** [onefuzzlib/tasks/config.py] *)

Module tasks.

(** *** Types imported from [onefuzztypes] *)

(** Modelled from the spec: the enums of [onefuzztypes.enums] are not among
    the sources.  [Compare] has the three comparison operators of the spec
    (exactly-N, at-least-N, at-most-N), under the names [check_val] tests. *)
Inductive Compare := Equal | AtLeast | AtMost.

Definition Compare_name (c : Compare) : string :=
  match c with Equal => "Equal" | AtLeast => "AtLeast" | AtMost => "AtMost" end.

(** Modelled from the spec: a permission set is a subset of
    {Read, Write, Delete, List}. *)
Inductive ContainerPermission := Read | Write | Delete | List.

(** Modelled from the spec: a role is a member of an enum that is not among
    the sources; a member is identified by its name, and the sources name
    [setup] and [tools]. *)
Record ContainerType := mkContainerType { ContainerType_name : string }.

Definition setup : ContainerType := mkContainerType "setup".
Definition tools : ContainerType := mkContainerType "tools".

(** Modelled from the spec: a task type is a member of an enum that is not
    among the sources, identified by its name. *)
Record TaskType := mkTaskType { TaskType_name : string }.

(** Modelled from the spec: [TaskFeature] is an enum of named optional
    features that is not among the sources; its members here are the
    features [config.py] tests. *)
Inductive TaskFeature :=
| supervisor_exe | supervisor_env | supervisor_options
| supervisor_input_marker
| target_exe | target_exe_optional | target_env | target_options
| target_options_merge | target_workers | target_must_use_input
| rename_output
| generator_exe | generator_env | generator_options
| wait_for_files
| analyzer_exe | analyzer_options | analyzer_env
| stats_file | target_timeout | check_asan_log | check_debugger
| check_retry_count | ensemble_sync_delay | check_fuzzer_help
| report_list | minimized_stack_depth | expect_crash_on_failure
| coverage_filter | target_assembly | target_class | target_method.

(** [StorageType.corpus] and [StorageType.config], the two members the
    sources pass on. *)
Inductive StorageType := StorageType_corpus | StorageType_config.

(** [onefuzztypes.primitives.Container]: a container name. *)
Definition Container := string.

#[export] Instance Compare_eq_dec : EqDecision Compare.
Proof. solve_decision. Defined.
#[export] Instance ContainerPermission_eq_dec : EqDecision ContainerPermission.
Proof. solve_decision. Defined.
#[export] Instance ContainerType_eq_dec : EqDecision ContainerType.
Proof. solve_decision. Defined.
#[export] Instance TaskType_eq_dec : EqDecision TaskType.
Proof. solve_decision. Defined.
#[export] Instance TaskFeature_eq_dec : EqDecision TaskFeature.
Proof. solve_decision. Defined.

(** Modelled from the spec: the models of [onefuzztypes.models] are not among
    the sources.  The records below have the fields [config.py] reads, with
    the types its uses imply: paths and markers are strings, environments
    are string-to-string mappings, option lists are sequences of strings,
    flags are booleans, counts and timeouts are integers. *)
Record ContainerDefinition := mkContainerDefinition {
  def_type : ContainerType;
  def_compare : Compare;
  def_value : Z;
  def_permissions : list ContainerPermission
}.

Record VmDefinition := mkVmDefinition {
  vm_compare : Compare;
  vm_value : Z
}.

Record TaskDefinition := mkTaskDefinition {
  definition_features : list TaskFeature;
  definition_vm : VmDefinition;
  definition_containers : list ContainerDefinition;
  definition_monitor_queue : option ContainerType
}.

Record TaskContainers := mkTaskContainers {
  container_type : ContainerType;
  container_name : Container
}.

Record TaskPool := mkTaskPool {
  pool_count : Z;
  pool_name : string
}.

(** The legacy VM specification; the sources only test its presence. *)
Inductive TaskVm := mkTaskVm.

Inductive StatsFormat := mkStatsFormat (name : string).

Record TaskDetails := mkTaskDetails {
  task_type : TaskType;
  task_supervisor_exe : option string;
  task_supervisor_env : option (list (string * string));
  task_supervisor_options : option (list string);
  task_supervisor_input_marker : option string;
  task_target_exe : option string;
  task_target_env : option (list (string * string));
  task_target_options : option (list string);
  task_target_options_merge : option bool;
  task_target_workers : option Z;
  task_rename_output : option bool;
  task_generator_exe : option string;
  task_generator_env : option (list (string * string));
  task_generator_options : option (list string);
  task_wait_for_files : option ContainerType;
  task_analyzer_exe : option string;
  task_analyzer_options : option (list string);
  task_analyzer_env : option (list (string * string));
  task_stats_file : option string;
  task_stats_format : option StatsFormat;
  task_target_timeout : option Z;
  task_check_asan_log : option bool;
  task_check_debugger : option bool;
  task_check_retry_count : option Z;
  task_ensemble_sync_delay : option Z;
  task_check_fuzzer_help : option bool;
  task_report_list : option (list string);
  task_minimized_stack_depth : option Z;
  task_expect_crash_on_failure : option bool;
  task_coverage_filter : option string;
  task_target_assembly : option string;
  task_target_class : option string;
  task_target_method : option string
}.

Record TaskConfig := mkTaskConfig {
  config_task : TaskDetails;
  config_vm : option TaskVm;
  config_pool : option TaskPool;
  config_containers : list TaskContainers
}.

Record JobConfig := mkJobConfig { job_logs : option string }.
Record Job := mkJob { job_id : string; job_config : JobConfig }.
Record Task := mkTask { task_id : string; task_config : TaskConfig }.
Record Pool := mkPool { Pool_name : string }.

(** A value stored in an attribute of the unit config: [None], a flag, a
    number, a string, an enum member, a sequence or a mapping. *)
Inductive value :=
| VNone
| VBool (b : bool)
| VInt (z : Z)
| VStr (s : string)
| VEnum (cls member : string)
| VList (l : list value)
| VDict (d : list (string * value)).

(** Modelled from the spec: [TaskUnitConfig] is declared in
    [onefuzztypes.models].  [build_task_config] creates the object and then
    sets attributes on it by name ([config.x = v],
    [setattr(config, name, v)]): the object is the finite map from
    attribute names to the values set, and an attribute that was never set
    is absent. *)
Abbreviation TaskUnitConfig := (gmap string value).

(** *** Collaborators imported by [config.py] *)

Record Services := mkServices {
  (* .defs *)
  TASK_DEFINITIONS : TaskType -> option TaskDefinition;
  (* ..azure.containers *)
  container_exists : Container -> StorageType -> bool;
  blob_exists : Container -> string -> StorageType -> bool;
  add_container_sas_url : string -> string;
  (* name, storage type, read, write, delete, list_ *)
  get_container_sas_url :
    Container -> StorageType -> bool -> bool -> bool -> bool -> string;
  (* ..azure.queue: name, storage type, add, read, update, process *)
  get_queue_sas : string -> StorageType -> bool -> bool -> bool -> bool -> string;
  (* ..azure.creds *)
  get_instance_id : string;
  (* ..workers.pools: [None] stands for the [Error] value returned for an
     unknown pool *)
  Pool_get_by_name : string -> option Pool;
  (* os.environ.get *)
  environ_get : string -> option string
}.

Inductive exn :=
| TaskConfigError (msg : string)
| IndexError.

(** [feature in definition.features] *)
Definition declares (definition : TaskDefinition) (feature : TaskFeature) : bool :=
  bool_decide (feature ∈ definition_features definition).

(** Truth value of an [Optional[str]]: [None] and [""] are false. *)
Definition truthy (o : option string) : bool :=
  match o with
  | Some s => negb (String.eqb s "")
  | None => false
  end.

(** *** [get_input_container_queues] *)

Definition get_input_container_queues (w : Services) (config : TaskConfig)
  : result exn (option (list Container)) :=
  match TASK_DEFINITIONS w (task_type (config_task config)) with
  | None =>
      Raise (TaskConfigError
               ("unsupported task type: "
                +:+ TaskType_name (task_type (config_task config))))
  | Some definition =>
      match definition_monitor_queue definition with
      | Some monitor =>
          Ok (Some (map container_name
                      (filter (fun x => container_type x = monitor)
                              (config_containers config))))
      | None => Ok None
      end
  end.

(** *** [check_val]

    The final [raise NotImplementedError] is not reachable: the three
    tests cover [Compare]. *)
Definition check_val (compare : Compare) (expected actual : Z) : bool :=
  match compare with
  | Equal => (expected =? actual)%Z
  | AtLeast => (expected <=? actual)%Z
  | AtMost => (expected >=? actual)%Z
  end.

(** *** [check_container]

    [containers] is the dictionary built by [check_containers], kept in
    insertion order. *)
Fixpoint dict_get (containers : list (ContainerType * list Container))
    (key : ContainerType) (default : list Container) : list Container :=
  match containers with
  | [] => default
  | (k, v) :: rest => if decide (k = key) then v else dict_get rest key default
  end.

Definition check_container (compare : Compare) (expected : Z)
    (container_type : ContainerType)
    (containers : list (ContainerType * list Container)) : result exn unit :=
  let actual := length (dict_get containers container_type []) in
  if negb (check_val compare expected (Z.of_nat actual))
  then Raise (TaskConfigError
                ("container type " +:+ ContainerType_name container_type
                 +:+ ": expected " +:+ Compare_name compare +:+ " "
                 +:+ py.str_of_int expected +:+ ", got " +:+ py.str_of_nat actual))
  else Ok tt.

(** *** [check_containers] *)

(** [if t not in containers: containers[t] = []] followed by
    [containers[t].append(name)]. *)
Fixpoint dict_append (containers : list (ContainerType * list Container))
    (key : ContainerType) (name : Container)
  : list (ContainerType * list Container) :=
  match containers with
  | [] => [(key, [name])]
  | (k, v) :: rest =>
      if decide (k = key) then (k, v ++ [name]) :: rest
      else (k, v) :: dict_append rest key name
  end.

(** The first loop: [checked] is the set of names already looked up. *)
Fixpoint collect_containers (w : Services) (submitted : list TaskContainers)
    (checked : gset Container)
    (containers : list (ContainerType * list Container))
  : result exn (list (ContainerType * list Container)) :=
  match submitted with
  | [] => Ok containers
  | container :: rest =>
      let name := container_name container in
      if bool_decide (name ∉ checked) then
        if negb (container_exists w name StorageType_corpus)
        then Raise (TaskConfigError ("missing container: " +:+ name))
        else collect_containers w rest ({[name]} ∪ checked)
               (dict_append containers (container_type container) name)
      else collect_containers w rest checked
             (dict_append containers (container_type container) name)
  end.

Definition check_containers (w : Services) (definition : TaskDefinition)
    (config : TaskConfig) : result exn unit :=
  containers ← collect_containers w (config_containers config) ∅ [];
  for_each
    (fun container_def =>
       check_container (def_compare container_def) (def_value container_def)
         (def_type container_def) containers)
    (definition_containers definition) ;;
  for_each
    (fun entry : ContainerType * list Container =>
       let container_type := entry.1 in
       if bool_decide
            (container_type ∉ map def_type (definition_containers definition))
       then Raise (TaskConfigError
                     ("unsupported container type for this task: "
                      +:+ ContainerType_name container_type))
       else Ok tt)
    containers ;;
  match definition_monitor_queue definition with
  | Some monitor =>
      if bool_decide (monitor ∉ map def_type (definition_containers definition))
      then Raise (TaskConfigError
                    ("unable to monitor container type as it is not used by this task: "
                     +:+ ContainerType_name monitor))
      else Ok tt
  | None => Ok tt
  end.

(** *** [is_valid_blob_name] *)

Definition is_valid_blob_name (blob_name : string) : bool :=
  let MIN_LENGTH := 1 in
  let MAX_LENGTH := 1024 in
  let MAX_PATH_SEGMENTS := 254 in
  let length := String.length blob_name in
  if negb (String.eqb blob_name (py.strip blob_name)) then false
  else if length <? MIN_LENGTH then false
  else if MAX_LENGTH <? length then false
  else
    let path := pathlib.parse blob_name in
    if MAX_PATH_SEGMENTS <? List.length (pathlib.parts path) then false
    else if existsb (fun part => py.endswith part ".") (pathlib.parts path)
    then false
    else if pathlib.is_absolute path then false
    else if bool_decide ("." ∈ pathlib.parts path) then false
    else if bool_decide (".." ∈ pathlib.parts path) then false
    else
      let normalized := pathlib.as_posix path in
      String.eqb blob_name normalized.

(** *** [check_target_exe] *)

Definition check_target_exe (w : Services) (config : TaskConfig)
    (definition : TaskDefinition) : logged exn unit :=
  match task_target_exe (config_task config) with
  | None =>
      if declares definition target_exe
      then raise (TaskConfigError "missing target_exe")
      else if declares definition target_exe_optional then ret tt
      else ret tt
  | Some exe =>
      if negb (is_valid_blob_name exe)
      then raise (TaskConfigError
                    "target_exe must be a canonicalized relative path")
      else
        match filter (fun x => container_type x = setup)
                     (config_containers config) with
        | [] => raise IndexError
        | container :: _ =>
            if negb (blob_exists w (container_name container) exe
                       StorageType_corpus)
            then log WARNING
                   ("target_exe `" +:+ exe
                    +:+ "` does not exist in the setup container `"
                    +:+ container_name container +:+ "`")
            else ret tt
        end
  end.

(** *** [target_uses_input] *)

Definition target_uses_input (config : TaskConfig) : bool :=
  match task_target_options (config_task config) with
  | Some options => existsb (fun option => py.contains "{input}" option) options
  | None => false
  end
  ||
  match task_target_env (config_task config) with
  | Some env => existsb (fun kv : string * string => py.contains "{input}" kv.2) env
  | None => false
  end.

(** *** [check_config]

    The body is a sequence of checks.  The parts below are its consecutive
    blocks, each taking the [definition] looked up at the top;
    [check_config] runs them one after the other. *)

Definition is_set {A} (o : option A) : bool :=
  match o with Some _ => true | None => false end.

(** Lines 192-231: from the test on [vm] and [pool] to the pool lookup. *)
Definition check_containers_and_pool (w : Services) (config : TaskConfig)
    (definition : TaskDefinition) : logged exn unit :=
  when (is_set (config_vm config) && is_set (config_pool config))
    (raise (TaskConfigError
              "either the vm or pool must be specified, but not both")) ;;
  lift (check_containers w definition config) ;;
  when (declares definition supervisor_exe
        && negb (truthy (task_supervisor_exe (config_task config))))
    (log ERROR "missing supervisor_exe" ;;
     raise (TaskConfigError "missing supervisor_exe")) ;;
  when (declares definition target_must_use_input
        && negb (target_uses_input config))
    (raise (TaskConfigError
              "{input} must be used in target_env or target_options")) ;;
  when (is_set (config_vm config))
    (raise (TaskConfigError
              "specifying task config vm is no longer supported")) ;;
  match config_pool config with
  | None => raise (TaskConfigError "pool must be specified")
  | Some pool =>
      when (negb (check_val (vm_compare (definition_vm definition))
                    (vm_value (definition_vm definition)) (pool_count pool)))
        (let err :=
           "invalid vm count: expected Compare."
           +:+ Compare_name (vm_compare (definition_vm definition)) +:+ " "
           +:+ py.str_of_int (vm_value (definition_vm definition))
           +:+ ", got " +:+ py.str_of_int (pool_count pool) in
         log ERROR err ;; raise (TaskConfigError err)) ;;
      when (negb (is_set (Pool_get_by_name w (pool_name pool))))
        (raise (TaskConfigError ("invalid pool: " +:+ pool_name pool)))
  end.

(** Lines 235-253: the block guarded by [TaskFeature.generator_exe]. *)
Definition check_generator_exe (w : Services) (config : TaskConfig)
    (definition : TaskDefinition) : logged exn unit :=
  when (declares definition generator_exe)
    match filter (fun x => container_type x = tools)
                 (config_containers config) with
    | [] => raise IndexError
    | container :: _ =>
        match task_generator_exe (config_task config) with
        | None => raise (TaskConfigError "generator_exe is not defined")
        | Some exe =>
            if String.eqb exe ""
            then raise (TaskConfigError "generator_exe is not defined")
            else
              let tools_paths := ["{tools_dir}/"; "{tools_dir}\"] in
              for_each_logged
                (fun tool_path =>
                   when (py.startswith exe tool_path)
                     (let generator := py.replace exe tool_path "" in
                      when (negb (blob_exists w (container_name container)
                                    generator StorageType_corpus))
                        (let err :=
                           "generator_exe `" +:+ exe
                           +:+ "` does not exist in the tools container `"
                           +:+ container_name container +:+ "`" in
                         log ERROR err ;; raise (TaskConfigError err))))
                tools_paths
        end
    end.

(** Lines 255-259: the block guarded by [TaskFeature.stats_file]. *)
Definition check_stats_file (config : TaskConfig)
    (definition : TaskDefinition) : logged exn unit :=
  when (declares definition stats_file)
    (when (is_set (task_stats_file (config_task config))
           && negb (is_set (task_stats_format (config_task config))))
       (let err := "using a stats_file requires a stats_format" in
        log ERROR err ;; raise (TaskConfigError err))).

Definition check_config (w : Services) (config : TaskConfig)
  : logged exn unit :=
  match TASK_DEFINITIONS w (task_type (config_task config)) with
  | None =>
      raise (TaskConfigError
               ("unsupported task type: "
                +:+ TaskType_name (task_type (config_task config))))
  | Some definition =>
      check_containers_and_pool w config definition ;;
      check_target_exe w config definition ;;
      check_generator_exe w config definition ;;
      check_stats_file config definition
  end.

(** *** [build_task_config] *)

(** Conversions of the task body's fields to attribute values. *)
Definition of_option {A} (f : A -> value) (o : option A) : value :=
  match o with Some a => f a | None => VNone end.

Definition of_env (env : list (string * string)) : value :=
  VDict (map (fun kv : string * string => (kv.1, VStr kv.2)) env).

Definition of_options (options : list string) : value :=
  VList (map VStr options).

Definition of_stats_format (f : StatsFormat) : value :=
  match f with mkStatsFormat name => VEnum "StatsFormat" name end.

(** [x or EMPTY_DICT] *)
Definition or_EMPTY_DICT (x : option (list (string * string))) : value :=
  match x with
  | Some (kv :: env) => of_env (kv :: env)
  | _ => of_env []
  end.

(** [x or EMPTY_LIST] *)
Definition or_EMPTY_LIST (x : option (list string)) : value :=
  match x with
  | Some (o :: options) => of_options (o :: options)
  | _ => of_options []
  end.

(** [x or False] *)
Definition or_False (x : option bool) : value :=
  match x with
  | Some true => VBool true
  | _ => VBool false
  end.

(** [x or 0] *)
Definition or_0 (x : option Z) : value :=
  match x with
  | Some z => if (z =? 0)%Z then VInt 0 else VInt z
  | None => VInt 0
  end.

(** [x if x is not None else True] *)
Definition if_not_None_else_True (x : option bool) : value :=
  match x with
  | Some b => VBool b
  | None => VBool true
  end.

(** [if cond: config.name = v] *)
Definition set_if (cond : bool) (name : string) (v : value)
    (config : TaskUnitConfig) : TaskUnitConfig :=
  if cond then <[name := v]> config else config.

(** The inner loop of lines 305-322: one entry per submitted container of
    the role of [container_def]; [i] is the position of the container in
    the submitted list. *)
Fixpoint container_entries (w : Services) (container_def : ContainerDefinition)
    (i : nat) (submitted : list TaskContainers) : list value :=
  match submitted with
  | [] => []
  | container :: rest =>
      if bool_decide (container_type container ≠ def_type container_def)
      then container_entries w container_def (S i) rest
      else
        VDict
          [("path",
            VStr (py.join "_"
                    ["task"; ContainerType_name (def_type container_def);
                     py.str_of_nat i]));
           ("url",
            VStr (get_container_sas_url w (container_name container)
                    StorageType_corpus
                    (bool_decide (Read ∈ def_permissions container_def))
                    (bool_decide (Write ∈ def_permissions container_def))
                    (bool_decide (Delete ∈ def_permissions container_def))
                    (bool_decide (List ∈ def_permissions container_def))))]
        :: container_entries w container_def (S i) rest
  end.

(** One iteration of the loop of lines 301-333. *)
Definition build_container (w : Services) (task_config : TaskConfig)
    (config : TaskUnitConfig) (container_def : ContainerDefinition)
  : TaskUnitConfig :=
  if bool_decide (def_type container_def = setup) then config
  else
    let containers :=
      container_entries w container_def 0 (config_containers task_config) in
    match containers with
    | [] => config
    | first :: _ =>
        if bool_decide (def_compare container_def ∈ [Equal; AtMost])
           && (def_value container_def =? 1)%Z
        then <[ContainerType_name (def_type container_def) := first]> config
        else <[ContainerType_name (def_type container_def) := VList containers]>
               config
    end.

(** Lines 301-333. *)
Definition build_containers (w : Services) (definition : TaskDefinition)
    (task_config : TaskConfig) (config : TaskUnitConfig) : TaskUnitConfig :=
  fold_left (build_container w task_config)
    (definition_containers definition) config.

(** Lines 335-450: one conditional assignment per feature, in source
    order; each [let] rebinds [config] as the assignment mutates it. *)
Definition build_features (definition : TaskDefinition)
    (task_config : TaskConfig) (config : TaskUnitConfig) : TaskUnitConfig :=
  let task := config_task task_config in
  let has := declares definition in
  let config :=
    set_if (has supervisor_exe) "supervisor_exe"
      (of_option VStr (task_supervisor_exe task)) config in
  let config :=
    set_if (has supervisor_env) "supervisor_env"
      (or_EMPTY_DICT (task_supervisor_env task)) config in
  let config :=
    set_if (has supervisor_options) "supervisor_options"
      (or_EMPTY_LIST (task_supervisor_options task)) config in
  let config :=
    set_if (has supervisor_input_marker) "supervisor_input_marker"
      (of_option VStr (task_supervisor_input_marker task)) config in
  let config :=
    set_if (has target_exe) "target_exe"
      (of_option VStr (task_target_exe task)) config in
  let config :=
    set_if (has target_exe_optional && truthy (task_target_exe task)) "target_exe"
      (of_option VStr (task_target_exe task)) config in
  let config :=
    set_if (has target_env) "target_env"
      (or_EMPTY_DICT (task_target_env task)) config in
  let config :=
    set_if (has target_options) "target_options"
      (or_EMPTY_LIST (task_target_options task)) config in
  let config :=
    set_if (has target_options_merge) "target_options_merge"
      (or_False (task_target_options_merge task)) config in
  let config :=
    set_if (has target_workers) "target_workers"
      (of_option VInt (task_target_workers task)) config in
  let config :=
    set_if (has rename_output) "rename_output"
      (or_False (task_rename_output task)) config in
  let config :=
    set_if (has generator_exe) "generator_exe"
      (of_option VStr (task_generator_exe task)) config in
  let config :=
    set_if (has generator_env) "generator_env"
      (or_EMPTY_DICT (task_generator_env task)) config in
  let config :=
    set_if (has generator_options) "generator_options"
      (or_EMPTY_LIST (task_generator_options task)) config in
  let config :=
    set_if (has wait_for_files && is_set (task_wait_for_files task)) "wait_for_files"
      (of_option (fun t => VStr (ContainerType_name t))
         (task_wait_for_files task)) config in
  let config :=
    set_if (has analyzer_exe) "analyzer_exe"
      (of_option VStr (task_analyzer_exe task)) config in
  let config :=
    set_if (has analyzer_options) "analyzer_options"
      (or_EMPTY_LIST (task_analyzer_options task)) config in
  let config :=
    set_if (has analyzer_env) "analyzer_env"
      (or_EMPTY_DICT (task_analyzer_env task)) config in
  let config :=
    set_if (has stats_file) "stats_file"
      (of_option VStr (task_stats_file task)) config in
  let config :=
    set_if (has stats_file) "stats_format"
      (of_option of_stats_format (task_stats_format task)) config in
  let config :=
    set_if (has target_timeout) "target_timeout"
      (of_option VInt (task_target_timeout task)) config in
  let config :=
    set_if (has check_asan_log) "check_asan_log"
      (of_option VBool (task_check_asan_log task)) config in
  let config :=
    set_if (has check_debugger) "check_debugger"
      (of_option VBool (task_check_debugger task)) config in
  let config :=
    set_if (has check_retry_count) "check_retry_count"
      (or_0 (task_check_retry_count task)) config in
  let config :=
    set_if (has ensemble_sync_delay) "ensemble_sync_delay"
      (of_option VInt (task_ensemble_sync_delay task)) config in
  let config :=
    set_if (has check_fuzzer_help) "check_fuzzer_help"
      (if_not_None_else_True (task_check_fuzzer_help task)) config in
  let config :=
    set_if (has report_list) "report_list"
      (of_option of_options (task_report_list task)) config in
  let config :=
    set_if (has minimized_stack_depth) "minimized_stack_depth"
      (of_option VInt (task_minimized_stack_depth task)) config in
  let config :=
    set_if (has expect_crash_on_failure) "expect_crash_on_failure"
      (if_not_None_else_True (task_expect_crash_on_failure task)) config in
  let config :=
    set_if (has coverage_filter && is_set (task_coverage_filter task)) "coverage_filter"
      (of_option VStr (task_coverage_filter task)) config in
  let config :=
    set_if (has target_assembly) "target_assembly"
      (of_option VStr (task_target_assembly task)) config in
  let config :=
    set_if (has target_class) "target_class"
      (of_option VStr (task_target_class task)) config in
  let config :=
    set_if (has target_method) "target_method"
      (of_option VStr (task_target_method task)) config in
  config.

Definition build_task_config (w : Services) (job : Job) (task : Task)
  : logged exn TaskUnitConfig :=
  let job_id := job_id job in
  let task_id := task_id task in
  let task_config := task_config task in
  match TASK_DEFINITIONS w (task_type (config_task task_config)) with
  | None =>
      raise (TaskConfigError
               ("unsupported task type: "
                +:+ TaskType_name (task_type (config_task task_config))))
  | Some definition =>
      let config : TaskUnitConfig :=
        <["instance_id" := VStr (get_instance_id w)]>
        $ <["heartbeat_queue" :=
              VStr (get_queue_sas w "task-heartbeat" StorageType_config
                      true false false false)]>
        $ <["microsoft_telemetry_key" :=
              of_option VStr (environ_get w "ONEFUZZ_TELEMETRY")]>
        $ <["instance_telemetry_key" :=
              of_option VStr (environ_get w "APPINSIGHTS_INSTRUMENTATIONKEY")]>
        $ <["task_type" :=
              VEnum "TaskType"
                (TaskType_name (task_type (config_task task_config)))]>
        $ <["task_id" := VStr task_id]>
        $ <["job_id" := VStr job_id]> ∅ in
      config ←
        (if truthy (job_logs (job_config job))
         then ret (<["logs" :=
                       of_option (fun logs => VStr (add_container_sas_url w logs))
                         (job_logs (job_config job))]> config)
         else
           log WARNING
             ("Missing log container:  job_id " +:+ job_id
              +:+ ", task_id " +:+ task_id) ;;
           ret config);
      let config :=
        set_if (is_set (definition_monitor_queue definition)) "input_queue"
          (VStr (get_queue_sas w task_id StorageType_corpus
                   true true true true))
          config in
      let config := build_containers w definition task_config config in
      ret (build_features definition task_config config)
  end.

(** *** [get_setup_container] *)

Fixpoint first_setup (submitted : list TaskContainers) : option Container :=
  match submitted with
  | [] => None
  | container :: rest =>
      if bool_decide (container_type container = setup)
      then Some (container_name container)
      else first_setup rest
  end.

Definition get_setup_container (config : TaskConfig) : result exn Container :=
  match first_setup (config_containers config) with
  | Some name => Ok name
  | None =>
      Raise (TaskConfigError
               ("task missing setup container: task_type = TaskType."
                +:+ TaskType_name (task_type (config_task config))))
  end.

End tasks.

(** ** [deploylib/configuration.py] *)

Module deploylib.

(** A value handed to [Config] ([config: Any]), as [json.load] produces
    them.  A dictionary keeps its items in order and has no repeated key. *)
Inductive Any :=
| PNone
| PBool (b : bool)
| PInt (z : Z)
| PStr (s : string)
| PList (l : list Any)
| PDict (d : list (string * Any)).

Inductive exn :=
| Exception (msg : string)
| ValueError (args : list Any)
| AttributeError.

(** The standard-library parsers the module calls, each reduced to
    whether it accepts its argument: [uuid.UUID(s)],
    [ipaddress.ip_address(s)] and [ipaddress.ip_network(s, False)]. *)
Record Library := mkLibrary {
  UUID_parses : string -> bool;
  ip_address_parses : string -> bool;
  ip_network_parses : string -> bool
}.

(** [key in d] and [d[key]] *)
Fixpoint lookup_key (d : list (string * Any)) (key : string) : option Any :=
  match d with
  | [] => None
  | (k, v) :: rest => if String.eqb k key then Some v else lookup_key rest key
  end.

(** [isinstance(x, str)] *)
Definition is_str (x : Any) : bool :=
  match x with PStr _ => true | _ => false end.

(** [x == s] for a string [s] *)
Definition eq_str (x : Any) (s : string) : bool :=
  match x with PStr t => String.eqb t s | _ => false end.

Record Config := mkConfig {
  cli_client_id : string;
  tenant_id : string;
  tenant_domain : string;
  multi_tenant_domain : string;
  allowed_ips : list Any;
  allowed_service_tags : list Any
}.

(** *** [Config.parse_nsg_json]: the values assigned to [allowed_ips] and
    [allowed_service_tags]. *)
Definition parse_nsg_json (config : Any) : result exn (list Any * list Any) :=
  match config with
  | PDict d =>
      if length d =? 0
      then Raise (Exception
             "Empty Configuration File Provided. Please Provide Valid Config.")
      else
      match lookup_key d "proxy_nsg_config" with
      | None =>
          Raise (Exception
            "proxy_nsg_config not provided as valid key. Please Provide Valid Config.")
      | Some (PDict proxy_config) =>
          if length proxy_config =? 0
          then Raise (Exception
            "Empty Inner Configuration File Provided. Please Provide Valid Config.")
          else
          match lookup_key proxy_config "allowed_ips",
                lookup_key proxy_config "allowed_service_tags" with
          | Some ips, Some tags =>
              match ips, tags with
              | PList ips, PList tags =>
                  if (negb (length ips =? 0) && negb (forallb is_str ips))
                     || (negb (length ips =? 0) && negb (forallb is_str tags))
                  then Raise (Exception
                    "allowed_ips and allowed_service_tags are not a list of strings. Please Provide Valid Config.")
                  else Ok (ips, tags)
              | _, _ =>
                  Raise (Exception
                    "allowed_ips and allowed_service_tags are not a list. Please Provide Valid Config.")
              end
          | _, _ =>
              Raise (Exception
                "allowed_ips and allowed_service_tags not provided. Please Provide Valid Config.")
          end
      | Some _ =>
          Raise (Exception
            "Inner Configuration is not a Dictionary. Please provide Valid Config.")
      end
  | _ =>
      Raise (Exception
        "Configuration is not a Dictionary. Please provide Valid Config.")
  end.

(** A required string entry of [parse_endpoint_json]: the key must be
    present ([missing] otherwise) and hold a string, non-empty unless
    [may_be_empty] ([not_a_string] otherwise). *)
Definition string_entry (d : list (string * Any)) (key : string)
    (may_be_empty : bool) (missing not_a_string : string)
  : result exn string :=
  match lookup_key d key with
  | None => Raise (Exception missing)
  | Some (PStr s) =>
      if negb may_be_empty && String.eqb s ""
      then Raise (Exception not_a_string)
      else Ok s
  | Some _ => Raise (Exception not_a_string)
  end.

(** *** [Config.parse_endpoint_json], called by [__init__] once
    [parse_nsg_json] has established that [config] is a dictionary [d]:
    the values assigned to [cli_client_id], [tenant_id], [tenant_domain]
    and [multi_tenant_domain]. *)
Definition parse_endpoint_json (lib : Library) (d : list (string * Any))
  : result exn (string * string * string * string) :=
  cli_client_id ← string_entry d "cli_client_id" false
    "CLI client_id not provided as valid key. Please Provide Valid Config."
    "client_id is not a string. Please provide valid client_id.";
  (if UUID_parses lib cli_client_id then Ok tt
   else Raise (Exception
          "client_id is not a valid UUID. Please provide valid client_id.")) ;;
  tenant_id ← string_entry d "tenant_id" false
    "tenant_id not provided as valid key. Please provide valid config."
    "tenant_id is not a string. Please provide valid tenant_id.";
  tenant_domain ← string_entry d "tenant_domain" false
    "tenant_domain not provided as valid key. Please provide valid config."
    "tenant_domain is not a string. Please provide valid tenant_domain.";
  multi_tenant_domain ← string_entry d "multi_tenant_domain" true
    "multi_tenant_domain not provided as valid key. Please provide valid config. If the instance is not multi-tenant, please provide an empty string."
    "multi_tenant_domain is not a string. Please provide valid multi_tenant_domain. If the instance is not multi-tenant, please provide an empty string.";
  Ok (cli_client_id, tenant_id, tenant_domain, multi_tenant_domain).

(** *** [Config.__init__] *)
Definition Config_init (lib : Library) (config : Any) : result exn Config :=
  nsg ← parse_nsg_json config;
  match config with
  | PDict d =>
      endpoint ← parse_endpoint_json lib d;
      let '(cli_client_id, tenant_id, tenant_domain, multi_tenant_domain) :=
        endpoint in
      Ok (mkConfig cli_client_id tenant_id tenant_domain multi_tenant_domain
            nsg.1 nsg.2)
  | _ => Raise (Exception
           "Configuration is not a Dictionary. Please provide Valid Config.")
  end.

(** *** [NsgRule] *)
Record NsgRule := mkNsgRule {
  rule : Any;
  is_tag : bool
}.

(** [NsgRule.check_rule]: returns the value [is_tag] has afterwards.  A
    value that is not a string has no [strip]. *)
Definition check_rule (lib : Library) (value : Any) : result exn bool :=
  match value with
  | PNone =>
      Raise (ValueError [PStr
        "Please provide a valid rule. Supply an empty list to block all sources or the wild card * to allow all sources."])
  | PStr s =>
      if String.length (py.strip s) =? 0
      then Raise (ValueError [PStr
        "Please provide a valid rule. Supply an empty list to block all sources or the wild card * to allow all sources."])
      else if String.eqb s "*" then Ok false
      else if ip_address_parses lib s then Ok false
      else if ip_network_parses lib s then Ok false
      else Ok true
  | _ => Raise AttributeError
  end.

(** [NsgRule.__init__] *)
Definition NsgRule_init (lib : Library) (rule : Any) : result exn NsgRule :=
  match check_rule lib rule with
  | Ok is_tag => Ok (mkNsgRule rule is_tag)
  | Raise _ =>
      Raise (ValueError [PStr
        "Invalid rule. Please provide a valid rule or supply the wild card *."])
  end.

(** *** [parse_rules] *)

(** One of the two loops: [fmt] is the message of the error raised when an
    entry is refused. *)
Fixpoint classify (lib : Library) (fmt : string) (rules : list Any)
    (nsg_rules : list NsgRule) : result exn (list NsgRule) :=
  match rules with
  | [] => Ok nsg_rules
  | rule :: rest =>
      match NsgRule_init lib rule with
      | Ok nsg_rule => classify lib fmt rest (nsg_rules ++ [nsg_rule])
      | Raise _ => Raise (ValueError [PStr fmt; rule])
      end
  end.

Definition invalid_ips : string :=
  "One or more input ips was invalid: %s. Please enter a comma-separated list of valid sources.".

Definition invalid_tags : string :=
  "One or more input tags was invalid: %s. Please enter a comma-separated list of valid sources.".

Definition parse_rules (lib : Library) (proxy_config : Config)
  : result exn (list NsgRule) :=
  let allowed_ips := allowed_ips proxy_config in
  let allowed_service_tags := allowed_service_tags proxy_config in
  if existsb (fun x => eq_str x "*") allowed_ips then
    nsg_rule ← NsgRule_init lib (PStr "*");
    Ok [nsg_rule]
  else if length allowed_ips + length allowed_service_tags =? 0 then Ok []
  else
    nsg_rules ← classify lib invalid_ips allowed_ips [];
    classify lib invalid_tags allowed_service_tags nsg_rules.

(** *** The table service

    What the module does to the outside, in the order it does it: the
    assignments to [storage_client_logger.disabled] and the calls to the
    table service. *)
Definition TABLE_NAME : string := "InstanceConfig".

Inductive action :=
| set_disabled (disabled : bool)
| exists_ (table_name : string)
| create_table (table_name : string)
| insert_or_merge_entity (table_name : string) (entity : list (string * string)).

(** The table service, reduced to what each of its methods answers: a
    value, or the exception it raises. *)
Record TableService := mkTableService {
  TableService_exists : string -> result exn bool;
  TableService_create_table : string -> result exn unit;
  TableService_insert_or_merge_entity :
    string -> list (string * string) -> result exn unit
}.

(** A computation that acts on the outside: the actions performed, and the
    value returned or the exception raised. *)
Definition io (A : Type) : Type := list action * result exn A.

Definition io_ret {A} (a : A) : io A := ([], Ok a).

Definition io_bind {A B} (m : io A) (k : A -> io B) : io B :=
  match m.2 with
  | Ok a => (m.1 ++ (k a).1, (k a).2)
  | Raise e => (m.1, Raise e)
  end.

#[export] Instance io_mbind : MBind io := fun A B k m => io_bind m k.

(** One call: the action, and what the callee answers. *)
Definition call {A} (a : action) (answer : result exn A) : io A := ([a], answer).

(** [try: body finally: handler] *)
Definition try_finally {A} (body : io A) (handler : io unit) : io A :=
  (body.1 ++ handler.1,
   match handler.2 with
   | Ok _ => body.2
   | Raise e => Raise e
   end).

(** The JSON encoder and the printing of a UUID. *)
Record UUID := mkUUID { UUID_int : N }.

Record Encoders := mkEncoders {
  dumps : Any -> string;
  str_of_UUID : UUID -> string
}.

(** *** [InstanceConfigClient]

    [storage_client_logger] is a [logging.Logger], which is always
    true. *)
Record InstanceConfigClient := mkInstanceConfigClient {
  table_service : TableService;
  resource_group : string
}.

Definition disable_storage_client_logging : io unit :=
  call (set_disabled true) (Ok tt).

Definition enable_storage_client_logging : io unit :=
  call (set_disabled false) (Ok tt).

Definition create_if_missing (table_service : TableService) : io unit :=
  try_finally
    (disable_storage_client_logging ;;
     found ← call (exists_ TABLE_NAME)
               (TableService_exists table_service TABLE_NAME);
     if negb found
     then call (create_table TABLE_NAME)
            (TableService_create_table table_service TABLE_NAME)
     else io_ret tt)
    enable_storage_client_logging.

(** [InstanceConfigClient.__init__] *)
Definition InstanceConfigClient_init (table_service : TableService)
    (resource_group : string) : io InstanceConfigClient :=
  create_if_missing table_service ;;
  io_ret (mkInstanceConfigClient table_service resource_group).

(** *** [update_allowed_aad_tenants], [update_admins], [update_nsg] *)

Definition update_allowed_aad_tenants (enc : Encoders)
    (config_client : InstanceConfigClient) (tenants : list UUID) : io unit :=
  let as_str := map (fun x => PStr (str_of_UUID enc x)) tenants in
  let entity :=
    [("PartitionKey", resource_group config_client);
     ("RowKey", resource_group config_client);
     ("allowed_aad_tenants", dumps enc (PList as_str))] in
  call (insert_or_merge_entity TABLE_NAME entity)
    (TableService_insert_or_merge_entity (table_service config_client)
       TABLE_NAME entity).

Definition update_admins (enc : Encoders)
    (config_client : InstanceConfigClient) (admins : list UUID) : io unit :=
  let admins_as_str :=
    match admins with
    | [] => PNone
    | _ => PList (map (fun x => PStr (str_of_UUID enc x)) admins)
    end in
  let entity :=
    [("PartitionKey", resource_group config_client);
     ("RowKey", resource_group config_client);
     ("admins", dumps enc admins_as_str)] in
  call (insert_or_merge_entity TABLE_NAME entity)
    (TableService_insert_or_merge_entity (table_service config_client)
       TABLE_NAME entity).

(** The dictionary [nsg_config] of [update_nsg]. *)
Definition nsg_config (allowed_rules : list NsgRule) : Any :=
  let tags_as_str :=
    map rule (filter (fun x => is_tag x = true) allowed_rules) in
  let ips_as_str :=
    map rule (filter (fun x => is_tag x = false) allowed_rules) in
  PDict [("allowed_service_tags", PList tags_as_str);
         ("allowed_ips", PList ips_as_str)].

Definition update_nsg (enc : Encoders) (config_client : InstanceConfigClient)
    (allowed_rules : list NsgRule) : io unit :=
  let entity :=
    [("PartitionKey", resource_group config_client);
     ("RowKey", resource_group config_client);
     ("proxy_nsg_config", dumps enc (nsg_config allowed_rules))] in
  call (insert_or_merge_entity TABLE_NAME entity)
    (TableService_insert_or_merge_entity (table_service config_client)
       TABLE_NAME entity).

End deploylib.

(** ** Vocabulary of the statements *)

Module spec.
Import tasks.

(** The number of submitted containers of a role. *)
Definition count_role (role : ContainerType) (config : TaskConfig) : nat :=
  length (filter (fun c => container_type c = role) (config_containers config)).

(** The roles a definition declares. *)
Definition declared_roles (definition : TaskDefinition) : list ContainerType :=
  map def_type (definition_containers definition).

(** The dictionary after the first loop, had no lookup failed. *)
Definition collected (submitted : list TaskContainers)
    (containers : list (ContainerType * list Container))
  : list (ContainerType * list Container) :=
  fold_left
    (fun acc c => dict_append acc (container_type c) (container_name c))
    submitted containers.

(** The error of the [generator_exe] block for a missing blob. *)
Definition generator_missing (exe : string) (container : TaskContainers)
  : string :=
  "generator_exe `" +:+ exe +:+ "` does not exist in the tools container `"
  +:+ container_name container +:+ "`".

(** *** Blob names *)

(** [c in s] for a character. *)
Fixpoint occurs (c : ascii) (s : string) : bool :=
  match s with
  | EmptyString => false
  | String c' s' => Ascii.eqb c' c || occurs c s'
  end.

(** The rules for a blob name as the specification lists them, over the
    segments obtained by splitting the name on forward slashes. *)
Definition blob_name_rules (s : string) : Prop :=
  1 ≤ String.length s ≤ 1024
  ∧ s = py.strip s
  ∧ length (py.split "/"%char s) ≤ 254
  ∧ (∀ segment, segment ∈ py.split "/"%char s →
                py.endswith segment "." = false)
  ∧ py.startswith s "/" = false
  ∧ (∀ segment, segment ∈ py.split "/"%char s →
                segment ≠ "." ∧ segment ≠ "..")
  ∧ s = pathlib.as_posix (pathlib.parse s).

(** *** [build_task_config] *)

(** [enumerate(l, start)] *)
Definition enumerate {A} (start : nat) (l : list A) : list (nat * A) :=
  zip (seq start (length l)) l.

(** The entry generated for the submitted container [container] found at
    position [i], for the role declared by [container_def]: the path
    [task_<role>_<i>] and the URL issued for the container with the flags
    of the declared permission set. *)
Definition entry (w : Services) (container_def : ContainerDefinition)
    (i : nat) (container : TaskContainers) : value :=
  VDict
    [("path",
      VStr ("task_" +:+ ContainerType_name (def_type container_def)
            +:+ "_" +:+ py.str_of_nat i));
     ("url",
      VStr (get_container_sas_url w (container_name container)
              StorageType_corpus
              (bool_decide (Read ∈ def_permissions container_def))
              (bool_decide (Write ∈ def_permissions container_def))
              (bool_decide (Delete ∈ def_permissions container_def))
              (bool_decide (List ∈ def_permissions container_def))))].

(** A role of cardinality exactly one. *)
Definition single (container_def : ContainerDefinition) : bool :=
  bool_decide (def_compare container_def = Equal
               ∨ def_compare container_def = AtMost)
  && bool_decide (def_value container_def = 1%Z).

(** The value one iteration of the container loop assigns, if any. *)
Definition role_field (w : Services) (container_def : ContainerDefinition)
    (task_config : TaskConfig) : option value :=
  if bool_decide (def_type container_def = setup) then None
  else
    match container_entries w container_def 0 (config_containers task_config)
    with
    | [] => None
    | first :: rest =>
        Some (if single container_def then first else VList (first :: rest))
    end.

(** The attributes set before the container loop. *)
Definition base_fields : list string :=
  ["job_id"; "task_id"; "task_type"; "instance_telemetry_key";
   "microsoft_telemetry_key"; "heartbeat_queue"; "instance_id"; "logs";
   "input_queue"].

(** The attributes the feature assignments may set. *)
Definition feature_fields : list string :=
  ["supervisor_exe"; "supervisor_env"; "supervisor_options";
   "supervisor_input_marker"; "target_exe"; "target_env"; "target_options";
   "target_options_merge"; "target_workers"; "rename_output";
   "generator_exe"; "generator_env"; "generator_options"; "wait_for_files";
   "analyzer_exe"; "analyzer_options"; "analyzer_env"; "stats_file";
   "stats_format"; "target_timeout"; "check_asan_log"; "check_debugger";
   "check_retry_count"; "ensemble_sync_delay"; "check_fuzzer_help";
   "report_list"; "minimized_stack_depth"; "expect_crash_on_failure";
   "coverage_filter"; "target_assembly"; "target_class"; "target_method"].

(** After the feature assignments, [field] holds [v] if [feature] is
    declared, and is as it was before otherwise. *)
Definition assigned (definition : TaskDefinition)
    (before after : TaskUnitConfig) (feature : TaskFeature) (field : string)
    (v : value) : Prop :=
  after !! field =
  if declares definition feature then Some v else before !! field.

End spec.


(** ** Vocabulary of the further statements *)

Module spec_more.
Import tasks.

(** A computation raises what it logs as an error: every [ERROR] record
    carries the message of the [TaskConfigError] the computation ends
    with. *)
Definition raises_logged_errors {A} (m : logged exn A) : Prop :=
  ∀ msg, (ERROR, msg) ∈ records m → outcome m = Raise (TaskConfigError msg).

(** A computation that returns has logged nothing. *)
Definition silent_on_return {A} (m : logged exn A) : Prop :=
  ∀ a, outcome m = Ok a → records m = [].

End spec_more.

Module spec_nsg.
Import deploylib.

(** An entry [NsgRule] accepts: a string that does not strip to nothing. *)
Definition usable (x : Any) : bool :=
  match x with
  | PStr s => negb (String.length (py.strip s) =? 0)
  | _ => false
  end.

(** An entry that reads as a source address: the wildcard, or a string one
    of the two parsers of [ipaddress] accepts. *)
Definition address_like (lib : Library) (x : Any) : bool :=
  match x with
  | PStr s =>
      String.eqb s "*" || ip_address_parses lib s || ip_network_parses lib s
  | _ => false
  end.

(** The rule made of an accepted entry. *)
Definition rule_of (lib : Library) (x : Any) : NsgRule :=
  mkNsgRule x (negb (address_like lib x)).

End spec_nsg.

Module spec_paths.
Import tasks.

(** The [path] of an entry generated for a container. *)
Definition path_of (v : value) : option string :=
  match v with
  | VDict (("path", VStr path) :: _) => Some path
  | _ => None
  end.

End spec_paths.

(** ** Sample catalogs, services and submissions used in the examples *)

(** *** A task type that requires exactly one [setup] container *)

Module one_setup.
Import tasks.

Definition details : TaskDetails :=
  mkTaskDetails (mkTaskType "generic_analysis")
    None None None None None None None None None None None None None None None
    None None None None None None None None None None None None None None None
    None None.

Definition definition : TaskDefinition :=
  mkTaskDefinition [] (mkVmDefinition AtLeast 1)
    [mkContainerDefinition setup Equal 1 [Read; List]] None.

Definition services : Services :=
  mkServices
    (fun t => if decide (t = mkTaskType "generic_analysis")
              then Some definition else None)
    (fun name _ => bool_decide (name ∈ ["a"; "b"]))
    (fun _ _ _ => false)
    (fun logs => logs)
    (fun name _ _ _ _ _ => name)
    (fun name _ _ _ _ _ => name)
    "instance"
    (fun name => if decide (name = "pool") then Some (mkPool name) else None)
    (fun _ => None).

Definition submit (containers : list TaskContainers) : TaskConfig :=
  mkTaskConfig details None (Some (mkTaskPool 1 "pool")) containers.

(** The same submission with the legacy VM specification alone, and with
    both the VM specification and the pool. *)
Definition submit_vm (containers : list TaskContainers) : TaskConfig :=
  mkTaskConfig details (Some mkTaskVm) None containers.

Definition submit_both (containers : list TaskContainers) : TaskConfig :=
  mkTaskConfig details (Some mkTaskVm) (Some (mkTaskPool 1 "pool")) containers.

End one_setup.


(** *** A generator task: one [setup] and one [tools] container *)

Module generator.
Import tasks.

Definition details (exe : option string) : TaskDetails :=
  mkTaskDetails (mkTaskType "generic_generator")
    None None None None None None None None None None exe None None None None
    None None None None None None None None None None None None None None None
    None None.

Definition definition : TaskDefinition :=
  mkTaskDefinition [generator_exe] (mkVmDefinition AtLeast 1)
    [mkContainerDefinition setup Equal 1 [Read; List];
     mkContainerDefinition tools Equal 1 [Read; List]] None.

(** The containers ["s"] and ["t"] exist; the only blob is ["present"] in
    ["t"]. *)
Definition services : Services :=
  mkServices
    (fun t => if decide (t = mkTaskType "generic_generator")
              then Some definition else None)
    (fun name _ => bool_decide (name ∈ ["s"; "t"]))
    (fun container blob _ =>
       bool_decide (container = "t") && bool_decide (blob = "present"))
    (fun logs => logs)
    (fun name _ _ _ _ _ => name)
    (fun name _ _ _ _ _ => name)
    "instance"
    (fun name => if decide (name = "pool") then Some (mkPool name) else None)
    (fun _ => None).

Definition submit (exe : option string) : TaskConfig :=
  mkTaskConfig (details exe) None (Some (mkTaskPool 1 "pool"))
    [mkTaskContainers setup "s"; mkTaskContainers tools "t"].

(** The same submission with a [target_exe], and a definition that
    declares the [target_exe] feature. *)
Definition submit_target (target : option string) : TaskConfig :=
  mkTaskConfig
    (mkTaskDetails (mkTaskType "generic_generator")
       None None None None target None None None None None None None None None
       None None None None None None None None None None None None None None
       None None None None)
    None (Some (mkTaskPool 1 "pool"))
    [mkTaskContainers setup "s"; mkTaskContainers tools "t"].

Definition target_definition : TaskDefinition :=
  mkTaskDefinition [target_exe] (mkVmDefinition AtLeast 1)
    [mkContainerDefinition setup Equal 1 [Read; List];
     mkContainerDefinition tools Equal 1 [Read; List]] None.

End generator.

(** *** A stand-in for [uuid] and [ipaddress]

    Enough of the three parsers to run the examples: the canonical
    8-4-4-4-12 form of a UUID, dotted-quad IPv4 addresses, and IPv4
    networks written [address/prefix-length].  The statements below hold for
    every [Library]; this one only instantiates them. *)

Module sample_library.
Import deploylib.

Definition is_digit (c : ascii) : bool :=
  (48 <=? nat_of_ascii c) && (nat_of_ascii c <=? 57).

Definition is_hex (c : ascii) : bool :=
  is_digit c
  || ((97 <=? nat_of_ascii c) && (nat_of_ascii c <=? 102))
  || ((65 <=? nat_of_ascii c) && (nat_of_ascii c <=? 70)).

Fixpoint decimal (acc : N) (s : string) : N :=
  match s with
  | EmptyString => acc
  | String c s' => decimal (10 * acc + (N_of_ascii c - 48))%N s'
  end.

Definition all_chars (p : ascii -> bool) (s : string) : bool :=
  forallb p (String.list_ascii_of_string s).

(** A decimal number of one to [digits] digits, at most [bound], with no
    leading zero. *)
Definition number (digits : nat) (bound : N) (s : string) : bool :=
  (1 <=? String.length s) && (String.length s <=? digits)
  && all_chars is_digit s
  && (decimal 0 s <=? bound)%N
  && ((String.length s =? 1) || negb (String.prefix "0" s)).

Definition ipv4_address (s : string) : bool :=
  let octets := py.split "."%char s in
  (length octets =? 4) && forallb (number 3 255) octets.

Definition ipv4_network (s : string) : bool :=
  match py.split "/"%char s with
  | [address] => ipv4_address address
  | [address; prefix] => ipv4_address address && number 2 32 prefix
  | _ => false
  end.

Definition canonical_uuid (s : string) : bool :=
  match py.split "-"%char s with
  | [a; b; c; d; e] =>
      forallb (all_chars is_hex) [a; b; c; d; e]
      && bool_decide (map String.length [a; b; c; d; e] = [8; 4; 4; 4; 12])
  | _ => false
  end.

Definition library : Library :=
  mkLibrary canonical_uuid ipv4_address ipv4_network.

(** A configuration file with the given rule lists and client id. *)
Definition items (ips tags : Any) (client_id multi_tenant_domain : Any)
  : list (string * Any) :=
  [("proxy_nsg_config",
    PDict [("allowed_ips", ips); ("allowed_service_tags", tags)]);
   ("cli_client_id", client_id);
   ("tenant_id", PStr "72f988bf-86f1-41af-91ab-2d7cd011db47");
   ("tenant_domain", PStr "contoso.onmicrosoft.com");
   ("multi_tenant_domain", multi_tenant_domain)].

Definition file (ips tags : Any) (client_id multi_tenant_domain : Any) : Any :=
  PDict (items ips tags client_id multi_tenant_domain).

Definition client_id : Any := PStr "82fb1363-1f4a-4e1f-b5a4-d4b3570f6bf4".

End sample_library.

(** *** A fuzzing task with several roles and features *)

Module fuzz.
Import tasks.

Definition crashes : ContainerType := mkContainerType "crashes".
Definition inputs : ContainerType := mkContainerType "inputs".
Definition readonly_inputs : ContainerType := mkContainerType "readonly_inputs".

Definition details : TaskDetails :=
  mkTaskDetails (mkTaskType "libfuzzer_fuzz")
    None None None None (Some "fuzz.exe") None (Some ["-runs=10"]) None None
    None None None None None None None None None None None None None None
    None None None None None None None None None.

Definition definition : TaskDefinition :=
  mkTaskDefinition
    [target_exe; target_env; target_options; rename_output; check_fuzzer_help]
    (mkVmDefinition AtLeast 1)
    [mkContainerDefinition setup Equal 1 [Read; List];
     mkContainerDefinition crashes Equal 1 [Write];
     mkContainerDefinition inputs AtMost 1 [Read; Write; Delete; List];
     mkContainerDefinition readonly_inputs AtLeast 1 [Read; List]]
    None.

(** The URL issued for a container shows the flags it was issued with. *)
Definition services : Services :=
  mkServices
    (fun t => if decide (t = mkTaskType "libfuzzer_fuzz")
              then Some definition else None)
    (fun _ _ => true)
    (fun _ _ _ => true)
    (fun logs => logs)
    (fun name _ read write delete list_ =>
       name +:+ "?"
       +:+ (if read then "r" else "") +:+ (if write then "w" else "")
       +:+ (if delete then "d" else "") +:+ (if list_ then "l" else ""))
    (fun name _ _ _ _ _ => name)
    "instance"
    (fun name => if decide (name = "pool") then Some (mkPool name) else None)
    (fun _ => None).

Definition task : Task :=
  mkTask "task-1"
    (mkTaskConfig details None (Some (mkTaskPool 1 "pool"))
       [mkTaskContainers setup "s";
        mkTaskContainers readonly_inputs "seeds-a";
        mkTaskContainers crashes "found";
        mkTaskContainers readonly_inputs "seeds-b"]).

Definition job : Job := mkJob "job-1" (mkJobConfig None).

(** The attribute [field] of the unit config built for [task]. *)
Definition built (field : string) : option value :=
  match outcome (build_task_config services job task) with
  | Ok config => config !! field
  | Raise _ => None
  end.

End fuzz.

(** *** A generator task whose [tools] container is optional *)

Module optional_tools.
Import tasks.

Definition definition : TaskDefinition :=
  mkTaskDefinition [generator_exe] (mkVmDefinition AtLeast 1)
    [mkContainerDefinition setup Equal 1 [Read; List];
     mkContainerDefinition tools AtMost 1 [Read; List]] None.

(** The container ["s"] exists; there is no blob. *)
Definition services : Services :=
  mkServices
    (fun t => if decide (t = mkTaskType "generic_generator")
              then Some definition else None)
    (fun name _ => bool_decide (name = "s"))
    (fun _ _ _ => false)
    (fun logs => logs)
    (fun name _ _ _ _ _ => name)
    (fun name _ _ _ _ _ => name)
    "instance"
    (fun name => if decide (name = "pool") then Some (mkPool name) else None)
    (fun _ => None).

(** A submission with the [setup] container alone. *)
Definition submit (exe : option string) : TaskConfig :=
  mkTaskConfig (generator.details exe) None (Some (mkTaskPool 1 "pool"))
    [mkTaskContainers setup "s"].

End optional_tools.
(* ================================================================= *)
(** * Part II: properties *)
(* ================================================================= *)

(** ** Loops and sequencing *)

Lemma for_each_Ok {E A} (body : A -> result E unit) (xs : list A) :
  for_each body xs = Ok tt ↔ Forall (fun x => body x = Ok tt) xs.
Proof.
  induction xs as [|x xs IH]; simpl.
  - split; [constructor | reflexivity].
  - unfold mbind, result_bind. destruct (body x) as [[]|e] eqn:Hx.
    + rewrite IH. split; [intros H; constructor; auto | intros H; inversion H; auto].
    + split; [discriminate | intros H; inversion H; congruence].
Qed.

Lemma for_each_Raise {E A} (body : A -> result E unit) (xs : list A) e :
  for_each body xs = Raise e → ∃ x, x ∈ xs ∧ body x = Raise e.
Proof.
  induction xs as [|x xs IH]; simpl; [discriminate|].
  unfold mbind, result_bind. destruct (body x) as [[]|e'] eqn:Hx.
  - intros H. destruct (IH H) as (y & Hy & Hb). exists y. split; [right|]; auto.
  - intros [= ->]. exists x. split; [left|]; auto.
Qed.



Lemma outcome_bind {E A B} (m : logged E A) (k : A -> logged E B) :
  outcome (m ≫= k) =
  match outcome m with
  | Ok a => outcome (k a)
  | Raise e => Raise e
  end.
Proof.
  unfold outcome, mbind, logged_bind, bind.
  destruct m as [l [a|e]]; simpl; [|reflexivity]. by destruct (k a).
Qed.


Lemma outcome_when {E} (b : bool) (body : logged E unit) :
  outcome (when b body) = if b then outcome body else Ok tt.
Proof. by destruct b. Qed.
Section TaskContainersFacts.
Import py pathlib tasks spec.

(** ** [get_setup_container] *)

Lemma first_setup_Some submitted name :
  first_setup submitted = Some name ↔
  ∃ before container after,
    submitted = before ++ container :: after
    ∧ Forall (fun c => container_type c ≠ setup) before
    ∧ container_type container = setup
    ∧ container_name container = name.
Proof.
  induction submitted as [|c cs IH]; simpl.
  - split; [discriminate|]. intros (b & x & a & H & _). by destruct b.
  - case_bool_decide as Hc.
    + split.
      * intros [= <-]. exists [], c, cs. repeat split; auto.
      * intros (b & x & a & H & Hb & Hx & Hn). destruct b as [|y b]; simpl in H.
        -- injection H as -> ->. by rewrite Hn.
        -- injection H as -> ->. inversion Hb; subst. contradiction.
    + rewrite IH. split.
      * intros (b & x & a & -> & Hb & Hx & Hn). exists (c :: b), x, a.
        repeat split; auto.
      * intros (b & x & a & H & Hb & Hx & Hn). destruct b as [|y b]; simpl in H.
        -- injection H as -> ->. contradiction.
        -- injection H as -> ->. inversion Hb; subst. exists b, x, a. auto.
Qed.

Lemma first_setup_None submitted :
  first_setup submitted = None ↔
  Forall (fun c => container_type c ≠ setup) submitted.
Proof.
  induction submitted as [|c cs IH]; simpl.
  - split; auto.
  - case_bool_decide as Hc.
    + split; [discriminate|]. intros H; inversion H; subst; contradiction.
    + rewrite IH. split; [intros; constructor; auto | intros H; inversion H; auto].
Qed.

(** C10.  [get_setup_container] returns the name of the first submitted
    container whose type is [setup], in submission order; it raises exactly
    when no submitted container has that type, and what it raises is a
    [TaskConfigError].  The function maps the configuration to a result and
    has no other output: the configuration it was given is a value it cannot
    change. *)
Theorem get_setup_container_first (config : TaskConfig) :
  (∀ name,
     get_setup_container config = Ok name ↔
     ∃ before container after,
       config_containers config = before ++ container :: after
       ∧ Forall (fun c => container_type c ≠ setup) before
       ∧ container_type container = setup
       ∧ container_name container = name)
  ∧ ((∃ e, get_setup_container config = Raise e) ↔
     Forall (fun c => container_type c ≠ setup) (config_containers config))
  ∧ (∀ e, get_setup_container config = Raise e →
       e = TaskConfigError
             ("task missing setup container: task_type = TaskType."
              +:+ TaskType_name (task_type (config_task config)))).
Proof.
  unfold get_setup_container. split; [|split].
  - intros name. rewrite <- first_setup_Some.
    destruct (first_setup _); split; congruence.
  - rewrite <- first_setup_None.
    destruct (first_setup _); split; try congruence; eauto.
    intros [e He]; discriminate.
  - intros e. destruct (first_setup _); congruence.
Qed.

Example get_setup_container_example :
  let task := mkTaskDetails (mkTaskType "libfuzzer_fuzz")
    None None None None None None None None None None None None None None None
    None None None None None None None None None None None None None None None
    None None in
  get_setup_container
    (mkTaskConfig task None None
       [mkTaskContainers tools "t"; mkTaskContainers setup "first";
        mkTaskContainers setup "second"]) = Ok "first"
  ∧ get_setup_container
      (mkTaskConfig task None None [mkTaskContainers tools "t"])
    = Raise (TaskConfigError
               "task missing setup container: task_type = TaskType.libfuzzer_fuzz").
Proof. split; reflexivity. Qed.

End TaskContainersFacts.

Section BlobNames.
Import py pathlib tasks spec.

(** ** Splitting and joining *)

Lemma split_nonempty sep s : split sep s ≠ [].
Proof.
  destruct s as [|c s]; simpl; [discriminate|].
  destruct (Ascii.eqb c sep); [discriminate|].
  destruct (split sep s); discriminate.
Qed.

Lemma split_no_sep sep s :
  Forall (fun x => occurs sep x = false) (split sep s).
Proof.
  induction s as [|c s IH]; simpl.
  - by repeat constructor.
  - destruct (Ascii.eqb c sep) eqn:Hc.
    + by constructor.
    + destruct (split sep s) as [|h t]; [by repeat constructor; simpl; rewrite Hc|].
      inversion IH; subst. constructor; [|done]. simpl. by rewrite Hc.
Qed.

Lemma split_single sep x :
  occurs sep x = false → split sep x = [x].
Proof.
  induction x as [|c x IH]; simpl; [reflexivity|].
  intros H. apply orb_false_iff in H as [Hc Hx].
  rewrite Hc, (IH Hx). reflexivity.
Qed.

Lemma split_app sep x rest :
  occurs sep x = false →
  split sep (x +:+ String sep rest) = x :: split sep rest.
Proof.
  induction x as [|c x IH]; simpl.
  - intros _. by rewrite Ascii.eqb_refl.
  - intros H. apply orb_false_iff in H as [Hc Hx].
    by rewrite Hc, (IH Hx).
Qed.

Lemma split_join sep parts :
  parts ≠ [] →
  Forall (fun x => occurs sep x = false) parts →
  split sep (join (String sep "") parts) = parts.
Proof.
  intros Hne H. induction H as [|x rest Hx Hrest IH]; [done|].
  destruct rest as [|y rest].
  - simpl. by apply split_single.
  - change (join (String sep "") (x :: y :: rest))
      with (x +:+ String sep (join (String sep "") (y :: rest))).
    rewrite (split_app _ _ _ Hx). f_equal. by apply IH.
Qed.

(** ** Parsing a relative path *)

Lemma startswith_slash s :
  startswith s "/" = true ↔ ∃ s', s = String "/"%char s'.
Proof.
  unfold startswith. rewrite String.prefix_correct.
  destruct s as [|c s]; simpl.
  - split; [discriminate | by intros [? ?]].
  - assert (String.substring 0 0 s = "") as -> by by destruct s.
    split; [intros [= ->]; eauto | by intros [? [= -> _]]].
Qed.

Lemma splitroot_relative s :
  startswith s "/" = false → splitroot s = ("", s).
Proof.
  intros H. destruct s as [|c s]; [reflexivity|].
  destruct (ascii_dec c "/") as [->|Hc].
  - assert (startswith (String "/" s) "/" = true) as Ht
      by (apply startswith_slash; eauto).
    congruence.
  - unfold splitroot.
    destruct c as [[] [] [] [] [] [] [] []]; try reflexivity. done.
Qed.

Lemma root_parse s :
  root (parse s) = "" ↔ startswith s "/" = false.
Proof.
  split.
  - intros H. destruct (startswith s "/") eqn:Hs; [|reflexivity].
    apply startswith_slash in Hs as [s' ->].
    unfold parse, splitroot in H.
    destruct (_ =? 2); discriminate.
  - intros H. unfold parse. by rewrite (splitroot_relative _ H).
Qed.

Lemma parse_relative s :
  startswith s "/" = false →
  parse s = mkPath "" (filter (fun x => keep_component x = true)
                         (split "/"%char s)).
Proof. intros H. unfold parse. by rewrite (splitroot_relative _ H). Qed.

(** A relative name other than ["."] that equals its normal form is the
    join of its parts, and splitting it gives the parts back. *)
Lemma split_normalized s :
  startswith s "/" = false →
  s ≠ "." →
  s = as_posix (parse s) →
  split "/"%char s = parts (parse s)
  ∧ Forall (fun x => keep_component x = true) (split "/"%char s).
Proof.
  intros Hrel Hdot Hnorm.
  rewrite (parse_relative _ Hrel) in *.
  unfold as_posix, parts in *. simpl in *.
  change ("" +:+ ?x) with x in Hnorm.
  set (kept := filter (fun x => keep_component x = true) (split "/"%char s)) in *.
  destruct (String.eqb_spec (join "/" kept) "") as [He|He]; [congruence|].
  assert (Hsplit : split "/"%char s = kept).
  { rewrite Hnorm at 1. apply split_join.
    - intros Hk. rewrite Hk in He. done.
    - unfold kept. apply Forall_forall. intros x Hx.
      apply list_elem_of_filter in Hx as [_ Hx].
      pose proof (split_no_sep "/"%char s) as Hall.
      rewrite Forall_forall in Hall. by apply Hall. }
  split; [exact Hsplit|].
  rewrite Hsplit. unfold kept. apply Forall_forall. intros x Hx.
  by apply list_elem_of_filter in Hx as [? _].
Qed.


(** ** [is_valid_blob_name] *)

(** The function as the conjunction of its tests. *)
Lemma is_valid_blob_name_true s :
  is_valid_blob_name s = true ↔
  s = strip s
  ∧ 1 ≤ String.length s ≤ 1024
  ∧ length (parts (parse s)) ≤ 254
  ∧ Forall (fun part => endswith part "." = false) (parts (parse s))
  ∧ is_absolute (parse s) = false
  ∧ ("." ∉ parts (parse s))
  ∧ (".." ∉ parts (parse s))
  ∧ s = as_posix (parse s).
Proof.
  unfold is_valid_blob_name. cbv zeta.
  destruct (String.eqb_spec s (strip s)) as [Hstrip|Hstrip]; simpl;
    [|split; [discriminate | by intros [? _]]].
  destruct (Nat.ltb_spec (String.length s) 1) as [Hmin|Hmin];
    [split; [discriminate | lia]|].
  destruct (Nat.ltb_spec 1024 (String.length s)) as [Hmax|Hmax];
    [split; [discriminate | lia]|].
  destruct (Nat.ltb_spec 254 (length (parts (parse s)))) as [Hseg|Hseg];
    [split; [discriminate | lia]|].
  destruct (existsb (fun part => endswith part ".") (parts (parse s))) eqn:Hdot.
  { split; [discriminate|]. intros (_ & _ & _ & Hall & _).
    apply existsb_exists in Hdot as (part & Hin & Hpart).
    rewrite Forall_forall in Hall.
    apply list_elem_of_In in Hin. specialize (Hall _ Hin). congruence. }
  assert (Hall : Forall (fun part => endswith part "." = false)
                   (parts (parse s))).
  { apply Forall_forall. intros part Hin.
    destruct (endswith part ".") eqn:Hpart; [|reflexivity].
    assert (existsb (fun part => endswith part ".") (parts (parse s)) = true)
      as Ht by (apply existsb_exists; exists part;
                split; [by apply list_elem_of_In|done]).
    congruence. }
  destruct (is_absolute (parse s));
    [split; [discriminate | by intros (_ & _ & _ & _ & ? & _)]|].
  case_bool_decide as H1;
    [split; [discriminate | by intros (_ & _ & _ & _ & _ & ? & _)]|].
  case_bool_decide as H2;
    [split; [discriminate | by intros (_ & _ & _ & _ & _ & _ & ? & _)]|].
  rewrite String.eqb_eq. split; [|by intros (_ & _ & _ & _ & _ & _ & _ & ?)].
  intros Hn. repeat split; auto; lia.
Qed.

Lemma endswith_dot_dot : endswith "." "." = true ∧ endswith ".." "." = true.
Proof. split; reflexivity. Qed.

(** Away from ["."], the function and the rules of the specification
    agree. *)
Lemma is_valid_blob_name_rules s :
  s ≠ "." → (is_valid_blob_name s = true ↔ blob_name_rules s).
Proof.
  intros Hdot. rewrite is_valid_blob_name_true. unfold blob_name_rules.
  split.
  - intros (Hstrip & Hlen & Hseg & Hall & Habs & _ & _ & Hnorm).
    assert (Hrel : startswith s "/" = false).
    { apply root_parse. unfold is_absolute in Habs.
      apply negb_false_iff in Habs. by apply String.eqb_eq. }
    destruct (split_normalized _ Hrel Hdot Hnorm) as [Hsplit _].
    rewrite Hsplit. rewrite Forall_forall in Hall.
    split; [exact Hlen|]. split; [exact Hstrip|]. split; [exact Hseg|].
    split; [exact Hall|]. split; [exact Hrel|]. split; [|exact Hnorm].
    intros segment Hin. specialize (Hall _ Hin).
    split; intros ->.
    + by rewrite (proj1 endswith_dot_dot) in Hall.
    + by rewrite (proj2 endswith_dot_dot) in Hall.
  - intros (Hlen & Hstrip & Hseg & Hall & Hrel & Hspecial & Hnorm).
    destruct (split_normalized _ Hrel Hdot Hnorm) as [Hsplit _].
    rewrite Hsplit in *.
    split; [exact Hstrip|]. split; [exact Hlen|]. split; [exact Hseg|].
    split; [by apply Forall_forall|].
    split; [unfold is_absolute; apply root_parse in Hrel; by rewrite Hrel|].
    split; [intros Hin; by destruct (Hspecial _ Hin)|].
    split; [intros Hin; by destruct (Hspecial _ Hin)|].
    exact Hnorm.
Qed.

(** ** Whitespace *)

Lemma rstrip_empty s :
  rstrip s = "" ↔
  Forall (fun c => isspace c = true) (String.list_ascii_of_string s).
Proof.
  induction s as [|c s IH]; simpl.
  - split; [constructor | reflexivity].
  - destruct (rstrip s) eqn:Hr.
    + destruct (isspace c) eqn:Hc.
      * split; [intros _; constructor; [done | by apply IH] | reflexivity].
      * split; [discriminate | intros H; inversion H; congruence].
    + split; [discriminate|]. intros H. inversion H as [|?? _ Hs]; subst.
      apply IH in Hs. discriminate.
Qed.

Lemma lstrip_all_space s :
  Forall (fun c => isspace c = true) (String.list_ascii_of_string (lstrip s)) ↔
  Forall (fun c => isspace c = true) (String.list_ascii_of_string s).
Proof.
  induction s as [|c s IH]; simpl; [reflexivity|].
  destruct (isspace c) eqn:Hc; [|reflexivity].
  rewrite IH. split; [by constructor | intros H; by inversion H].
Qed.

(** A string strips to nothing exactly when it is empty or all
    whitespace. *)
Lemma strip_empty s :
  strip s = "" ↔
  Forall (fun c => isspace c = true) (String.list_ascii_of_string s).
Proof. unfold strip. by rewrite rstrip_empty, lstrip_all_space. Qed.

(** C1.  The code does not do what the claim says at one input.  The name
    ["."] has no parts once parsed, prints back as ["."], and is accepted,
    although its only segment is ["."] and ends with a dot.  For every
    other string [is_valid_blob_name] returns [true] exactly when the rules
    hold: length between 1 and 1024, no leading or trailing whitespace, at
    most 254 segments between slashes, no segment ending with a dot, no
    leading slash, no segment ["."] or [".."], and the name equal to its
    normal form.  The function returns a boolean for every string. *)
Theorem is_valid_blob_name_dot :
  is_valid_blob_name "." = true
  ∧ (blob_name_rules "." → False)
  ∧ (∀ s, s ≠ "." → (is_valid_blob_name s = true ↔ blob_name_rules s))
  ∧ (∀ s, is_valid_blob_name s = true ∨ is_valid_blob_name s = false).
Proof.
  split; [reflexivity|]. split; [|split].
  - intros (_ & _ & _ & _ & _ & H & _).
    destruct (H ".") as [Hd _]; [by left | done].
  - apply is_valid_blob_name_rules.
  - intros s. destruct (is_valid_blob_name s); auto.
Qed.

Example is_valid_blob_name_examples :
  map is_valid_blob_name ["foo/bar"; "a.b/c"; "foo"]
  = [true; true; true]
  ∧ map is_valid_blob_name
      ["foo//bar"; " foo"; "foo "; "foo/../bar"; ".."; "foo./bar"; "foo.";
       "/foo"; "./foo"; "foo/./bar"; "foo/"; ""]
    = [false; false; false; false; false; false; false;
       false; false; false; false; false].
Proof. split; vm_compute; reflexivity. Qed.

End BlobNames.

Section CheckContainersFacts.
Import py pathlib tasks spec.

(** ** [check_val] *)

Lemma check_val_Equal expected actual :
  check_val Equal expected actual = true ↔ expected = actual.
Proof. simpl. apply Z.eqb_eq. Qed.

Lemma check_val_AtLeast expected actual :
  check_val AtLeast expected actual = true ↔ (expected ≤ actual)%Z.
Proof. simpl. apply Z.leb_le. Qed.

Lemma check_val_AtMost expected actual :
  check_val AtMost expected actual = true ↔ (expected >= actual)%Z.
Proof. simpl. rewrite Z.geb_le. lia. Qed.

(** ** The dictionary built by [check_containers] *)

Lemma dict_get_dict_append containers key name role :
  dict_get (dict_append containers key name) role [] =
  if decide (key = role) then dict_get containers role [] ++ [name]
  else dict_get containers role [].
Proof.
  induction containers as [|[k v] rest IH]; simpl.
  - by destruct (decide (key = role)).
  - destruct (decide (k = key)) as [->|Hk]; simpl.
    + destruct (decide (key = role)); reflexivity.
    + destruct (decide (k = role)) as [->|Hr].
      * by destruct (decide (key = role)) as [->|].
      * apply IH.
Qed.

Lemma dict_append_keys containers key name role :
  role ∈ (dict_append containers key name).*1 ↔
  role = key ∨ role ∈ containers.*1.
Proof.
  induction containers as [|[k v] rest IH]; simpl.
  - rewrite list_elem_of_singleton. set_solver.
  - destruct (decide (k = key)) as [->|Hk]; simpl.
    + set_solver.
    + rewrite !elem_of_cons, IH. tauto.
Qed.

Lemma dict_get_collected submitted containers role :
  dict_get (collected submitted containers) role [] =
  dict_get containers role []
  ++ map container_name (filter (fun c => container_type c = role) submitted).
Proof.
  revert containers.
  induction submitted as [|c cs IH]; intros containers; simpl.
  - by rewrite app_nil_r.
  - unfold collected in *. simpl. rewrite IH, dict_get_dict_append.
    rewrite filter_cons. destruct (decide (container_type c = role)); simpl.
    + by rewrite <- app_assoc.
    + reflexivity.
Qed.

Lemma collected_keys submitted containers role :
  role ∈ (collected submitted containers).*1 ↔
  role ∈ containers.*1 ∨ role ∈ map container_type submitted.
Proof.
  revert containers.
  induction submitted as [|c cs IH]; intros containers; simpl.
  - set_solver.
  - unfold collected in *. simpl. rewrite IH, dict_append_keys.
    rewrite elem_of_cons. tauto.
Qed.

Lemma collect_containers_spec w submitted checked containers :
  (∀ name, name ∈ checked → container_exists w name StorageType_corpus = true) →
  match collect_containers w submitted checked containers with
  | Ok d =>
      d = collected submitted containers
      ∧ Forall (fun c =>
                  container_exists w (container_name c) StorageType_corpus = true)
               submitted
  | Raise e =>
      ∃ c, c ∈ submitted
           ∧ container_exists w (container_name c) StorageType_corpus = false
           ∧ e = TaskConfigError ("missing container: " +:+ container_name c)
  end.
Proof.
  revert checked containers.
  induction submitted as [|c cs IH]; intros checked containers Hchecked; simpl.
  - split; [reflexivity | constructor].
  - case_bool_decide as Hin.
    + destruct (container_exists w (container_name c) StorageType_corpus) eqn:Hex;
        simpl.
      * specialize (IH ({[container_name c]} ∪ checked)
                      (dict_append containers (container_type c) (container_name c))).
        destruct (collect_containers _ _ _ _) as [d|e].
        -- destruct IH as [-> Hall]; [set_solver|]. split; [reflexivity|].
           constructor; auto.
        -- destruct IH as (x & Hx & Hf & ->); [set_solver|].
           exists x. split; [right|]; auto.
      * exists c. split; [left|]; auto.
    + assert (Hex : container_exists w (container_name c) StorageType_corpus = true).
      { apply Hchecked. destruct (decide (container_name c ∈ checked)); tauto. }
      specialize (IH checked
                    (dict_append containers (container_type c) (container_name c))
                    Hchecked).
      destruct (collect_containers _ _ _ _) as [d|e].
      * destruct IH as [-> Hall]. split; [reflexivity|]. constructor; auto.
      * destruct IH as (x & Hx & Hf & ->). exists x. split; [right|]; auto.
Qed.

Lemma length_dict_get_collected config role :
  length (dict_get (collected (config_containers config) []) role []) =
  count_role role config.
Proof.
  rewrite dict_get_collected. simpl. by rewrite length_map.
Qed.

Lemma check_container_Ok compare expected role containers :
  check_container compare expected role containers = Ok tt ↔
  check_val compare expected
    (Z.of_nat (length (dict_get containers role []))) = true.
Proof.
  unfold check_container. destruct (check_val _ _ _); simpl; split; congruence.
Qed.

Lemma check_container_Raise compare expected role containers e :
  check_container compare expected role containers = Raise e →
  ∃ msg, e = TaskConfigError msg.
Proof.
  unfold check_container. destruct (check_val _ _ _); simpl; [discriminate|].
  intros [= <-]. eauto.
Qed.

(** [check_containers] raises nothing but [TaskConfigError]. *)
Lemma check_containers_Raise w definition config e :
  check_containers w definition config = Raise e →
  ∃ msg, e = TaskConfigError msg.
Proof.
  unfold check_containers, mbind, result_bind.
  pose proof (collect_containers_spec w (config_containers config) ∅ []) as Hc.
  destruct (collect_containers _ _ _ _) as [d|e0].
  - clear Hc.
    destruct (for_each _ (definition_containers definition)) as [[]|e1] eqn:H1.
    + destruct (for_each _ d) as [[]|e2] eqn:H2.
      * destruct (definition_monitor_queue definition) as [m|]; [|discriminate].
        case_bool_decide; [|discriminate]. intros [= <-]. eauto.
      * intros [= <-]. apply for_each_Raise in H2 as (x & _ & Hx).
        case_bool_decide; [|discriminate]. injection Hx as <-. eauto.
    + intros [= <-]. apply for_each_Raise in H1 as (x & _ & Hx).
      by apply check_container_Raise in Hx.
  - intros [= <-]. destruct Hc as (c & _ & _ & ->); [set_solver|]. eauto.
Qed.

(** [check_containers] returns exactly when every submitted container
    exists, every declared role has an admissible number of submitted
    containers, every submitted role is declared, and the monitor role, if
    any, is declared. *)
Lemma check_containers_Ok w definition config :
  check_containers w definition config = Ok tt ↔
  Forall (fun c => container_exists w (container_name c) StorageType_corpus = true)
         (config_containers config)
  ∧ Forall (fun d => check_val (def_compare d) (def_value d)
                       (Z.of_nat (count_role (def_type d) config)) = true)
           (definition_containers definition)
  ∧ Forall (fun c => container_type c ∈ declared_roles definition)
           (config_containers config)
  ∧ (∀ monitor, definition_monitor_queue definition = Some monitor →
                monitor ∈ declared_roles definition).
Proof.
  unfold check_containers, mbind, result_bind, declared_roles.
  pose proof (collect_containers_spec w (config_containers config) ∅ []) as Hc.
  destruct (collect_containers _ _ _ _) as [d|e0].
  - destruct Hc as [-> Hex]; [set_solver|].
    assert (H1 : for_each
              (fun container_def =>
                 check_container (def_compare container_def)
                   (def_value container_def) (def_type container_def)
                   (collected (config_containers config) []))
              (definition_containers definition) = Ok tt ↔
            Forall (fun d => check_val (def_compare d) (def_value d)
                       (Z.of_nat (count_role (def_type d) config)) = true)
              (definition_containers definition)).
    { rewrite for_each_Ok. apply Forall_iff. intros d.
      by rewrite check_container_Ok, length_dict_get_collected. }
    set (roles := map def_type (definition_containers definition)) in *.
    assert (H2 : for_each
              (fun entry : ContainerType * list Container =>
                 if bool_decide (entry.1 ∉ roles)
                 then Raise (TaskConfigError
                        ("unsupported container type for this task: "
                         +:+ ContainerType_name entry.1))
                 else Ok tt)
              (collected (config_containers config) []) = Ok tt ↔
            Forall (fun c => container_type c ∈ roles)
              (config_containers config)).
    { rewrite for_each_Ok, !Forall_forall. split.
      - intros H c Hin.
        assert (Hk : container_type c ∈ (collected (config_containers config) []).*1).
        { apply collected_keys. right. apply list_elem_of_fmap. eauto. }
        apply list_elem_of_fmap in Hk as ([k v] & Hkv & Hin').
        specialize (H _ Hin'). simpl in *. subst k.
        case_bool_decide as Hn; [discriminate|].
        destruct (decide (container_type c ∈ roles)); tauto.
      - intros H [k v] Hin. simpl.
        case_bool_decide as Hn; [|reflexivity]. exfalso. apply Hn.
        assert (Hk : k ∈ (collected (config_containers config) []).*1).
        { apply list_elem_of_fmap. exists (k, v). auto. }
        apply collected_keys in Hk as [Hk|Hk]; [set_solver|].
        apply list_elem_of_fmap in Hk as (c & -> & Hc). auto. }
    destruct (for_each _ (definition_containers definition)) as [[]|e1].
    + destruct (for_each _ (collected _ _)) as [[]|e2].
      * destruct (definition_monitor_queue definition) as [m|].
        -- case_bool_decide as Hm.
           ++ split; [discriminate|]. intros (_ & _ & _ & H). exfalso.
              apply Hm. by apply H.
           ++ split; [|reflexivity]. intros _.
              repeat split; [done|by apply H1|by apply H2|].
              intros ? [= <-]. destruct (decide (m ∈ roles)); tauto.
        -- split; [|reflexivity]. intros _.
           repeat split; [done|by apply H1|by apply H2|discriminate].
      * split; [discriminate|]. intros (_ & _ & H & _).
        apply H2 in H. discriminate.
    + split; [discriminate|]. intros (_ & H & _). apply H1 in H. discriminate.
  - split; [discriminate|]. intros (H & _).
    destruct Hc as (c & Hin & Hf & _); [set_solver|].
    rewrite Forall_forall in H. specialize (H c Hin). congruence.
Qed.

End CheckContainersFacts.

Section CheckConfigFacts.
Import py pathlib tasks spec.

(** ** The blocks of [check_config] *)

(** The outcome of lines 192-231, as one decision list. *)
Lemma check_containers_and_pool_outcome w config definition :
  outcome (check_containers_and_pool w config definition) =
  if is_set (config_vm config) && is_set (config_pool config)
  then Raise (TaskConfigError
                "either the vm or pool must be specified, but not both")
  else
    match check_containers w definition config with
    | Raise e => Raise e
    | Ok _ =>
        if declares definition supervisor_exe
           && negb (truthy (task_supervisor_exe (config_task config)))
        then Raise (TaskConfigError "missing supervisor_exe")
        else if declares definition target_must_use_input
                && negb (target_uses_input config)
        then Raise (TaskConfigError
                      "{input} must be used in target_env or target_options")
        else if is_set (config_vm config)
        then Raise (TaskConfigError
                      "specifying task config vm is no longer supported")
        else
          match config_pool config with
          | None => Raise (TaskConfigError "pool must be specified")
          | Some pool =>
              if negb (check_val (vm_compare (definition_vm definition))
                         (vm_value (definition_vm definition)) (pool_count pool))
              then Raise (TaskConfigError
                     ("invalid vm count: expected Compare."
                      +:+ Compare_name (vm_compare (definition_vm definition))
                      +:+ " "
                      +:+ py.str_of_int (vm_value (definition_vm definition))
                      +:+ ", got " +:+ py.str_of_int (pool_count pool)))
              else if negb (is_set (Pool_get_by_name w (pool_name pool)))
              then Raise (TaskConfigError ("invalid pool: " +:+ pool_name pool))
              else Ok tt
          end
    end.
Proof.
  unfold check_containers_and_pool.
  rewrite outcome_bind, outcome_when.
  destruct (is_set (config_vm config) && is_set (config_pool config));
    [reflexivity|].
  rewrite outcome_bind. unfold lift at 1, outcome at 1. simpl.
  destruct (check_containers w definition config) as [[]|e]; [|reflexivity].
  rewrite outcome_bind, outcome_when.
  destruct (declares definition supervisor_exe && _); [reflexivity|].
  rewrite outcome_bind, outcome_when.
  destruct (declares definition target_must_use_input && _); [reflexivity|].
  rewrite outcome_bind, outcome_when.
  destruct (is_set (config_vm config)); [reflexivity|].
  destruct (config_pool config) as [pool|]; [|reflexivity].
  rewrite outcome_bind, outcome_when.
  destruct (negb (check_val _ _ _)); [reflexivity|].
  rewrite outcome_when.
  destruct (negb (is_set _)); reflexivity.
Qed.

(** Lines 192-231 raise nothing but [TaskConfigError]. *)
Lemma check_containers_and_pool_Raise w config definition e :
  outcome (check_containers_and_pool w config definition) = Raise e →
  ∃ msg, e = TaskConfigError msg.
Proof.
  rewrite check_containers_and_pool_outcome.
  repeat match goal with
         | |- context [if ?b then _ else _] => destruct b
         | |- context [match check_containers ?w ?d ?c with _ => _ end] =>
             destruct (check_containers w d c) eqn:Hcc
         | |- context [match config_pool ?c with _ => _ end] =>
             destruct (config_pool c)
         end;
    intros [= <-]; eauto using check_containers_Raise.
Qed.

Lemma check_containers_and_pool_Ok w config definition :
  outcome (check_containers_and_pool w config definition) = Ok tt →
  check_containers w definition config = Ok tt
  ∧ config_vm config = None
  ∧ ∃ pool, config_pool config = Some pool.
Proof.
  rewrite check_containers_and_pool_outcome.
  destruct (is_set (config_vm config) && _); [discriminate|].
  destruct (check_containers w definition config) as [[]|]; [|discriminate].
  destruct (declares definition supervisor_exe && _); [discriminate|].
  destruct (declares definition target_must_use_input && _); [discriminate|].
  destruct (config_vm config); simpl; [discriminate|].
  destruct (config_pool config); [|discriminate]. eauto.
Qed.

(** [check_config] in terms of outcomes. *)
Lemma check_config_outcome w config definition :
  TASK_DEFINITIONS w (task_type (config_task config)) = Some definition →
  outcome (check_config w config) =
  match outcome (check_containers_and_pool w config definition) with
  | Raise e => Raise e
  | Ok _ =>
      match outcome (check_target_exe w config definition) with
      | Raise e => Raise e
      | Ok _ =>
          match outcome (check_generator_exe w config definition) with
          | Raise e => Raise e
          | Ok _ => outcome (check_stats_file config definition)
          end
      end
  end.
Proof.
  intros Hdef. unfold check_config. rewrite Hdef.
  by rewrite !outcome_bind.
Qed.

End CheckConfigFacts.

Section ContainerCardinality.
Import py pathlib tasks spec.

Lemma for_each_first_Raise {E A} (body : A -> result E unit) before x after e :
  Forall (fun y => body y = Ok tt) before →
  body x = Raise e →
  for_each body (before ++ x :: after) = Raise e.
Proof.
  intros Hb Hx. induction Hb as [|y ys Hy _ IH]; simpl.
  - unfold mbind, result_bind. by rewrite Hx.
  - unfold mbind, result_bind. by rewrite Hy.
Qed.

(** The message of a cardinality failure. *)
Lemma cardinality_failure_message w definition config before d after :
  definition_containers definition = before ++ d :: after →
  Forall (fun c => container_exists w (container_name c) StorageType_corpus = true)
         (config_containers config) →
  Forall (fun d' => check_val (def_compare d') (def_value d')
                      (Z.of_nat (count_role (def_type d') config)) = true)
         before →
  check_val (def_compare d) (def_value d)
    (Z.of_nat (count_role (def_type d) config)) = false →
  check_containers w definition config =
  Raise (TaskConfigError
           ("container type " +:+ ContainerType_name (def_type d)
            +:+ ": expected " +:+ Compare_name (def_compare d) +:+ " "
            +:+ py.str_of_int (def_value d) +:+ ", got "
            +:+ py.str_of_nat (count_role (def_type d) config))).
Proof.
  intros Hdef Hex Hbefore Hd.
  unfold check_containers, mbind at 1, result_bind.
  pose proof (collect_containers_spec w (config_containers config) ∅ []) as Hc.
  destruct (collect_containers _ _ _ _) as [dict|e0].
  - destruct Hc as [-> _]; [set_solver|].
    rewrite Hdef.
    erewrite for_each_first_Raise; [reflexivity| |].
    + eapply Forall_impl; [exact Hbefore|]. intros d' Hd'. simpl in Hd'.
      by rewrite check_container_Ok, length_dict_get_collected.
    + unfold check_container.
      by rewrite length_dict_get_collected, Hd.
  - destruct Hc as (c & Hin & Hf & _); [set_solver|].
    rewrite Forall_forall in Hex. specialize (Hex c Hin). congruence.
Qed.

(** C3.  Container-role cardinality.  [check_val] reads [Equal] as
    [expected = actual], [AtLeast] as [expected <= actual] and [AtMost] as
    [expected >= actual].  [check_containers] returns exactly when every
    submitted container exists, every role the definition names has a
    number of submitted containers that passes [check_val] against the
    definition's comparator and value, every submitted role is one the
    definition names, and the monitor role, if the definition has one, is
    one of its declared roles; otherwise it raises a [TaskConfigError], and
    for a failed comparison (the containers existing) the error is the one
    of the first failing role, with the expected and the actual count.
    [check_config] of a registered task type returns only if
    [check_containers] does, and raises a [TaskConfigError] whenever
    [check_containers] raises. *)
Theorem check_containers_cardinality (w : Services)
    (definition : TaskDefinition) (config : TaskConfig) :
  (∀ expected actual,
     (check_val Equal expected actual = true ↔ expected = actual)
     ∧ (check_val AtLeast expected actual = true ↔ (expected <= actual)%Z)
     ∧ (check_val AtMost expected actual = true ↔ (expected >= actual)%Z))
  ∧ (check_containers w definition config = Ok tt ↔
     Forall (fun c => container_exists w (container_name c) StorageType_corpus
                      = true)
            (config_containers config)
     ∧ Forall (fun d => check_val (def_compare d) (def_value d)
                          (Z.of_nat (count_role (def_type d) config)) = true)
              (definition_containers definition)
     ∧ Forall (fun c => container_type c ∈ declared_roles definition)
              (config_containers config)
     ∧ (∀ monitor, definition_monitor_queue definition = Some monitor →
                   monitor ∈ declared_roles definition))
  ∧ (∀ e, check_containers w definition config = Raise e →
          ∃ msg, e = TaskConfigError msg)
  ∧ (∀ before d after,
       definition_containers definition = before ++ d :: after →
       Forall (fun c => container_exists w (container_name c) StorageType_corpus
                        = true)
              (config_containers config) →
       Forall (fun d' => check_val (def_compare d') (def_value d')
                           (Z.of_nat (count_role (def_type d') config)) = true)
              before →
       check_val (def_compare d) (def_value d)
         (Z.of_nat (count_role (def_type d) config)) = false →
       check_containers w definition config =
       Raise (TaskConfigError
                ("container type " +:+ ContainerType_name (def_type d)
                 +:+ ": expected " +:+ Compare_name (def_compare d) +:+ " "
                 +:+ py.str_of_int (def_value d) +:+ ", got "
                 +:+ py.str_of_nat (count_role (def_type d) config))))
  ∧ (TASK_DEFINITIONS w (task_type (config_task config)) = Some definition →
     (outcome (check_config w config) = Ok tt →
      check_containers w definition config = Ok tt)
     ∧ (∀ e, check_containers w definition config = Raise e →
             ∃ msg, outcome (check_config w config)
                    = Raise (TaskConfigError msg))).
Proof.
  split; [|split; [|split; [|split]]].
  - intros expected actual.
    split; [apply check_val_Equal|].
    split; [apply check_val_AtLeast | apply check_val_AtMost].
  - apply check_containers_Ok.
  - apply check_containers_Raise.
  - apply cardinality_failure_message.
  - intros Hdef. rewrite (check_config_outcome _ _ _ Hdef). split.
    + destruct (outcome (check_containers_and_pool w config definition))
        as [[]|e] eqn:Hcap; [|discriminate].
      intros _. by apply check_containers_and_pool_Ok in Hcap as [? _].
    + intros e He. rewrite check_containers_and_pool_outcome, He.
      destruct (is_set (config_vm config) && _); [eauto|].
      apply check_containers_Raise in He as [msg ->]. eauto.
Qed.

End ContainerCardinality.

Example one_setup_example :
  let w := one_setup.services in
  let d := one_setup.definition in
  tasks.check_containers w d (one_setup.submit [])
  = Raise (tasks.TaskConfigError "container type setup: expected Equal 1, got 0")
  ∧ tasks.check_containers w d
      (one_setup.submit [tasks.mkTaskContainers tasks.setup "a";
                         tasks.mkTaskContainers tasks.setup "b"])
    = Raise (tasks.TaskConfigError
               "container type setup: expected Equal 1, got 2")
  ∧ tasks.check_containers w d
      (one_setup.submit [tasks.mkTaskContainers tasks.setup "a"])
    = Ok tt
  ∧ tasks.check_config w
      (one_setup.submit [tasks.mkTaskContainers tasks.setup "a"])
    = ([], Ok tt)
  ∧ tasks.check_config w
      (one_setup.submit [tasks.mkTaskContainers tasks.setup "a";
                         tasks.mkTaskContainers tasks.setup "b"])
    = ([], Raise (tasks.TaskConfigError
                    "container type setup: expected Equal 1, got 2")).
Proof. repeat split; vm_compute; reflexivity. Qed.

Section CheckConfigOrder.
Import py pathlib tasks spec.

Lemma check_config_unregistered w config :
  TASK_DEFINITIONS w (task_type (config_task config)) = None →
  check_config w config =
  ([], Raise (TaskConfigError
                ("unsupported task type: "
                 +:+ TaskType_name (task_type (config_task config))))).
Proof. intros H. unfold check_config. by rewrite H. Qed.

Lemma check_config_both w config definition :
  TASK_DEFINITIONS w (task_type (config_task config)) = Some definition →
  is_set (config_vm config) && is_set (config_pool config) = true →
  check_config w config =
  ([], Raise (TaskConfigError
                "either the vm or pool must be specified, but not both")).
Proof.
  intros Hdef Hboth. unfold check_config, check_containers_and_pool.
  by rewrite Hdef, Hboth.
Qed.


Lemma check_config_vm_rejected w config :
  is_set (config_vm config) = true →
  ∃ msg, outcome (check_config w config) = Raise (TaskConfigError msg).
Proof.
  intros Hvm.
  destruct (TASK_DEFINITIONS w (task_type (config_task config)))
    as [definition|] eqn:Hdef.
  - rewrite (check_config_outcome _ _ _ Hdef).
    rewrite check_containers_and_pool_outcome, Hvm.
    destruct (true && is_set (config_pool config)); [eauto|].
    destruct (check_containers w definition config) as [[]|e] eqn:Hcc.
    + destruct (declares definition supervisor_exe && _); [eauto|].
      destruct (declares definition target_must_use_input && _); eauto.
    + apply check_containers_Raise in Hcc as [msg ->]. eauto.
  - rewrite (check_config_unregistered _ _ Hdef). eauto.
Qed.

(** C2, as amended.  [check_config] stops at the first failing check, in
    the order of the code: an unregistered task type; the VM specification
    and the pool both set; then [check_containers] (the existence of every
    submitted container first, then the cardinality of every declared role,
    the submitted roles, the monitor role); then [supervisor_exe]; then
    [target_must_use_input]; then the rejection of a VM specification; then
    the missing pool, the pool count and the pool lookup; then
    [check_target_exe], the [generator_exe] block and the [stats_file]
    block.  Every failure up to the pool lookup is a [TaskConfigError].
    A config that sets both the VM specification and the pool is rejected
    before any container or feature check.  A config that sets the VM
    specification is always rejected with a [TaskConfigError]; when the pool
    is not set, the error is that of the first failing check among the
    container checks, the two feature checks and the VM rejection. *)
Theorem check_config_order (w : Services) (config : TaskConfig) :
  (TASK_DEFINITIONS w (task_type (config_task config)) = None →
   check_config w config =
   ([], Raise (TaskConfigError
                 ("unsupported task type: "
                  +:+ TaskType_name (task_type (config_task config))))))
  ∧ (∀ definition,
       TASK_DEFINITIONS w (task_type (config_task config)) = Some definition →
       (is_set (config_vm config) && is_set (config_pool config) = true →
        check_config w config =
        ([], Raise (TaskConfigError
                      "either the vm or pool must be specified, but not both")))
       ∧ outcome (check_config w config) =
         (if is_set (config_vm config) && is_set (config_pool config)
          then Raise (TaskConfigError
                        "either the vm or pool must be specified, but not both")
          else
            match check_containers w definition config with
            | Raise e => Raise e
            | Ok _ =>
                if declares definition supervisor_exe
                   && negb (truthy (task_supervisor_exe (config_task config)))
                then Raise (TaskConfigError "missing supervisor_exe")
                else if declares definition target_must_use_input
                        && negb (target_uses_input config)
                then Raise (TaskConfigError
                       "{input} must be used in target_env or target_options")
                else if is_set (config_vm config)
                then Raise (TaskConfigError
                       "specifying task config vm is no longer supported")
                else
                  match config_pool config with
                  | None => Raise (TaskConfigError "pool must be specified")
                  | Some pool =>
                      if negb (check_val (vm_compare (definition_vm definition))
                                 (vm_value (definition_vm definition))
                                 (pool_count pool))
                      then Raise (TaskConfigError
                             ("invalid vm count: expected Compare."
                              +:+ Compare_name
                                    (vm_compare (definition_vm definition))
                              +:+ " "
                              +:+ py.str_of_int
                                    (vm_value (definition_vm definition))
                              +:+ ", got " +:+ py.str_of_int (pool_count pool)))
                      else if negb (is_set (Pool_get_by_name w (pool_name pool)))
                      then Raise (TaskConfigError
                                    ("invalid pool: " +:+ pool_name pool))
                      else
                        match outcome (check_target_exe w config definition) with
                        | Raise e => Raise e
                        | Ok _ =>
                            match outcome
                                    (check_generator_exe w config definition)
                            with
                            | Raise e => Raise e
                            | Ok _ => outcome (check_stats_file config definition)
                            end
                        end
                  end
            end)
       ∧ (∀ e, outcome (check_containers_and_pool w config definition) = Raise e →
               ∃ msg, e = TaskConfigError msg))
  ∧ (is_set (config_vm config) = true →
     ∃ msg, outcome (check_config w config) = Raise (TaskConfigError msg)).
Proof.
  split; [apply check_config_unregistered|]. split.
  - intros definition Hdef. split; [exact (check_config_both _ _ _ Hdef)|]. split.
    + rewrite (check_config_outcome _ _ _ Hdef).
      rewrite check_containers_and_pool_outcome.
      repeat match goal with
             | |- context [if ?b then _ else _] => destruct b; try reflexivity
             | |- context [match check_containers ?w ?d ?c with _ => _ end] =>
                 destruct (check_containers w d c) as [[]|]; try reflexivity
             | |- context [match config_pool ?c with _ => _ end] =>
                 destruct (config_pool c); try reflexivity
             end.
    + intros e. apply check_containers_and_pool_Raise.
  - apply check_config_vm_rejected.
Qed.

(** C2, the claim as stated fails: a submission that sets the VM
    specification alone is not rejected before the container checks.  With
    a container that does not exist the error is the one of the existence
    check; with no container at all it is the one of the cardinality check;
    only when the container checks pass is it the VM rejection.  Nor is
    cardinality checked before existence: a submission with a role counted
    twice and a missing container reports the missing container. *)
Lemma check_config_vm_alone_after_containers :
  tasks.check_config one_setup.services
    (one_setup.submit_vm [mkTaskContainers setup "ghost"])
  = ([], Raise (TaskConfigError "missing container: ghost"))
  ∧ tasks.check_config one_setup.services (one_setup.submit_vm [])
    = ([], Raise (TaskConfigError
                    "container type setup: expected Equal 1, got 0"))
  ∧ tasks.check_config one_setup.services
      (one_setup.submit_vm [mkTaskContainers setup "a"])
    = ([], Raise (TaskConfigError
                    "specifying task config vm is no longer supported"))
  ∧ tasks.check_config one_setup.services
      (one_setup.submit [mkTaskContainers setup "a";
                         mkTaskContainers setup "ghost"])
    = ([], Raise (TaskConfigError "missing container: ghost")).
Proof. repeat split; vm_compute; reflexivity. Qed.

Example check_config_both_example :
  tasks.check_config one_setup.services
    (one_setup.submit_both [mkTaskContainers setup "ghost"])
  = ([], Raise (TaskConfigError
                  "either the vm or pool must be specified, but not both")).
Proof. vm_compute; reflexivity. Qed.

End CheckConfigOrder.

Section TargetExe.
Import py pathlib tasks spec.

Lemma check_target_exe_None w config definition :
  task_target_exe (config_task config) = None →
  check_target_exe w config definition =
  if declares definition target_exe
  then ([], Raise (TaskConfigError "missing target_exe"))
  else ([], Ok tt).
Proof.
  intros H. unfold check_target_exe. rewrite H.
  destruct (declares definition target_exe); [reflexivity|].
  by destruct (declares definition target_exe_optional).
Qed.

Lemma check_target_exe_invalid w config definition exe :
  task_target_exe (config_task config) = Some exe →
  is_valid_blob_name exe = false →
  check_target_exe w config definition =
  ([], Raise (TaskConfigError
                "target_exe must be a canonicalized relative path")).
Proof. intros H Hv. unfold check_target_exe. by rewrite H, Hv. Qed.

Lemma check_target_exe_valid w config definition exe container rest :
  task_target_exe (config_task config) = Some exe →
  is_valid_blob_name exe = true →
  filter (fun x => container_type x = setup) (config_containers config)
  = container :: rest →
  check_target_exe w config definition =
  (if blob_exists w (container_name container) exe StorageType_corpus
   then []
   else [(WARNING,
          "target_exe `" +:+ exe
          +:+ "` does not exist in the setup container `"
          +:+ container_name container +:+ "`")],
   Ok tt).
Proof.
  intros H Hv Hs. unfold check_target_exe. rewrite H, Hv, Hs. simpl.
  by destruct (blob_exists _ _ _ _).
Qed.

Lemma check_target_exe_Ok w config definition :
  outcome (check_target_exe w config definition) = Ok tt →
  (declares definition target_exe = true →
   is_set (task_target_exe (config_task config)) = true)
  ∧ (∀ exe, task_target_exe (config_task config) = Some exe →
            is_valid_blob_name exe = true).
Proof.
  unfold check_target_exe.
  destruct (task_target_exe (config_task config)) as [exe|].
  - destruct (is_valid_blob_name exe) eqn:Hv; [|discriminate].
    intros _. split; [reflexivity|]. by intros ? [= <-].
  - destruct (declares definition target_exe); [discriminate|].
    intros _. split; [discriminate|]. discriminate.
Qed.

(** C9.  [check_target_exe]: with no [target_exe] in the submission it
    raises [TaskConfigError "missing target_exe"] when the definition
    declares the [target_exe] feature and returns otherwise; with a
    [target_exe] that fails [is_valid_blob_name] it raises a
    [TaskConfigError]; with a valid one it returns, and when the blob does
    not exist in the first submitted [setup] container the only effect is
    one [WARNING] record.  In [check_config] of a registered task type the
    missing [target_exe] is the error raised once the earlier checks have
    passed, and [check_config] returns only if [target_exe] is present when
    the feature is declared and valid when present. *)
Theorem check_target_exe_rules (w : Services) (config : TaskConfig)
    (definition : TaskDefinition) :
  (task_target_exe (config_task config) = None →
   (declares definition target_exe = true →
    check_target_exe w config definition
    = ([], Raise (TaskConfigError "missing target_exe")))
   ∧ (declares definition target_exe = false →
      check_target_exe w config definition = ([], Ok tt)))
  ∧ (∀ exe,
       task_target_exe (config_task config) = Some exe →
       (is_valid_blob_name exe = false →
        check_target_exe w config definition
        = ([], Raise (TaskConfigError
                        "target_exe must be a canonicalized relative path")))
       ∧ (is_valid_blob_name exe = true →
          ∀ container rest,
            filter (fun x => container_type x = setup)
                   (config_containers config) = container :: rest →
            outcome (check_target_exe w config definition) = Ok tt
            ∧ records (check_target_exe w config definition) =
              if blob_exists w (container_name container) exe StorageType_corpus
              then []
              else [(WARNING,
                     "target_exe `" +:+ exe
                     +:+ "` does not exist in the setup container `"
                     +:+ container_name container +:+ "`")]))
  ∧ (TASK_DEFINITIONS w (task_type (config_task config)) = Some definition →
     (outcome (check_containers_and_pool w config definition) = Ok tt →
      task_target_exe (config_task config) = None →
      declares definition target_exe = true →
      outcome (check_config w config)
      = Raise (TaskConfigError "missing target_exe"))
     ∧ (outcome (check_config w config) = Ok tt →
        (declares definition target_exe = true →
         is_set (task_target_exe (config_task config)) = true)
        ∧ (∀ exe, task_target_exe (config_task config) = Some exe →
                  is_valid_blob_name exe = true))).
Proof.
  split; [|split].
  - intros H. rewrite (check_target_exe_None _ _ _ H).
    split; intros ->; reflexivity.
  - intros exe H. split.
    + by apply check_target_exe_invalid.
    + intros Hv container rest Hs.
      by rewrite (check_target_exe_valid _ _ _ _ _ _ H Hv Hs).
  - intros Hdef. rewrite (check_config_outcome _ _ _ Hdef). split.
    + intros -> H Hf. rewrite (check_target_exe_None _ _ _ H), Hf. reflexivity.
    + destruct (outcome (check_containers_and_pool _ _ _)) as [[]|];
        [|discriminate].
      destruct (outcome (check_target_exe w config definition)) as [[]|] eqn:Ht;
        [|discriminate].
      intros _. by apply check_target_exe_Ok in Ht.
Qed.

End TargetExe.

Example check_target_exe_examples :
  let check target :=
    tasks.check_target_exe generator.services (generator.submit_target target)
      generator.target_definition in
  check None = ([], Raise (tasks.TaskConfigError "missing target_exe"))
  ∧ check (Some "./fuzz.exe")
    = ([], Raise (tasks.TaskConfigError
                    "target_exe must be a canonicalized relative path"))
  ∧ check (Some "fuzz.exe")
    = ([(WARNING,
         "target_exe `fuzz.exe` does not exist in the setup container `s`")],
       Ok tt).
Proof. repeat split; vm_compute; reflexivity. Qed.


Section GeneratorExe.
Import py pathlib tasks spec.

(** The two placeholders end in different characters, so a name starts
    with at most one of them. *)
Lemma tools_paths_exclusive exe :
  startswith exe "{tools_dir}\" = true → startswith exe "{tools_dir}/" = false.
Proof.
  unfold startswith. intros H.
  destruct (String.prefix "{tools_dir}/" exe) eqn:H'; [|reflexivity].
  apply String.prefix_correct in H, H'. simpl String.length in *.
  rewrite H in H'. discriminate.
Qed.

(** The outcome of the block once the [tools] container is found. *)
Lemma check_generator_exe_outcome w config definition container rest :
  declares definition generator_exe = true →
  filter (fun x => container_type x = tools) (config_containers config)
  = container :: rest →
  outcome (check_generator_exe w config definition) =
  match task_generator_exe (config_task config) with
  | None => Raise (TaskConfigError "generator_exe is not defined")
  | Some exe =>
      if String.eqb exe ""
      then Raise (TaskConfigError "generator_exe is not defined")
      else if startswith exe "{tools_dir}/"
              && negb (blob_exists w (container_name container)
                         (replace exe "{tools_dir}/" "") StorageType_corpus)
      then Raise (TaskConfigError (generator_missing exe container))
      else if startswith exe "{tools_dir}\"
              && negb (blob_exists w (container_name container)
                         (replace exe "{tools_dir}\" "") StorageType_corpus)
      then Raise (TaskConfigError (generator_missing exe container))
      else Ok tt
  end.
Proof.
  intros Hf Hs. unfold check_generator_exe. rewrite Hf, Hs. simpl when.
  destruct (task_generator_exe (config_task config)) as [exe|]; [|reflexivity].
  destruct (String.eqb exe ""); [reflexivity|].
  unfold for_each_logged, generator_missing.
  rewrite outcome_bind, outcome_when.
  destruct (startswith exe "{tools_dir}/"); simpl.
  - rewrite outcome_when.
    destruct (blob_exists w _ (replace exe "{tools_dir}/" "") _); simpl.
    + rewrite outcome_bind, outcome_when.
      destruct (startswith exe "{tools_dir}\"); simpl; [|reflexivity].
      rewrite outcome_when.
      by destruct (blob_exists w _ (replace exe "{tools_dir}\" "") _).
    + reflexivity.
  - rewrite outcome_bind, outcome_when.
    destruct (startswith exe "{tools_dir}\"); simpl; [|reflexivity].
    rewrite outcome_when.
    by destruct (blob_exists w _ (replace exe "{tools_dir}\" "") _).
Qed.

Lemma check_generator_exe_no_tools w config definition :
  declares definition generator_exe = true →
  filter (fun x => container_type x = tools) (config_containers config) = [] →
  check_generator_exe w config definition = ([], Raise IndexError).
Proof. intros Hf Hs. unfold check_generator_exe. by rewrite Hf, Hs. Qed.


Lemma check_stats_file_outcome config definition :
  outcome (check_stats_file config definition) =
  if declares definition stats_file
     && is_set (task_stats_file (config_task config))
     && negb (is_set (task_stats_format (config_task config)))
  then Raise (TaskConfigError "using a stats_file requires a stats_format")
  else Ok tt.
Proof.
  unfold check_stats_file.
  destruct (declares definition stats_file); [|reflexivity]. simpl.
  by destruct (is_set (task_stats_file _) && _).
Qed.

Lemma count_role_0 role config :
  count_role role config = 0 ↔
  filter (fun x => container_type x = role) (config_containers config) = [].
Proof. unfold count_role. apply length_zero_iff_nil. Qed.

Lemma check_target_exe_IndexError w config definition :
  outcome (check_target_exe w config definition) = Raise IndexError ↔
  ∃ exe, task_target_exe (config_task config) = Some exe
         ∧ is_valid_blob_name exe = true
         ∧ count_role setup config = 0.
Proof.
  setoid_rewrite count_role_0. unfold check_target_exe.
  destruct (task_target_exe (config_task config)) as [exe|].
  - destruct (is_valid_blob_name exe) eqn:Hv; simpl.
    + destruct (filter _ _) as [|container rest]; simpl.
      * split; [eauto | reflexivity].
      * split; [by destruct (blob_exists _ _ _ _) | by intros (? & _ & _ & ?)].
    + split; [discriminate | intros (? & [= <-] & ? & _); congruence].
  - split; [|by intros (? & ? & _)].
    destruct (declares definition target_exe); [discriminate|].
    by destruct (declares definition target_exe_optional).
Qed.

Lemma check_generator_exe_IndexError w config definition :
  outcome (check_generator_exe w config definition) = Raise IndexError ↔
  declares definition generator_exe = true ∧ count_role tools config = 0.
Proof.
  rewrite count_role_0.
  destruct (declares definition generator_exe) eqn:Hfeature.
  2:{ unfold check_generator_exe. rewrite Hfeature.
      split; [discriminate | by intros [? _]]. }
  destruct (filter (fun x => container_type x = tools)
              (config_containers config)) as [|container rest] eqn:Htools.
  - rewrite (check_generator_exe_no_tools _ _ _ Hfeature Htools). done.
  - rewrite (check_generator_exe_outcome _ _ _ _ _ Hfeature Htools).
    split; [|by intros [_ ?]].
    destruct (task_generator_exe (config_task config)) as [exe|];
      [|discriminate].
    destruct (String.eqb exe ""); [discriminate|].
    destruct (startswith exe "{tools_dir}/" && _); [discriminate|].
    destruct (startswith exe "{tools_dir}\" && _); discriminate.
Qed.


End GeneratorExe.



Example generator_exe_present_example :
  tasks.check_config generator.services
    (generator.submit (Some "{tools_dir}/present")) = ([], Ok tt)
  ∧ tasks.check_config generator.services
      (generator.submit (Some "/usr/bin/radamsa")) = ([], Ok tt).
Proof. split; vm_compute; reflexivity. Qed.


Section NsgRules.
Import py deploylib.

(** ** [NsgRule] *)

Lemma eq_str_spec x s : eq_str x s = true ↔ x = PStr s.
Proof.
  destruct x; simpl; try (split; [discriminate | intros [=]]).
  rewrite String.eqb_eq. split; [by intros -> | by intros [= ->]].
Qed.

Lemma wildcard_in_list rules :
  existsb (fun x => eq_str x "*") rules = true ↔ PStr "*" ∈ rules.
Proof.
  rewrite existsb_exists, list_elem_of_In. split.
  - intros (x & Hin & Hx). apply eq_str_spec in Hx. by subst.
  - intros Hin. exists (PStr "*"). split; [done|]. by apply eq_str_spec.
Qed.

(** A rule is refused when it is not a string or strips to nothing. *)
Lemma NsgRule_init_string lib s :
  NsgRule_init lib (PStr s) =
  if String.length (strip s) =? 0
  then Raise (ValueError [PStr
         "Invalid rule. Please provide a valid rule or supply the wild card *."])
  else Ok (mkNsgRule (PStr s)
             (negb (String.eqb s "*" || ip_address_parses lib s
                    || ip_network_parses lib s))).
Proof.
  unfold NsgRule_init, check_rule.
  destruct (String.length (strip s) =? 0); [reflexivity|].
  destruct (String.eqb s "*"); [reflexivity|].
  destruct (ip_address_parses lib s); [reflexivity|].
  by destruct (ip_network_parses lib s).
Qed.

Lemma NsgRule_init_not_string lib x :
  is_str x = false →
  NsgRule_init lib x =
  Raise (ValueError [PStr
    "Invalid rule. Please provide a valid rule or supply the wild card *."]).
Proof. by destruct x. Qed.


(** ** The two loops of [parse_rules] *)

Lemma classify_Ok lib fmt rules acc out :
  classify lib fmt rules acc = Ok out ↔
  ∃ new, out = acc ++ new
         ∧ Forall2 (fun x r => NsgRule_init lib x = Ok r) rules new.
Proof.
  revert acc. induction rules as [|x rules IH]; intros acc; simpl.
  - split.
    + intros [= <-]. exists []. by rewrite app_nil_r.
    + intros (new & -> & H). inversion H. by rewrite app_nil_r.
  - destruct (NsgRule_init lib x) as [r|e] eqn:Hx.
    + rewrite IH. split.
      * intros (new & -> & H). exists (r :: new).
        rewrite <- app_assoc. split; [reflexivity|]. by constructor.
      * intros (new & -> & H). inversion H as [|? r' ? new' Hr Hrest]; subst.
        rewrite Hx in Hr. injection Hr as <-.
        exists new'. by rewrite <- app_assoc.
    + split; [discriminate|].
      intros (new & _ & H). inversion H as [|? r' ? new' Hr Hrest]; subst.
      congruence.
Qed.

Lemma classify_first_refused lib fmt before x after acc e :
  Forall (fun y => ∃ r, NsgRule_init lib y = Ok r) before →
  NsgRule_init lib x = Raise e →
  classify lib fmt (before ++ x :: after) acc = Raise (ValueError [PStr fmt; x]).
Proof.
  intros Hb Hx. revert acc.
  induction Hb as [|y ys [r Hy] _ IH]; intros acc; simpl.
  - by rewrite Hx.
  - rewrite Hy. apply IH.
Qed.

Lemma classify_all_accepted lib fmt rules acc :
  Forall (fun y => ∃ r, NsgRule_init lib y = Ok r) rules →
  ∃ out, classify lib fmt rules acc = Ok out.
Proof.
  intros H. revert acc.
  induction H as [|y ys [r Hy] _ IH]; intros acc; simpl; [eauto|].
  rewrite Hy. apply IH.
Qed.

(** C4.  [parse_rules].  If [allowed_ips] contains ["*"] the result is the
    single wildcard rule, whatever else the two lists hold.  Otherwise, if
    both lists are empty the result is the empty list.  Otherwise every
    entry of [allowed_ips] and then of [allowed_service_tags] is classified
    by [NsgRule]: the result lists, in that order, one rule per entry, and
    the first refused entry raises a [ValueError] with the invalid-ips
    message when it is in [allowed_ips] and with the invalid-tags message
    when it is in [allowed_service_tags].  [NsgRule] refuses what is not a
    string and a string that strips to nothing; it classifies ["*"], a
    string [ip_address] parses and a string [ip_network] parses as not a
    tag, and every other string as a tag; a string strips to nothing
    exactly when it is empty or made of whitespace only.  With [allowed_ips] =
    ["10.0.0.0/24"] and [allowed_service_tags] = ["Internet"], where the
    first is parsed as a network and the second is parsed as neither, the
    result is one rule that is not a tag followed by one that is. *)
Theorem parse_rules_classification (lib : Library) (proxy_config : Config) :
  (PStr "*" ∈ allowed_ips proxy_config →
   parse_rules lib proxy_config = Ok [mkNsgRule (PStr "*") false])
  ∧ (PStr "*" ∉ allowed_ips proxy_config →
     (allowed_ips proxy_config = [] → allowed_service_tags proxy_config = [] →
      parse_rules lib proxy_config = Ok [])
     ∧ (∀ rules,
          parse_rules lib proxy_config = Ok rules ↔
          Forall2 (fun x r => NsgRule_init lib x = Ok r)
            (allowed_ips proxy_config ++ allowed_service_tags proxy_config)
            rules)
     ∧ (∀ before x after e,
          allowed_ips proxy_config = before ++ x :: after →
          Forall (fun y => ∃ r, NsgRule_init lib y = Ok r) before →
          NsgRule_init lib x = Raise e →
          parse_rules lib proxy_config = Raise (ValueError [PStr invalid_ips; x]))
     ∧ (∀ before x after e,
          Forall (fun y => ∃ r, NsgRule_init lib y = Ok r)
                 (allowed_ips proxy_config) →
          allowed_service_tags proxy_config = before ++ x :: after →
          Forall (fun y => ∃ r, NsgRule_init lib y = Ok r) before →
          NsgRule_init lib x = Raise e →
          parse_rules lib proxy_config
          = Raise (ValueError [PStr invalid_tags; x])))
  ∧ (∀ x, is_str x = false → ∃ e, NsgRule_init lib x = Raise e)
  ∧ (∀ s,
       (strip s = "" ↔
        Forall (fun c => isspace c = true) (String.list_ascii_of_string s))
       ∧ (strip s = "" → ∃ e, NsgRule_init lib (PStr s) = Raise e)
       ∧ (strip s ≠ "" →
          (s = "*" ∨ ip_address_parses lib s = true
           ∨ ip_network_parses lib s = true →
           NsgRule_init lib (PStr s) = Ok (mkNsgRule (PStr s) false))
          ∧ (s ≠ "*" → ip_address_parses lib s = false →
             ip_network_parses lib s = false →
             NsgRule_init lib (PStr s) = Ok (mkNsgRule (PStr s) true))))
  ∧ (allowed_ips proxy_config = [PStr "10.0.0.0/24"] →
     allowed_service_tags proxy_config = [PStr "Internet"] →
     ip_network_parses lib "10.0.0.0/24" = true →
     ip_address_parses lib "Internet" = false →
     ip_network_parses lib "Internet" = false →
     parse_rules lib proxy_config
     = Ok [mkNsgRule (PStr "10.0.0.0/24") false;
           mkNsgRule (PStr "Internet") true]).
Proof.
  split; [|split; [|split; [|split]]].
  - intros Hin. apply wildcard_in_list in Hin.
    unfold parse_rules. by rewrite Hin.
  - intros Hnot.
    assert (Hw : existsb (fun x => eq_str x "*") (allowed_ips proxy_config)
                 = false).
    { destruct (existsb _ _) eqn:H; [|reflexivity].
      by apply wildcard_in_list in H. }
    split; [|split; [|split]].
    + intros Hips Htags. unfold parse_rules. by rewrite Hw, Hips, Htags.
    + intros rules. unfold parse_rules. rewrite Hw.
      destruct (length (allowed_ips proxy_config)
                + length (allowed_service_tags proxy_config) =? 0) eqn:Hlen.
      * apply Nat.eqb_eq in Hlen.
        destruct (allowed_ips proxy_config); [|simpl in Hlen; lia].
        destruct (allowed_service_tags proxy_config); [|simpl in Hlen; lia].
        simpl. split; [intros [= <-]; constructor|].
        intros H. by inversion H.
      * unfold mbind, result_bind.
        destruct (classify lib invalid_ips _ []) as [first|e] eqn:H1.
        -- apply classify_Ok in H1 as (new & -> & Hnew). simpl.
           rewrite classify_Ok. split.
           ++ intros (new' & -> & Hnew'). by apply Forall2_app.
           ++ intros H. apply Forall2_app_inv_l in H as (r1 & r2 & H1 & H2 & ->).
              assert (r1 = new) as ->.
              { clear -H1 Hnew. revert r1 H1.
                induction Hnew as [|???? Hx _ IH]; intros r1 H1;
                  inversion H1 as [|???? Hy Hrest]; subst; [reflexivity|].
                f_equal; [congruence | by apply IH]. }
              eauto.
        -- split; [discriminate|]. intros H.
           apply Forall2_app_inv_l in H as (r1 & r2 & H1' & _ & _).
           assert (classify lib invalid_ips (allowed_ips proxy_config) []
                   = Ok ([] ++ r1)) as Hok.
           { apply classify_Ok. eauto. }
           congruence.
    + intros before x after e Hips Hbefore Hx. unfold parse_rules.
      rewrite Hw, Hips.
      destruct (_ =? 0) eqn:Hlen.
      { apply Nat.eqb_eq in Hlen. rewrite length_app in Hlen. simpl in Hlen. lia. }
      unfold mbind, result_bind.
      by rewrite (classify_first_refused _ _ _ _ _ _ _ Hbefore Hx).
    + intros before x after e Hips Htags Hbefore Hx. unfold parse_rules.
      rewrite Hw, Htags.
      destruct (_ =? 0) eqn:Hlen.
      { apply Nat.eqb_eq in Hlen. rewrite length_app in Hlen. simpl in Hlen. lia. }
      unfold mbind, result_bind.
      destruct (classify_all_accepted lib invalid_ips _ [] Hips) as [out ->].
      by rewrite (classify_first_refused _ _ _ _ _ _ _ Hbefore Hx).
  - intros x Hx. rewrite (NsgRule_init_not_string _ _ Hx). eauto.
  - intros s. split; [apply strip_empty|].
    rewrite NsgRule_init_string. split.
    + intros ->. simpl. eauto.
    + intros Hs.
      assert ((String.length (strip s) =? 0) = false) as ->.
      { apply Nat.eqb_neq. by destruct (strip s). }
      split.
      * intros [-> | [H | H]]; [reflexivity| |].
        -- rewrite H. by destruct (String.eqb s "*").
        -- rewrite H. by destruct (String.eqb s "*"), (ip_address_parses lib s).
      * intros Hne Ha Hn. apply String.eqb_neq in Hne. by rewrite Hne, Ha, Hn.
  - intros Hips Htags Hnet Ha Hn. unfold parse_rules. rewrite Hips, Htags.
    simpl. unfold mbind, result_bind, NsgRule_init, check_rule. simpl.
    rewrite Hnet, Ha, Hn. by destruct (ip_address_parses lib "10.0.0.0/24").
Qed.

Example parse_rules_examples :
  let config ips tags := mkConfig "" "" "" "" ips tags in
  parse_rules sample_library.library
    (config [PStr "10.0.0.0/24"] [PStr "Internet"])
  = Ok [mkNsgRule (PStr "10.0.0.0/24") false; mkNsgRule (PStr "Internet") true]
  ∧ parse_rules sample_library.library
      (config [PStr "10.0.0.1"; PStr "*"; PStr ""] [PInt 7])
    = Ok [mkNsgRule (PStr "*") false]
  ∧ parse_rules sample_library.library (config [] []) = Ok []
  ∧ parse_rules sample_library.library
      (config [PStr "10.0.0.1"; PStr "  "] [PStr "Internet"])
    = Raise (ValueError [PStr invalid_ips; PStr "  "])
  ∧ parse_rules sample_library.library
      (config [PStr "10.0.0.1"] [PStr "Internet"; PStr ""])
    = Raise (ValueError [PStr invalid_tags; PStr ""])
  ∧ parse_rules sample_library.library (config [] [PStr "*"; PStr "Storage"])
    = Ok [mkNsgRule (PStr "*") false; mkNsgRule (PStr "Storage") true].
Proof. repeat split; vm_compute; reflexivity. Qed.

End NsgRules.

Section InstanceConfig.
Import py deploylib.

(** ** [Config] *)

Lemma lookup_key_Some_nonempty d key v :
  lookup_key d key = Some v → (length d =? 0) = false.
Proof. by destruct d. Qed.

(** Closes a goal in which every branch has already raised. *)
Ltac raises := repeat first [progress intros | split]; eauto.

(** What [parse_nsg_json] refuses. *)
Lemma parse_nsg_json_rejects (config : Any) :
  ((∀ d, config ≠ PDict d) → ∃ e, parse_nsg_json config = Raise e)
  ∧ (config = PDict [] → ∃ e, parse_nsg_json config = Raise e)
  ∧ (∀ d, config = PDict d →
       (lookup_key d "proxy_nsg_config" = None →
        ∃ e, parse_nsg_json config = Raise e)
       ∧ (∀ inner, lookup_key d "proxy_nsg_config" = Some inner →
            ((∀ p, inner ≠ PDict p) → ∃ e, parse_nsg_json config = Raise e)
            ∧ (inner = PDict [] → ∃ e, parse_nsg_json config = Raise e)
            ∧ (∀ p, inner = PDict p →
                 (lookup_key p "allowed_ips" = None
                  ∨ lookup_key p "allowed_service_tags" = None →
                  ∃ e, parse_nsg_json config = Raise e)
                 ∧ (∀ ips tags,
                      lookup_key p "allowed_ips" = Some ips →
                      lookup_key p "allowed_service_tags" = Some tags →
                      ((∀ l, ips ≠ PList l) ∨ (∀ l, tags ≠ PList l) →
                       ∃ e, parse_nsg_json config = Raise e)
                      ∧ (∀ i t, ips = PList i → tags = PList t →
                           i ≠ [] →
                           forallb is_str i = false ∨ forallb is_str t = false →
                           ∃ e, parse_nsg_json config = Raise e))))).
Proof.
  split; [|split].
  - intros H. destruct config; simpl; eauto. by destruct (H d).
  - intros ->. simpl. eauto.
  - intros d ->. simpl. destruct (length d =? 0); [raises|]. split.
    + intros ->. eauto.
    + intros inner ->. split; [|split].
      * intros H. destruct inner as [| | | | |p]; eauto. by destruct (H p).
      * intros ->. simpl. eauto.
      * intros p ->. destruct (length p =? 0); [raises|]. split.
        -- intros [-> | H]; [eauto|].
           rewrite H. destruct (lookup_key p "allowed_ips"); eauto.
        -- intros ips tags -> ->. split.
           ++ intros [H | H].
              ** destruct ips as [| | | |l|]; eauto. by destruct (H l).
              ** destruct ips; eauto.
                 destruct tags as [| | | |l'|]; eauto. by destruct (H l').
           ++ intros i t -> -> Hi H.
              assert ((length i =? 0) = false) as ->.
              { apply Nat.eqb_neq. by destruct i. }
              simpl. destruct H as [-> | ->]; simpl; eauto.
              destruct (forallb is_str i); simpl; eauto.
Qed.

(** When [allowed_ips] is the empty list, [allowed_service_tags] is taken
    as it is. *)
Lemma parse_nsg_json_empty_ips d p tags :
  lookup_key d "proxy_nsg_config" = Some (PDict p) →
  lookup_key p "allowed_ips" = Some (PList []) →
  lookup_key p "allowed_service_tags" = Some (PList tags) →
  parse_nsg_json (PDict d) = Ok ([], tags).
Proof.
  intros Hd Hips Htags. simpl.
  rewrite (lookup_key_Some_nonempty _ _ _ Hd), Hd.
  by rewrite (lookup_key_Some_nonempty _ _ _ Hips), Hips, Htags.
Qed.

(** What [parse_endpoint_json] refuses about [cli_client_id], and that the
    empty string is a [multi_tenant_domain]. *)
Lemma parse_endpoint_json_cli_client_id lib d :
  (lookup_key d "cli_client_id" = None →
   ∃ e, parse_endpoint_json lib d = Raise e)
  ∧ (∀ v, lookup_key d "cli_client_id" = Some v → is_str v = false →
          ∃ e, parse_endpoint_json lib d = Raise e)
  ∧ (lookup_key d "cli_client_id" = Some (PStr "") →
     ∃ e, parse_endpoint_json lib d = Raise e)
  ∧ (∀ s, lookup_key d "cli_client_id" = Some (PStr s) →
          UUID_parses lib s = false →
          ∃ e, parse_endpoint_json lib d = Raise e)
  ∧ (∀ id tenant domain,
       lookup_key d "cli_client_id" = Some (PStr id) → id ≠ "" →
       UUID_parses lib id = true →
       lookup_key d "tenant_id" = Some (PStr tenant) → tenant ≠ "" →
       lookup_key d "tenant_domain" = Some (PStr domain) → domain ≠ "" →
       lookup_key d "multi_tenant_domain" = Some (PStr "") →
       parse_endpoint_json lib d = Ok (id, tenant, domain, "")).
Proof.
  unfold parse_endpoint_json, string_entry, mbind, result_bind.
  split; [|split; [|split; [|split]]].
  - intros ->. eauto.
  - intros v -> Hv. destruct v; try discriminate; eauto.
  - intros ->. simpl. eauto.
  - intros s -> Hs. simpl. destruct (String.eqb s ""); [eauto|].
    rewrite Hs. eauto.
  - intros id tenant domain -> Hid Hu -> Ht -> Hd ->. simpl.
    apply String.eqb_neq in Hid, Ht, Hd. by rewrite Hid, Hu, Ht, Hd.
Qed.

(** C5.  The code does not do what the claim says.  When [allowed_ips] is
    the empty list, [parse_nsg_json] never looks at the elements of
    [allowed_service_tags]: it returns the list as it is, strings or not,
    and [Config] is constructed whenever the endpoint entries are
    accepted. *)
Theorem Config_init_empty_ips_unchecked_tags (lib : Library)
    (d p : list (string * Any)) (tags : list Any) :
  lookup_key d "proxy_nsg_config" = Some (PDict p) →
  lookup_key p "allowed_ips" = Some (PList []) →
  lookup_key p "allowed_service_tags" = Some (PList tags) →
  parse_nsg_json (PDict d) = Ok ([], tags)
  ∧ (∀ id tenant domain multi,
       parse_endpoint_json lib d = Ok (id, tenant, domain, multi) →
       Config_init lib (PDict d) = Ok (mkConfig id tenant domain multi [] tags)).
Proof.
  intros Hd Hips Htags.
  pose proof (parse_nsg_json_empty_ips _ _ _ Hd Hips Htags) as Hnsg.
  split; [exact Hnsg|].
  intros id tenant domain multi He. unfold Config_init.
  rewrite Hnsg. unfold mbind, result_bind. by rewrite He.
Qed.

Lemma Config_init_empty_ips_unchecked_tags_witness :
  Config_init sample_library.library
    (sample_library.file (PList []) (PList [PInt 1])
       sample_library.client_id (PStr ""))
  = Ok (mkConfig "82fb1363-1f4a-4e1f-b5a4-d4b3570f6bf4"
          "72f988bf-86f1-41af-91ab-2d7cd011db47" "contoso.onmicrosoft.com" ""
          [] [PInt 1]).
Proof.
  apply (proj2 (Config_init_empty_ips_unchecked_tags sample_library.library
                  (sample_library.items (PList []) (PList [PInt 1])
                     sample_library.client_id (PStr ""))
                  [("allowed_ips", PList []);
                     ("allowed_service_tags", PList [PInt 1])]
                  [PInt 1] eq_refl eq_refl eq_refl)).
  reflexivity.
Defined.

Example Config_init_examples :
  let lib := sample_library.library in
  let id := sample_library.client_id in
  (∃ e, Config_init lib (PDict []) = Raise e)
  ∧ (∃ e, Config_init lib (PDict [("proxy_nsg_config", PDict [])]) = Raise e)
  ∧ (∃ e, Config_init lib
            (sample_library.file (PList []) (PList []) (PStr "not-a-uuid")
               (PStr "")) = Raise e)
  ∧ (∃ c, Config_init lib
            (sample_library.file (PList [PStr "10.0.0.0/24"])
               (PList [PStr "Internet"]) id (PStr "")) = Ok c
          ∧ multi_tenant_domain c = "")
  ∧ (∃ e, Config_init lib
            (sample_library.file (PList [PStr "10.0.0.0/24"]) (PList [PInt 1])
               id (PStr "")) = Raise e)
  ∧ (∃ e, Config_init lib
            (sample_library.file (PList [PInt 1]) (PList []) id (PStr ""))
          = Raise e).
Proof.
  repeat split; try (eexists; vm_compute; reflexivity).
  eexists. split; vm_compute; reflexivity.
Qed.

End InstanceConfig.

Section BuildTaskConfig.
Import py pathlib tasks spec.

(** ** Attribute assignments *)

Lemma lookup_set_if_eq cond name v (config : TaskUnitConfig) :
  set_if cond name v config !! name = if cond then Some v else config !! name.
Proof. unfold set_if. destruct cond; [apply lookup_insert_eq | reflexivity]. Qed.

Lemma lookup_set_if_ne cond name name' v (config : TaskUnitConfig) :
  name ≠ name' → set_if cond name v config !! name' = config !! name'.
Proof.
  intros Hne. unfold set_if. destruct cond; [|reflexivity].
  by apply lookup_insert_ne.
Qed.

(** ** The container loop *)

Lemma enumerate_cons {A} start (x : A) l :
  enumerate start (x :: l) = (start, x) :: enumerate (S start) l.
Proof. reflexivity. Qed.

Lemma container_entries_enumerate w container_def i submitted :
  container_entries w container_def i submitted =
  map (fun p => entry w container_def p.1 p.2)
    (filter (fun p : nat * TaskContainers =>
               container_type p.2 = def_type container_def)
            (enumerate i submitted)).
Proof.
  revert i. induction submitted as [|c cs IH]; intros i; [reflexivity|].
  rewrite enumerate_cons, filter_cons. simpl.
  case_bool_decide as Hc; destruct (decide _) as [Hd|Hd]; try contradiction;
    simpl; by rewrite IH.
Qed.

Lemma length_container_entries w container_def i submitted :
  length (container_entries w container_def i submitted) =
  length (filter (fun c => container_type c = def_type container_def) submitted).
Proof.
  revert i. induction submitted as [|c cs IH]; intros i; [reflexivity|].
  rewrite filter_cons. simpl.
  case_bool_decide as Hc; destruct (decide _) as [Hd|Hd]; try contradiction;
    simpl; by rewrite IH.
Qed.

Lemma single_spec container_def :
  bool_decide (def_compare container_def ∈ [Equal; AtMost])
  && (def_value container_def =? 1)%Z
  = single container_def.
Proof.
  unfold single. f_equal.
  - apply bool_decide_ext. rewrite !elem_of_cons, elem_of_nil. tauto.
  - destruct (Z.eqb_spec (def_value container_def) 1) as [->|Hne];
      symmetry; [by apply bool_decide_eq_true | by apply bool_decide_eq_false].
Qed.

Lemma build_container_role_field w task_config config container_def :
  build_container w task_config config container_def =
  match role_field w container_def task_config with
  | Some v => <[ContainerType_name (def_type container_def) := v]> config
  | None => config
  end.
Proof.
  unfold build_container, role_field.
  case_bool_decide; [reflexivity|].
  destruct (container_entries _ _ _ _) as [|first rest]; [reflexivity|].
  rewrite single_spec. by destruct (single container_def).
Qed.

Lemma role_field_None w container_def task_config :
  role_field w container_def task_config = None ↔
  def_type container_def = setup
  ∨ count_role (def_type container_def) task_config = 0.
Proof.
  unfold role_field, count_role.
  rewrite <- (length_container_entries w container_def 0).
  case_bool_decide as Hs.
  - split; auto.
  - destruct (container_entries _ _ _ _); simpl.
    + split; auto.
    + split; [discriminate|]. intros [?|?]; [contradiction|lia].
Qed.

Lemma ContainerType_name_inj (a b : ContainerType) :
  ContainerType_name a = ContainerType_name b → a = b.
Proof. destruct a, b. simpl. by intros ->. Qed.

Lemma build_containers_untouched w definition task_config config field :
  (∀ d, d ∈ definition_containers definition →
        role_field w d task_config = None
        ∨ ContainerType_name (def_type d) ≠ field) →
  build_containers w definition task_config config !! field = config !! field.
Proof.
  unfold build_containers.
  generalize (definition_containers definition) as defs.
  intros defs. revert config.
  induction defs as [|d defs IH]; intros config H; [reflexivity|]. simpl.
  rewrite IH by (intros d' Hd'; apply H; by right).
  rewrite build_container_role_field.
  destruct (H d) as [-> | Hne]; [by left|reflexivity|].
  destruct (role_field w d task_config); [|reflexivity].
  by apply lookup_insert_ne.
Qed.

Lemma fold_build_container_other w task_config role defs
    (config : TaskUnitConfig) :
  Forall (fun d' => def_type d' ≠ role) defs →
  fold_left (build_container w task_config) defs config
    !! ContainerType_name role
  = config !! ContainerType_name role.
Proof.
  intros H. revert config.
  induction H as [|d' ds Hd' _ IH]; intros config; [reflexivity|]. simpl.
  rewrite IH, build_container_role_field.
  destruct (role_field w d' task_config); [|reflexivity].
  apply lookup_insert_ne. intros Heq.
  by apply ContainerType_name_inj in Heq.
Qed.

Lemma build_containers_last w definition task_config config before d after v :
  definition_containers definition = before ++ d :: after →
  Forall (fun d' => def_type d' ≠ def_type d) after →
  role_field w d task_config = Some v →
  build_containers w definition task_config config
    !! ContainerType_name (def_type d) = Some v.
Proof.
  intros Hdefs Hafter Hv. unfold build_containers.
  rewrite Hdefs, fold_left_app. simpl.
  rewrite (fold_build_container_other _ _ _ _ _ Hafter).
  rewrite build_container_role_field, Hv.
  apply lookup_insert_eq.
Qed.

(** ** The stages of [build_task_config] *)

(** For a registered task type [build_task_config] returns: its result is
    the feature assignments applied to the container loop applied to a
    configuration that has only base attributes. *)
Lemma build_task_config_stages w job task definition :
  TASK_DEFINITIONS w (task_type (config_task (task_config task)))
  = Some definition →
  ∃ base : TaskUnitConfig,
    outcome (build_task_config w job task)
    = Ok (build_features definition (task_config task)
            (build_containers w definition (task_config task) base))
    ∧ ∀ field, field ∉ base_fields → base !! field = None.
Proof.
  intros Hdef. unfold build_task_config. rewrite Hdef.
  set (config0 := <["instance_id" := _]> _).
  assert (H0 : ∀ field, field ∉ base_fields → config0 !! field = None).
  { intros field Hf. unfold config0, base_fields in *.
    repeat (rewrite lookup_insert_ne by (intros <-; apply Hf; set_solver)).
    apply lookup_empty. }
  clearbody config0.
  destruct (truthy (job_logs (job_config job))).
  - eexists. split; [reflexivity|]. intros field Hf.
    rewrite lookup_set_if_ne by (intros <-; apply Hf; set_solver).
    rewrite lookup_insert_ne by (intros <-; apply Hf; set_solver).
    by apply H0.
  - eexists. split; [reflexivity|]. intros field Hf.
    rewrite lookup_set_if_ne by (intros <-; apply Hf; set_solver).
    by apply H0.
Qed.

End BuildTaskConfig.

Section FeatureProjection.
Import py pathlib tasks spec.

(** ** The feature assignments *)

(** Rewrites the lookup of a literal attribute through the chain of
    assignments. *)
Ltac through_assignments :=
  repeat first
    [ rewrite lookup_set_if_eq
    | rewrite lookup_set_if_ne by discriminate ].

Lemma build_features_untouched definition task_config
    (config : TaskUnitConfig) field :
  field ∉ feature_fields →
  build_features definition task_config config !! field = config !! field.
Proof.
  intros H. unfold feature_fields in H.
  repeat (apply not_elem_of_cons in H as [? H]).
  unfold build_features. cbv zeta.
  by repeat (rewrite lookup_set_if_ne by congruence).
Qed.

(** The defaults, and that a supplied value is the one assigned. *)
Lemma feature_defaults :
  (or_EMPTY_DICT None = VDict [] ∧ ∀ env, or_EMPTY_DICT (Some env) = of_env env)
  ∧ (or_EMPTY_LIST None = VList []
     ∧ ∀ options, or_EMPTY_LIST (Some options) = of_options options)
  ∧ (or_False None = VBool false ∧ ∀ b, or_False (Some b) = VBool b)
  ∧ (or_0 None = VInt 0 ∧ ∀ z, or_0 (Some z) = VInt z)
  ∧ (if_not_None_else_True None = VBool true
     ∧ ∀ b, if_not_None_else_True (Some b) = VBool b)
  ∧ (∀ A (f : A → value), of_option f None = VNone
                           ∧ ∀ a, of_option f (Some a) = f a).
Proof.
  repeat split.
  - by intros [|].
  - by intros [|].
  - by intros [|].
  - intros z. simpl. by destruct (Z.eqb_spec z 0) as [->|].
Qed.


Lemma feature_fields_not_base field :
  field ∈ feature_fields → field ∉ base_fields.
Proof.
  revert field. apply Forall_forall.
  refine (bool_decide_unpack
            (Forall (fun field => field ∉ base_fields) feature_fields) _).
  vm_compute. exact I.
Qed.

(** C6.  The feature assignments of [build_task_config].  For every
    feature with an attribute of its own, the attribute holds the value
    derived from the task body when the definition declares the feature
    and is left as it was otherwise: the field itself where the code copies
    it, the field or the empty mapping for the [*_env] features, the field or
    the empty sequence for the [*_options] features, the field or [False]
    for [target_options_merge] and [rename_output], the field or [0] for
    [check_retry_count], the field or [True] for [check_fuzzer_help] and
    [expect_crash_on_failure].  Three attributes are guarded by the field as
    well as the feature: [target_exe] is also assigned under
    [target_exe_optional] when the field is set and not empty,
    [wait_for_files] is assigned the name of the role when the field is
    set, [coverage_filter] is assigned when the field is set.  For a
    registered task type [build_task_config] returns, the feature
    assignments being its last stage, applied to a configuration in which an
    attribute of a feature is set only if a declared role bears its name; so
    an attribute whose feature is not declared stays unset, a task type
    declaring [rename_output] with no value supplied yields [False], and one
    declaring [check_fuzzer_help] with no value supplied yields [True]. *)
Theorem build_task_config_features (w : Services)
    (definition : TaskDefinition) (task_config : TaskConfig)
    (config : TaskUnitConfig) :
  (let task := config_task task_config in
   let out := build_features definition task_config config in
   assigned definition config out supervisor_exe "supervisor_exe"
       (of_option VStr (task_supervisor_exe task))
   ∧ assigned definition config out supervisor_env "supervisor_env"
       (or_EMPTY_DICT (task_supervisor_env task))
   ∧ assigned definition config out supervisor_options "supervisor_options"
       (or_EMPTY_LIST (task_supervisor_options task))
   ∧ assigned definition config out supervisor_input_marker "supervisor_input_marker"
       (of_option VStr (task_supervisor_input_marker task))
   ∧ assigned definition config out target_env "target_env"
       (or_EMPTY_DICT (task_target_env task))
   ∧ assigned definition config out target_options "target_options"
       (or_EMPTY_LIST (task_target_options task))
   ∧ assigned definition config out target_options_merge "target_options_merge"
       (or_False (task_target_options_merge task))
   ∧ assigned definition config out target_workers "target_workers"
       (of_option VInt (task_target_workers task))
   ∧ assigned definition config out rename_output "rename_output"
       (or_False (task_rename_output task))
   ∧ assigned definition config out generator_exe "generator_exe"
       (of_option VStr (task_generator_exe task))
   ∧ assigned definition config out generator_env "generator_env"
       (or_EMPTY_DICT (task_generator_env task))
   ∧ assigned definition config out generator_options "generator_options"
       (or_EMPTY_LIST (task_generator_options task))
   ∧ assigned definition config out analyzer_exe "analyzer_exe"
       (of_option VStr (task_analyzer_exe task))
   ∧ assigned definition config out analyzer_options "analyzer_options"
       (or_EMPTY_LIST (task_analyzer_options task))
   ∧ assigned definition config out analyzer_env "analyzer_env"
       (or_EMPTY_DICT (task_analyzer_env task))
   ∧ assigned definition config out stats_file "stats_file"
       (of_option VStr (task_stats_file task))
   ∧ assigned definition config out stats_file "stats_format"
       (of_option of_stats_format (task_stats_format task))
   ∧ assigned definition config out target_timeout "target_timeout"
       (of_option VInt (task_target_timeout task))
   ∧ assigned definition config out check_asan_log "check_asan_log"
       (of_option VBool (task_check_asan_log task))
   ∧ assigned definition config out check_debugger "check_debugger"
       (of_option VBool (task_check_debugger task))
   ∧ assigned definition config out check_retry_count "check_retry_count"
       (or_0 (task_check_retry_count task))
   ∧ assigned definition config out ensemble_sync_delay "ensemble_sync_delay"
       (of_option VInt (task_ensemble_sync_delay task))
   ∧ assigned definition config out check_fuzzer_help "check_fuzzer_help"
       (if_not_None_else_True (task_check_fuzzer_help task))
   ∧ assigned definition config out report_list "report_list"
       (of_option of_options (task_report_list task))
   ∧ assigned definition config out minimized_stack_depth "minimized_stack_depth"
       (of_option VInt (task_minimized_stack_depth task))
   ∧ assigned definition config out expect_crash_on_failure "expect_crash_on_failure"
       (if_not_None_else_True (task_expect_crash_on_failure task))
   ∧ assigned definition config out target_assembly "target_assembly"
       (of_option VStr (task_target_assembly task))
   ∧ assigned definition config out target_class "target_class"
       (of_option VStr (task_target_class task))
   ∧ assigned definition config out target_method "target_method"
       (of_option VStr (task_target_method task))
   ∧ out !! "target_exe" =
     (if declares definition target_exe_optional && truthy (task_target_exe task)
      then Some (of_option VStr (task_target_exe task))
      else if declares definition target_exe
      then Some (of_option VStr (task_target_exe task))
      else config !! "target_exe")
   ∧ out !! "wait_for_files" =
     (if declares definition wait_for_files && is_set (task_wait_for_files task)
      then Some (of_option (fun t => VStr (ContainerType_name t))
                   (task_wait_for_files task))
      else config !! "wait_for_files")
   ∧ out !! "coverage_filter" =
     (if declares definition coverage_filter && is_set (task_coverage_filter task)
      then Some (of_option VStr (task_coverage_filter task))
      else config !! "coverage_filter"))
  ∧ ((or_EMPTY_DICT None = VDict []
      ∧ ∀ env, or_EMPTY_DICT (Some env) = of_env env)
     ∧ (or_EMPTY_LIST None = VList []
        ∧ ∀ options, or_EMPTY_LIST (Some options) = of_options options)
     ∧ (or_False None = VBool false ∧ ∀ b, or_False (Some b) = VBool b)
     ∧ (or_0 None = VInt 0 ∧ ∀ z, or_0 (Some z) = VInt z)
     ∧ (if_not_None_else_True None = VBool true
        ∧ ∀ b, if_not_None_else_True (Some b) = VBool b)
     ∧ (∀ A (f : A → value), of_option f None = VNone
                              ∧ ∀ a, of_option f (Some a) = f a))
  ∧ (∀ job task,
       tasks.task_config task = task_config →
       TASK_DEFINITIONS w (task_type (config_task task_config))
       = Some definition →
       ∃ before : TaskUnitConfig,
         outcome (build_task_config w job task)
         = Ok (build_features definition task_config before)
         ∧ (∀ field,
              field ∈ feature_fields →
              (∀ d, d ∈ definition_containers definition →
                    ContainerType_name (def_type d) ≠ field) →
              before !! field = None)
         ∧ (declares definition rename_output = true →
            task_rename_output (config_task task_config) = None →
            build_features definition task_config before !! "rename_output"
            = Some (VBool false))
         ∧ (declares definition check_fuzzer_help = true →
            task_check_fuzzer_help (config_task task_config) = None →
            build_features definition task_config before !! "check_fuzzer_help"
            = Some (VBool true))).
Proof.
  split; [|split].
  - unfold assigned, build_features. cbv zeta.
    repeat split; through_assignments; reflexivity.
  - apply feature_defaults.
  - intros job task <- Hdef.
    destruct (build_task_config_stages w job task definition Hdef)
      as (base & Hout & Hbase).
    eexists. split; [exact Hout|]. split; [|split].
    + intros field Hf Hroles.
      rewrite build_containers_untouched by (intros d Hd; right; by apply Hroles).
      apply Hbase. by apply feature_fields_not_base.
    + intros Hdecl Hnone. unfold build_features. cbv zeta.
      through_assignments. by rewrite Hdecl, Hnone.
    + intros Hdecl Hnone. unfold build_features. cbv zeta.
      through_assignments. by rewrite Hdecl, Hnone.
Qed.

End FeatureProjection.

Section ContainerProjection.
Import py pathlib tasks spec.

(** C7.  The container loop of [build_task_config].  For a declared role,
    one entry is generated per submitted container of that role, in
    submission order: its path is [task_<role>_<i>] with [i] the position of
    the container in the submitted list, and its URL is the one issued for
    the container with the read, write, delete and list flags of the role's
    declared permission set.  One iteration assigns nothing for the role
    [setup] and for a role with no submitted container; otherwise it
    assigns, to the attribute named after the role, the first entry when
    the comparator is [Equal] or [AtMost] and the value is 1, and the list
    of all entries otherwise.  After the loop an attribute that no
    assigning iteration names is as it was before, and the attribute of a
    role holds what the last declaration of that role assigns.  For a
    registered task type [build_task_config] returns, and outside the
    attributes of the features its result agrees with the loop run on a
    configuration that has only the base attributes. *)
Theorem build_task_config_containers (w : Services)
    (definition : TaskDefinition) (task_config : TaskConfig)
    (config : TaskUnitConfig) :
  (∀ d,
     container_entries w d 0 (config_containers task_config)
     = map (fun p => entry w d p.1 p.2)
         (filter (fun p : nat * TaskContainers =>
                    container_type p.2 = def_type d)
                 (enumerate 0 (config_containers task_config)))
     ∧ length (container_entries w d 0 (config_containers task_config))
       = count_role (def_type d) task_config)
  ∧ (∀ d (config' : TaskUnitConfig),
       build_container w task_config config' d =
       match role_field w d task_config with
       | Some v => <[ContainerType_name (def_type d) := v]> config'
       | None => config'
       end)
  ∧ (∀ d,
       (role_field w d task_config = None ↔
        def_type d = setup ∨ count_role (def_type d) task_config = 0)
       ∧ (∀ first rest,
            def_type d ≠ setup →
            container_entries w d 0 (config_containers task_config)
            = first :: rest →
            role_field w d task_config
            = Some (if single d then first else VList (first :: rest)))
       ∧ (single d = true ↔
          (def_compare d = Equal ∨ def_compare d = AtMost)
          ∧ def_value d = 1%Z))
  ∧ (∀ field,
       (∀ d, d ∈ definition_containers definition →
             role_field w d task_config = None
             ∨ ContainerType_name (def_type d) ≠ field) →
       build_containers w definition task_config config !! field
       = config !! field)
  ∧ (∀ before d after v,
       definition_containers definition = before ++ d :: after →
       Forall (fun d' => def_type d' ≠ def_type d) after →
       role_field w d task_config = Some v →
       build_containers w definition task_config config
         !! ContainerType_name (def_type d) = Some v)
  ∧ (∀ job task,
       tasks.task_config task = task_config →
       TASK_DEFINITIONS w (task_type (config_task task_config))
       = Some definition →
       ∃ base out : TaskUnitConfig,
         outcome (build_task_config w job task) = Ok out
         ∧ (∀ field, field ∉ base_fields → base !! field = None)
         ∧ (∀ field, field ∉ feature_fields →
                     out !! field
                     = build_containers w definition task_config base !! field)).
Proof.
  split; [|split; [|split; [|split; [|split]]]].
  - intros d. split.
    + apply container_entries_enumerate.
    + apply length_container_entries.
  - intros d config'. apply build_container_role_field.
  - intros d. split; [apply role_field_None|]. split.
    + intros first rest Hs He. unfold role_field. rewrite He.
      case_bool_decide; [contradiction|reflexivity].
    + unfold single. rewrite andb_true_iff, !bool_decide_eq_true. tauto.
  - apply build_containers_untouched.
  - apply build_containers_last.
  - intros job task <- Hdef.
    destruct (build_task_config_stages w job task definition Hdef)
      as (base & Hout & Hbase).
    exists base. eexists. split; [exact Hout|]. split; [exact Hbase|].
    intros field Hf. by apply build_features_untouched.
Qed.

End ContainerProjection.

(** *** The unit config of the sample fuzzing task *)

Example fuzz_role_attributes :
  fuzz.built "crashes"
  = Some (tasks.VDict [("path", tasks.VStr "task_crashes_2");
                       ("url", tasks.VStr "found?w")])
  ∧ fuzz.built "readonly_inputs"
    = Some (tasks.VList
              [tasks.VDict [("path", tasks.VStr "task_readonly_inputs_1");
                            ("url", tasks.VStr "seeds-a?rl")];
               tasks.VDict [("path", tasks.VStr "task_readonly_inputs_3");
                            ("url", tasks.VStr "seeds-b?rl")]])
  ∧ fuzz.built "inputs" = None
  ∧ fuzz.built "setup" = None.
Proof. repeat split; vm_compute; reflexivity. Qed.

Example fuzz_feature_attributes :
  fuzz.built "rename_output" = Some (tasks.VBool false)
  ∧ fuzz.built "check_fuzzer_help" = Some (tasks.VBool true)
  ∧ fuzz.built "target_exe" = Some (tasks.VStr "fuzz.exe")
  ∧ fuzz.built "target_env" = Some (tasks.VDict [])
  ∧ fuzz.built "target_options" = Some (tasks.VList [tasks.VStr "-runs=10"])
  ∧ fuzz.built "supervisor_exe" = None
  ∧ fuzz.built "expect_crash_on_failure" = None.
Proof. repeat split; vm_compute; reflexivity. Qed.

(* ================================================================= *)
(** * Part III: further properties of the two modules *)
(* ================================================================= *)

Section Acceptance.
Import py pathlib tasks spec.

(** ** What [check_config] accepts *)

Lemma check_target_exe_Ok_iff w config definition :
  outcome (check_target_exe w config definition) = Ok tt ↔
  (task_target_exe (config_task config) = None →
   declares definition target_exe = false)
  ∧ (∀ exe, task_target_exe (config_task config) = Some exe →
            is_valid_blob_name exe = true ∧ count_role setup config ≠ 0).
Proof.
  unfold check_target_exe, count_role.
  destruct (task_target_exe (config_task config)) as [exe|].
  - destruct (is_valid_blob_name exe) eqn:Hv; simpl.
    + destruct (filter _ _) as [|container rest]; simpl.
      * split; [discriminate|]. intros [_ H]. by destruct (H exe eq_refl).
      * destruct (blob_exists _ _ _ _); simpl;
          (split; [|reflexivity]); intros _;
          (split; [discriminate|]); intros ? [= <-]; (split; [done|simpl; lia]).
    + split; [discriminate|]. intros [_ H].
      destruct (H exe eq_refl). congruence.
  - destruct (declares definition target_exe); simpl.
    + split; [discriminate|]. intros [H _]. by specialize (H eq_refl).
    + destruct (declares definition target_exe_optional); simpl;
        (split; [|reflexivity]); intros _; (split; [done|]); discriminate.
Qed.

Lemma check_generator_exe_Ok_iff w config definition :
  outcome (check_generator_exe w config definition) = Ok tt ↔
  (declares definition generator_exe = true →
   ∃ exe container rest,
     task_generator_exe (config_task config) = Some exe
     ∧ exe ≠ ""
     ∧ filter (fun x => container_type x = tools) (config_containers config)
       = container :: rest
     ∧ ∀ tool_path,
         tool_path ∈ ["{tools_dir}/"; "{tools_dir}\"] →
         startswith exe tool_path = true →
         blob_exists w (container_name container) (replace exe tool_path "")
           StorageType_corpus = true).
Proof.
  destruct (declares definition generator_exe) eqn:Hf.
  2:{ unfold check_generator_exe. rewrite Hf. simpl.
      split; [discriminate | reflexivity]. }
  destruct (filter (fun x => container_type x = tools)
              (config_containers config)) as [|container rest] eqn:Hs.
  { rewrite (check_generator_exe_no_tools _ _ _ Hf Hs). simpl.
    split; [discriminate|]. intros H.
    destruct (H eq_refl) as (? & ? & ? & _ & _ & ? & _). discriminate. }
  rewrite (check_generator_exe_outcome _ _ _ _ _ Hf Hs).
  destruct (task_generator_exe (config_task config)) as [exe|].
  2:{ split; [discriminate|]. intros H.
      destruct (H eq_refl) as (? & ? & ? & ? & _). discriminate. }
  destruct (String.eqb_spec exe "") as [->|Hne].
  { split; [discriminate|]. intros H.
    destruct (H eq_refl) as (? & ? & ? & [= <-] & ? & _). done. }
  destruct (startswith exe "{tools_dir}/" && _) eqn:H1.
  { split; [discriminate|]. intros H.
    destruct (H eq_refl) as (? & ? & ? & [= <-] & _ & [= <- <-] & Hb).
    apply andb_true_iff in H1 as [Hs1 Hb1].
    rewrite (Hb "{tools_dir}/") in Hb1; [discriminate | by left | done]. }
  destruct (startswith exe "{tools_dir}\" && _) eqn:H2.
  { split; [discriminate|]. intros H.
    destruct (H eq_refl) as (? & ? & ? & [= <-] & _ & [= <- <-] & Hb).
    apply andb_true_iff in H2 as [Hs2 Hb2].
    rewrite (Hb "{tools_dir}\") in Hb2; [discriminate | by right; left | done]. }
  split; [|reflexivity]. intros _ _.
  exists exe, container, rest. repeat split; auto.
  intros tool_path Hin Hstart.
  apply elem_of_cons in Hin as [->|Hin].
  - rewrite Hstart in H1. simpl in H1. by apply negb_false_iff in H1.
  - apply list_elem_of_singleton in Hin as ->.
    rewrite Hstart in H2. simpl in H2. by apply negb_false_iff in H2.
Qed.


Lemma check_containers_and_pool_Ok_iff w config definition :
  outcome (check_containers_and_pool w config definition) = Ok tt ↔
  config_vm config = None
  ∧ (∃ pool, config_pool config = Some pool
             ∧ check_val (vm_compare (definition_vm definition))
                 (vm_value (definition_vm definition)) (pool_count pool) = true
             ∧ is_set (Pool_get_by_name w (pool_name pool)) = true)
  ∧ check_containers w definition config = Ok tt
  ∧ (declares definition supervisor_exe = true →
     truthy (task_supervisor_exe (config_task config)) = true)
  ∧ (declares definition target_must_use_input = true →
     target_uses_input config = true).
Proof.
  rewrite check_containers_and_pool_outcome.
  destruct (config_vm config) as [vm|]; simpl.
  { split; [|by intros [? _]].
    destruct (is_set (config_pool config)); [discriminate|].
    destruct (check_containers w definition config) as [[]|]; [|discriminate].
    destruct (declares definition supervisor_exe && _); [discriminate|].
    destruct (declares definition target_must_use_input && _); discriminate. }
  destruct (check_containers w definition config) as [[]|e].
  2:{ split; [discriminate | by intros (_ & _ & ? & _)]. }
  destruct (declares definition supervisor_exe) eqn:Hs; simpl.
  - destruct (truthy (task_supervisor_exe (config_task config))) eqn:Ht; simpl.
    2:{ split; [discriminate|]. intros (_ & _ & _ & H & _).
        by specialize (H eq_refl). }
    destruct (declares definition target_must_use_input) eqn:Hi; simpl.
    + destruct (target_uses_input config) eqn:Hu; simpl.
      2:{ split; [discriminate|]. intros (_ & _ & _ & _ & H).
          by specialize (H eq_refl). }
      destruct (config_pool config) as [pool|].
      2:{ split; [discriminate|]. by intros (_ & (? & ? & _) & _). }
      destruct (check_val _ _ (pool_count pool)) eqn:Hc; simpl.
      2:{ split; [discriminate|].
          intros (_ & (? & [= <-] & ? & _) & _). congruence. }
      destruct (is_set (Pool_get_by_name w (pool_name pool))) eqn:Hp; simpl.
      2:{ split; [discriminate|].
          intros (_ & (? & [= <-] & _ & ?) & _). congruence. }
      split; [|reflexivity]. intros _. repeat split; eauto.
    + destruct (config_pool config) as [pool|].
      2:{ split; [discriminate|]. by intros (_ & (? & ? & _) & _). }
      destruct (check_val _ _ (pool_count pool)) eqn:Hc; simpl.
      2:{ split; [discriminate|].
          intros (_ & (? & [= <-] & ? & _) & _). congruence. }
      destruct (is_set (Pool_get_by_name w (pool_name pool))) eqn:Hp; simpl.
      2:{ split; [discriminate|].
          intros (_ & (? & [= <-] & _ & ?) & _). congruence. }
      split; [|reflexivity]. intros _. repeat split; eauto. discriminate.
  - destruct (declares definition target_must_use_input) eqn:Hi; simpl.
    + destruct (target_uses_input config) eqn:Hu; simpl.
      2:{ split; [discriminate|]. intros (_ & _ & _ & _ & H).
          by specialize (H eq_refl). }
      destruct (config_pool config) as [pool|].
      2:{ split; [discriminate|]. by intros (_ & (? & ? & _) & _). }
      destruct (check_val _ _ (pool_count pool)) eqn:Hc; simpl.
      2:{ split; [discriminate|].
          intros (_ & (? & [= <-] & ? & _) & _). congruence. }
      destruct (is_set (Pool_get_by_name w (pool_name pool))) eqn:Hp; simpl.
      2:{ split; [discriminate|].
          intros (_ & (? & [= <-] & _ & ?) & _). congruence. }
      split; [|reflexivity]. intros _. repeat split; eauto. discriminate.
    + destruct (config_pool config) as [pool|].
      2:{ split; [discriminate|]. by intros (_ & (? & ? & _) & _). }
      destruct (check_val _ _ (pool_count pool)) eqn:Hc; simpl.
      2:{ split; [discriminate|].
          intros (_ & (? & [= <-] & ? & _) & _). congruence. }
      destruct (is_set (Pool_get_by_name w (pool_name pool))) eqn:Hp; simpl.
      2:{ split; [discriminate|].
          intros (_ & (? & [= <-] & _ & ?) & _). congruence. }
      split; [|reflexivity]. intros _. repeat split; eauto; discriminate.
Qed.

(** X1.  What [check_config] accepts.  It returns exactly when the task
    type is registered and, for its definition: no VM specification is
    given; a pool is given, its count passes the definition's VM-count
    comparison and its name is a known pool; every submitted container
    exists, every declared role has an admissible number of containers,
    every submitted role is declared and the monitor role, if any, is
    declared; [supervisor_exe] is set and not empty if the feature is
    declared; [{input}] is used if [target_must_use_input] is declared;
    [target_exe] is given if the feature is declared and, when given, is a
    valid blob name with a [setup] container submitted; [generator_exe], if
    the feature is declared, is set and not empty, a [tools] container is
    submitted and every placeholder-prefixed remainder is a blob of the
    first one; and [stats_format] is given whenever the [stats_file] feature
    is declared and [stats_file] is given. *)
Theorem check_config_accepts (w : Services) (config : TaskConfig) :
  outcome (check_config w config) = Ok tt ↔
  ∃ definition,
    TASK_DEFINITIONS w (task_type (config_task config)) = Some definition
    ∧ config_vm config = None
    ∧ (∃ pool, config_pool config = Some pool
               ∧ check_val (vm_compare (definition_vm definition))
                   (vm_value (definition_vm definition)) (pool_count pool)
                 = true
               ∧ is_set (Pool_get_by_name w (pool_name pool)) = true)
    ∧ (Forall (fun c => container_exists w (container_name c)
                          StorageType_corpus = true)
              (config_containers config)
       ∧ Forall (fun d => check_val (def_compare d) (def_value d)
                            (Z.of_nat (count_role (def_type d) config)) = true)
                (definition_containers definition)
       ∧ Forall (fun c => container_type c ∈ declared_roles definition)
                (config_containers config)
       ∧ (∀ monitor, definition_monitor_queue definition = Some monitor →
                     monitor ∈ declared_roles definition))
    ∧ (declares definition supervisor_exe = true →
       truthy (task_supervisor_exe (config_task config)) = true)
    ∧ (declares definition target_must_use_input = true →
       target_uses_input config = true)
    ∧ (task_target_exe (config_task config) = None →
       declares definition target_exe = false)
    ∧ (∀ exe, task_target_exe (config_task config) = Some exe →
              is_valid_blob_name exe = true ∧ count_role setup config ≠ 0)
    ∧ (declares definition generator_exe = true →
       ∃ exe container rest,
         task_generator_exe (config_task config) = Some exe
         ∧ exe ≠ ""
         ∧ filter (fun x => container_type x = tools)
                  (config_containers config) = container :: rest
         ∧ ∀ tool_path,
             tool_path ∈ ["{tools_dir}/"; "{tools_dir}\"] →
             startswith exe tool_path = true →
             blob_exists w (container_name container)
               (replace exe tool_path "") StorageType_corpus = true)
    ∧ (declares definition stats_file = true →
       is_set (task_stats_file (config_task config)) = true →
       is_set (task_stats_format (config_task config)) = true).
Proof.
  destruct (TASK_DEFINITIONS w (task_type (config_task config)))
    as [definition|] eqn:Hdef.
  2:{ rewrite (check_config_unregistered _ _ Hdef). simpl.
      split; [discriminate | by intros (? & ? & _)]. }
  rewrite (check_config_outcome _ _ _ Hdef).
  pose proof (check_containers_and_pool_Ok_iff w config definition) as Hcap.
  pose proof (check_target_exe_Ok_iff w config definition) as Htar.
  pose proof (check_generator_exe_Ok_iff w config definition) as Hgen.
  pose proof (check_containers_Ok w definition config) as Hcc.
  rewrite check_stats_file_outcome.
  split.
  - destruct (outcome (check_containers_and_pool _ _ _)) as [[]|];
      [|discriminate].
    destruct (outcome (check_target_exe _ _ _)) as [[]|]; [|discriminate].
    destruct (outcome (check_generator_exe _ _ _)) as [[]|]; [|discriminate].
    intros Hstats. exists definition.
    destruct (proj1 Hcap eq_refl) as (Hvm & Hpool & Hc & Hsup & Hin).
    destruct (proj1 Htar eq_refl) as [Ht1 Ht2].
    split; [reflexivity|]. split; [exact Hvm|]. split; [exact Hpool|].
    split; [by apply Hcc|]. split; [exact Hsup|]. split; [exact Hin|].
    split; [exact Ht1|]. split; [exact Ht2|].
    split; [by apply Hgen|].
    intros Hs1 Hs2. rewrite Hs1, Hs2 in Hstats. simpl in Hstats.
    destruct (is_set (task_stats_format (config_task config)));
      [reflexivity | discriminate].
  - intros (definition' & [= <-] & Hvm & Hpool & Hc & Hsup & Hin & Ht1 & Ht2
            & Hg & Hstats).
    rewrite (proj2 Hcap); [|by rewrite Hcc].
    rewrite (proj2 Htar); [|done].
    rewrite (proj2 Hgen); [|done].
    destruct (declares definition stats_file); [|reflexivity].
    destruct (is_set (task_stats_file (config_task config))); [|reflexivity].
    by rewrite Hstats.
Qed.

End Acceptance.

Section LogDiscipline.
Import py pathlib tasks spec spec_more.

(** ** What [check_config] logs *)

Lemma records_bind {E A B} (m : logged E A) (k : A -> logged E B) :
  records (m ≫= k) =
  match outcome m with
  | Ok a => records m ++ records (k a)
  | Raise _ => records m
  end.
Proof.
  unfold records, outcome, mbind, logged_bind, bind.
  destruct m as [l [a|e]]; simpl; [|reflexivity]. by destruct (k a).
Qed.

Lemma raises_logged_errors_bind {A B} (m : logged exn A)
    (k : A -> logged exn B) :
  raises_logged_errors m → (∀ a, raises_logged_errors (k a)) →
  raises_logged_errors (m ≫= k).
Proof.
  intros Hm Hk msg. rewrite records_bind, outcome_bind.
  destruct (outcome m) as [a|e] eqn:Ho.
  - rewrite elem_of_app. intros [H|H].
    + apply Hm in H. congruence.
    + by apply Hk.
  - intros H. apply Hm in H. congruence.
Qed.

Lemma silent_on_return_bind {A B} (m : logged exn A) (k : A -> logged exn B) :
  silent_on_return m → (∀ a, silent_on_return (k a)) →
  silent_on_return (m ≫= k).
Proof.
  intros Hm Hk b. rewrite records_bind, outcome_bind.
  destruct (outcome m) as [a|e] eqn:Ho; [|discriminate].
  intros H. by rewrite (Hm a Ho), (Hk a b H).
Qed.

Lemma raises_logged_errors_when b (body : logged exn unit) :
  raises_logged_errors body → raises_logged_errors (when b body).
Proof. destruct b; [done|]. intros _ msg H. by apply elem_of_nil in H. Qed.

Lemma silent_on_return_when b (body : logged exn unit) :
  silent_on_return body → silent_on_return (when b body).
Proof. destruct b; [done|]. by intros _ []. Qed.

Lemma raises_logged_errors_raise {A} e :
  raises_logged_errors (raise e : logged exn A).
Proof. intros msg H. by apply elem_of_nil in H. Qed.

Lemma raises_logged_errors_error {A} err :
  raises_logged_errors
    (log ERROR err ;; raise (TaskConfigError err) : logged exn A).
Proof.
  intros msg H. simpl in H. apply list_elem_of_singleton in H.
  by injection H as ->.
Qed.

Lemma silent_on_return_error {A} err :
  silent_on_return (log ERROR err ;; raise (TaskConfigError err) : logged exn A).
Proof. intros a H. discriminate. Qed.

Lemma silent_on_return_raise {A} e : silent_on_return (raise e : logged exn A).
Proof. intros a H. discriminate. Qed.

Lemma raises_logged_errors_for_each {A} (body : A -> logged exn unit) xs :
  (∀ x, raises_logged_errors (body x)) →
  raises_logged_errors (for_each_logged body xs).
Proof.
  intros H. induction xs as [|x xs IH]; simpl.
  - intros msg Hin. by apply elem_of_nil in Hin.
  - by apply raises_logged_errors_bind.
Qed.

Lemma silent_on_return_for_each {A} (body : A -> logged exn unit) xs :
  (∀ x, silent_on_return (body x)) →
  silent_on_return (for_each_logged body xs).
Proof.
  intros H. induction xs as [|x xs IH]; simpl; [done|].
  by apply silent_on_return_bind.
Qed.

Lemma check_containers_and_pool_logs w config definition :
  raises_logged_errors (check_containers_and_pool w config definition)
  ∧ silent_on_return (check_containers_and_pool w config definition).
Proof.
  unfold check_containers_and_pool. split.
  - repeat first
      [ apply raises_logged_errors_error
      | apply raises_logged_errors_raise
      | apply raises_logged_errors_when
      | apply raises_logged_errors_bind; [|intros _] ].
    + intros msg H. by apply elem_of_nil in H.
    + destruct (config_pool config); [|apply raises_logged_errors_raise].
      repeat first
        [ apply raises_logged_errors_error
        | apply raises_logged_errors_raise
        | apply raises_logged_errors_when
        | apply raises_logged_errors_bind; [|intros _] ].
  - repeat first
      [ apply silent_on_return_error
      | apply silent_on_return_raise
      | apply silent_on_return_when
      | apply silent_on_return_bind; [|intros _] ].
    + by intros [].
    + destruct (config_pool config); [|apply silent_on_return_raise].
      repeat first
        [ apply silent_on_return_error
        | apply silent_on_return_raise
        | apply silent_on_return_when
        | apply silent_on_return_bind; [|intros _] ].
Qed.

Lemma check_generator_exe_logs w config definition :
  raises_logged_errors (check_generator_exe w config definition)
  ∧ silent_on_return (check_generator_exe w config definition).
Proof.
  unfold check_generator_exe. split.
  - apply raises_logged_errors_when.
    destruct (filter _ _); [apply raises_logged_errors_raise|].
    destruct (task_generator_exe _); [|apply raises_logged_errors_raise].
    destruct (String.eqb _ _); [apply raises_logged_errors_raise|].
    apply raises_logged_errors_for_each. intros tool_path.
    repeat first
      [ apply raises_logged_errors_when | apply raises_logged_errors_error ].
  - apply silent_on_return_when.
    destruct (filter _ _); [apply silent_on_return_raise|].
    destruct (task_generator_exe _); [|apply silent_on_return_raise].
    destruct (String.eqb _ _); [apply silent_on_return_raise|].
    apply silent_on_return_for_each. intros tool_path.
    repeat first
      [ apply silent_on_return_when | apply silent_on_return_error ].
Qed.

Lemma check_stats_file_logs config definition :
  raises_logged_errors (check_stats_file config definition)
  ∧ silent_on_return (check_stats_file config definition).
Proof.
  unfold check_stats_file. split.
  - repeat first
      [ apply raises_logged_errors_when | apply raises_logged_errors_error ].
  - repeat first
      [ apply silent_on_return_when | apply silent_on_return_error ].
Qed.

Lemma check_target_exe_logs w config definition :
  raises_logged_errors (check_target_exe w config definition).
Proof.
  unfold check_target_exe. intros msg.
  destruct (task_target_exe _) as [exe|].
  - destruct (is_valid_blob_name exe); simpl;
      [|intros H; by apply elem_of_nil in H].
    destruct (filter _ _); simpl; [intros H; by apply elem_of_nil in H|].
    destruct (blob_exists _ _ _ _); simpl.
    + intros H. by apply elem_of_nil in H.
    + intros H. apply list_elem_of_singleton in H. discriminate.
  - destruct (declares definition target_exe); simpl;
      [intros H; by apply elem_of_nil in H|].
    destruct (declares definition target_exe_optional); simpl;
      intros H; by apply elem_of_nil in H.
Qed.


(** X2.  What [check_config] logs.  Every [ERROR] record it writes carries
    the message of the [TaskConfigError] it then raises, so a validation
    that returns has logged no error.  A validation that returns has logged
    nothing at all, except one [WARNING] when [target_exe] is given and is
    not a blob of the first submitted [setup] container. *)
Theorem check_config_logs (w : Services) (config : TaskConfig) :
  (∀ msg, (ERROR, msg) ∈ records (check_config w config) →
          outcome (check_config w config) = Raise (TaskConfigError msg))
  ∧ (outcome (check_config w config) = Ok tt →
     match task_target_exe (config_task config) with
     | None => records (check_config w config) = []
     | Some exe =>
         ∃ container rest,
           filter (fun x => container_type x = setup)
                  (config_containers config) = container :: rest
           ∧ records (check_config w config) =
             if blob_exists w (container_name container) exe
                  StorageType_corpus
             then []
             else [(WARNING,
                    "target_exe `" +:+ exe
                    +:+ "` does not exist in the setup container `"
                    +:+ container_name container +:+ "`")]
     end).
Proof.
  unfold check_config.
  destruct (TASK_DEFINITIONS w (task_type (config_task config)))
    as [definition|] eqn:Hdef.
  2:{ split; [apply raises_logged_errors_raise | discriminate]. }
  destruct (check_containers_and_pool_logs w config definition) as [Pc Sc].
  destruct (check_generator_exe_logs w config definition) as [Pg Sg].
  destruct (check_stats_file_logs config definition) as [Ps Ss].
  pose proof (check_target_exe_logs w config definition) as Pt.
  split.
  - apply raises_logged_errors_bind; [done|intros _].
    apply raises_logged_errors_bind; [done|intros _].
    by apply raises_logged_errors_bind.
  - rewrite outcome_bind, records_bind.
    destruct (outcome (check_containers_and_pool _ _ _)) as [[]|] eqn:Hc;
      [|discriminate].
    rewrite (Sc _ Hc). simpl.
    rewrite outcome_bind, records_bind.
    destruct (outcome (check_target_exe _ _ _)) as [[]|] eqn:Ht;
      [|discriminate].
    assert (Hrest : ∀ a,
              outcome (check_generator_exe w config definition
                       ≫= λ _, check_stats_file config definition) = Ok a →
              records (check_generator_exe w config definition
                       ≫= λ _, check_stats_file config definition) = [])
      by (apply silent_on_return_bind; [done | by intros _]).
    intros Hok. rewrite (Hrest _ Hok), app_nil_r.
    apply check_target_exe_Ok_iff in Ht as [_ Hexe].
    destruct (task_target_exe (config_task config)) as [exe|] eqn:He.
    + destruct (Hexe exe eq_refl) as [Hv Hcount].
      unfold count_role in Hcount.
      destruct (filter (fun x => container_type x = setup)
                  (config_containers config)) as [|container rest] eqn:Hs;
        [done|].
      exists container, rest. split; [reflexivity|].
      by rewrite (check_target_exe_valid _ _ _ _ _ _ He Hv Hs).
    + by rewrite (check_target_exe_None _ _ _ He);
        destruct (declares definition target_exe).
Qed.

End LogDiscipline.

Section LookupsAfterValidation.
Import py pathlib tasks spec.

(** ** The lookups made on a validated configuration *)

Lemma first_setup_filter submitted :
  first_setup submitted =
  container_name
    <$> head (filter (fun c => container_type c = setup) submitted).
Proof.
  induction submitted as [|c cs IH]; [reflexivity|].
  simpl. rewrite filter_cons.
  case_bool_decide as Hc; destruct (decide _); try contradiction; auto.
Qed.

Lemma get_setup_container_counted w config :
  Forall (fun c => container_exists w (container_name c) StorageType_corpus
                   = true) (config_containers config) →
  count_role setup config ≠ 0 →
  ∃ name, get_setup_container config = Ok name
          ∧ container_exists w name StorageType_corpus = true.
Proof.
  intros Hex Hcount. unfold get_setup_container, count_role in *.
  rewrite first_setup_filter.
  destruct (filter (fun c => container_type c = setup)
              (config_containers config)) as [|c rest] eqn:Hf; [done|].
  simpl. exists (container_name c). split; [reflexivity|].
  assert (Hin : c ∈ filter (fun c => container_type c = setup)
                      (config_containers config)) by (rewrite Hf; left).
  apply list_elem_of_filter in Hin as [_ Hin].
  rewrite Forall_forall in Hex. by apply Hex.
Qed.

Lemma check_config_Ok_containers w config :
  outcome (check_config w config) = Ok tt →
  ∃ definition,
    TASK_DEFINITIONS w (task_type (config_task config)) = Some definition
    ∧ check_containers w definition config = Ok tt
    ∧ outcome (check_target_exe w config definition) = Ok tt.
Proof.
  destruct (TASK_DEFINITIONS w (task_type (config_task config)))
    as [definition|] eqn:Hdef.
  2:{ by rewrite (check_config_unregistered _ _ Hdef). }
  rewrite (check_config_outcome _ _ _ Hdef).
  destruct (outcome (check_containers_and_pool _ _ _)) as [[]|] eqn:Hc;
    [|discriminate].
  destruct (outcome (check_target_exe _ _ _)) as [[]|] eqn:Ht; [|discriminate].
  intros _. exists definition. split; [reflexivity|].
  split; [|exact Ht]. by apply check_containers_and_pool_Ok in Hc as [? _].
Qed.

(** X3.  After [check_config] has returned, the two lookups the service
    makes on the configuration succeed.  [get_input_container_queues] does
    not raise: it returns [None] when the definition has no monitor role
    and otherwise the names, in submission order, of the submitted
    containers of that role, which all exist and whose number passes the
    cardinality declared for the role.  [get_setup_container] returns the
    name of an existing container whenever the definition declares the
    [setup] role with a cardinality that excludes zero, and whenever a
    [target_exe] is given. *)
Theorem check_config_then_lookups (w : Services) (config : TaskConfig) :
  outcome (check_config w config) = Ok tt →
  ∃ definition,
    TASK_DEFINITIONS w (task_type (config_task config)) = Some definition
    ∧ get_input_container_queues w config =
      Ok ((fun monitor =>
             map container_name
               (filter (fun c => container_type c = monitor)
                       (config_containers config)))
          <$> definition_monitor_queue definition)
    ∧ (∀ monitor names,
         definition_monitor_queue definition = Some monitor →
         get_input_container_queues w config = Ok (Some names) →
         Forall (fun name => container_exists w name StorageType_corpus = true)
                names
         ∧ ∃ d, d ∈ definition_containers definition
                ∧ def_type d = monitor
                ∧ check_val (def_compare d) (def_value d)
                    (Z.of_nat (length names)) = true)
    ∧ ((∃ d, d ∈ definition_containers definition
             ∧ def_type d = setup
             ∧ check_val (def_compare d) (def_value d) 0 = false)
       ∨ is_set (task_target_exe (config_task config)) = true →
       ∃ name, get_setup_container config = Ok name
               ∧ container_exists w name StorageType_corpus = true).
Proof.
  intros Hok.
  destruct (check_config_Ok_containers _ _ Hok) as (definition & Hdef & Hcc & Ht).
  apply check_containers_Ok in Hcc as (Hex & Hcard & Hroles & Hmon).
  exists definition. split; [exact Hdef|].
  assert (Hq : get_input_container_queues w config =
               Ok ((fun monitor =>
                      map container_name
                        (filter (fun c => container_type c = monitor)
                                (config_containers config)))
                   <$> definition_monitor_queue definition)).
  { unfold get_input_container_queues. rewrite Hdef.
    by destruct (definition_monitor_queue definition). }
  split; [exact Hq|]. split.
  - intros monitor names Hm. rewrite Hq, Hm. simpl. intros [= <-]. split.
    + apply Forall_forall. intros name Hin.
      apply list_elem_of_fmap in Hin as (c & -> & Hc).
      apply list_elem_of_filter in Hc as [_ Hc].
      rewrite Forall_forall in Hex. by apply Hex.
    + specialize (Hmon _ Hm). unfold declared_roles in Hmon.
      apply list_elem_of_fmap in Hmon as (d & -> & Hd).
      exists d. split; [exact Hd|]. split; [reflexivity|].
      rewrite Forall_forall in Hcard. specialize (Hcard _ Hd).
      by rewrite length_map.
  - intros Hsetup. apply (get_setup_container_counted w); [exact Hex|].
    destruct Hsetup as [(d & Hd & Hs & Hzero) | Hexe].
    + rewrite Forall_forall in Hcard. specialize (Hcard _ Hd).
      rewrite Hs in Hcard. intros H0. rewrite H0 in Hcard.
      change (Z.of_nat 0) with 0%Z in Hcard. congruence.
    + apply check_target_exe_Ok_iff in Ht as [_ Ht].
      destruct (task_target_exe (config_task config)) as [exe|];
        [|discriminate].
      by destruct (Ht exe eq_refl).
Qed.

End LookupsAfterValidation.

Lemma check_config_then_lookups_witness :
  ∃ definition,
    tasks.TASK_DEFINITIONS generator.services
      (tasks.task_type (tasks.config_task
                          (generator.submit (Some "{tools_dir}/present"))))
    = Some definition
    ∧ tasks.get_input_container_queues generator.services
        (generator.submit (Some "{tools_dir}/present")) = Ok None
    ∧ ∃ name,
        tasks.get_setup_container (generator.submit (Some "{tools_dir}/present"))
        = Ok name
        ∧ tasks.container_exists generator.services name
            tasks.StorageType_corpus = true.
Proof.
  destruct (check_config_then_lookups generator.services
              (generator.submit (Some "{tools_dir}/present")) eq_refl)
    as (definition & Hdef & Hq & _ & Hs).
  exists definition. split; [exact Hdef|]. split.
  - rewrite Hq. injection Hdef as <-. reflexivity.
  - apply Hs. left. injection Hdef as <-.
    exists (tasks.mkContainerDefinition tasks.setup tasks.Equal 1
              [tasks.Read; tasks.List]).
    split; [left | split; reflexivity].
Defined.

Section TargetUsesInput.
Import py pathlib tasks spec.

(** ** [target_uses_input] *)

Lemma prefix_append sub s :
  String.prefix sub s = true ↔ ∃ post, s = sub +:+ post.
Proof.
  revert s. induction sub as [|a sub IH]; intros s.
  - destruct s; simpl; split; eauto.
  - destruct s as [|b s]; simpl;
      [split; [discriminate | by intros [? ?]]|].
    destruct (ascii_dec a b) as [<-|Hne].
    + rewrite IH. split; intros [post Hp]; exists post; [by rewrite Hp|].
      by injection Hp.
    + split; [discriminate|]. intros [post Hp]. simpl in Hp.
      injection Hp as Hb _. by subst.
Qed.

(** [sub in s] holds exactly when [s] is [sub] between two strings. *)
Lemma contains_substring sub s :
  contains sub s = true ↔ ∃ pre post, s = pre +:+ sub +:+ post.
Proof.
  induction s as [|c s IH].
  - change (contains sub "") with (String.prefix sub "").
    rewrite prefix_append. split.
    + intros [post Hp]. exists "", post. exact Hp.
    + intros (pre & post & Hp). destruct pre; simpl in Hp; [eauto|discriminate].
  - change (contains sub (String c s))
      with (String.prefix sub (String c s) || contains sub s).
    rewrite orb_true_iff, IH, prefix_append. split.
    + intros [[post Hp] | (pre & post & Hp)].
      * exists "", post. exact Hp.
      * exists (String c pre), post. simpl. by rewrite Hp.
    + intros (pre & post & Hp). destruct pre as [|c' pre]; simpl in Hp.
      * left. eauto.
      * right. injection Hp as _ Hp. eauto.
Qed.

(** X4.  [target_uses_input] is true exactly when ["{input}"] occurs
    inside one of the target options or inside the value of one of the
    target environment entries.  An unset list or mapping contributes
    nothing, and the names of the environment entries are not searched. *)
Theorem target_uses_input_occurs (config : TaskConfig) :
  target_uses_input config = true ↔
  (∃ options option pre post,
     task_target_options (config_task config) = Some options
     ∧ option ∈ options
     ∧ option = pre +:+ "{input}" +:+ post)
  ∨ (∃ env name v pre post,
       task_target_env (config_task config) = Some env
       ∧ (name, v) ∈ env
       ∧ v = pre +:+ "{input}" +:+ post).
Proof.
  unfold target_uses_input. rewrite orb_true_iff.
  assert (Hoptions :
    match task_target_options (config_task config) with
    | Some options =>
        existsb (fun option => contains "{input}" option) options
    | None => false
    end = true ↔
    ∃ options option pre post,
      task_target_options (config_task config) = Some options
      ∧ option ∈ options
      ∧ option = pre +:+ "{input}" +:+ post).
  { destruct (task_target_options (config_task config)) as [options|].
    - rewrite existsb_exists. split.
      + intros (option & Hin & Hc). apply contains_substring in Hc
          as (pre & post & ->).
        exists options, (pre +:+ "{input}" +:+ post), pre, post.
        by rewrite list_elem_of_In.
      + intros (? & option & pre & post & [= <-] & Hin & ->).
        exists (pre +:+ "{input}" +:+ post). rewrite <- list_elem_of_In.
        split; [done|]. apply contains_substring. eauto.
    - split; [discriminate|]. by intros (? & ? & ? & ? & ? & _). }
  assert (Henv :
    match task_target_env (config_task config) with
    | Some env =>
        existsb (fun kv : string * string => contains "{input}" kv.2) env
    | None => false
    end = true ↔
    ∃ env name v pre post,
      task_target_env (config_task config) = Some env
      ∧ (name, v) ∈ env
      ∧ v = pre +:+ "{input}" +:+ post).
  { destruct (task_target_env (config_task config)) as [env|].
    - rewrite existsb_exists. split.
      + intros ([name v] & Hin & Hc). simpl in Hc.
        apply contains_substring in Hc as (pre & post & ->).
        exists env, name, (pre +:+ "{input}" +:+ post), pre, post.
        by rewrite list_elem_of_In.
      + intros (? & name & v & pre & post & [= <-] & Hin & ->).
        exists (name, pre +:+ "{input}" +:+ post). rewrite <- list_elem_of_In.
        split; [done|]. simpl. apply contains_substring. eauto.
    - split; [discriminate|]. by intros (? & ? & ? & ? & ? & ? & _). }
  by rewrite Hoptions, Henv.
Qed.

Example target_uses_input_examples :
  let with_target options env :=
    tasks.mkTaskConfig
      (tasks.mkTaskDetails (tasks.mkTaskType "generic_crash_report")
         None None None None None env options None None None None None None
         None None None None None None None None None None None None None None
         None None None None None)
      None None [] in
  map target_uses_input
    [with_target None None;
     with_target (Some []) (Some []);
     with_target (Some ["-f"; "x={input}"]) None;
     with_target None (Some [("FILE", "{input}.bin")]);
     with_target (Some ["{INPUT}"]) (Some [("{input}", "stdin")])]
  = [false; false; true; true; false].
Proof. vm_compute. reflexivity. Qed.

End TargetUsesInput.

Section ContainerErrors.
Import py pathlib tasks spec.

(** ** Which error [check_containers] reports *)

Lemma collect_containers_first_missing w before c after checked containers :
  (∀ name, name ∈ checked → container_exists w name StorageType_corpus = true) →
  Forall (fun x => container_exists w (container_name x) StorageType_corpus
                   = true) before →
  container_exists w (container_name c) StorageType_corpus = false →
  collect_containers w (before ++ c :: after) checked containers =
  Raise (TaskConfigError ("missing container: " +:+ container_name c)).
Proof.
  intros Hchecked Hbefore Hc. revert checked containers Hchecked.
  induction Hbefore as [|x xs Hx _ IH]; intros checked containers Hchecked;
    simpl.
  - case_bool_decide as Hin; [by rewrite Hc|].
    assert (container_name c ∈ checked) as Hin'
      by (destruct (decide (container_name c ∈ checked)); tauto).
    apply Hchecked in Hin'. congruence.
  - case_bool_decide as Hin.
    + rewrite Hx. simpl. apply IH. set_solver.
    + by apply IH.
Qed.

Lemma dict_append_keys_order containers key name :
  (dict_append containers key name).*1 =
  if decide (key ∈ containers.*1) then containers.*1
  else containers.*1 ++ [key].
Proof.
  induction containers as [|[k v] rest IH].
  - reflexivity.
  - cbn [dict_append]. rewrite fmap_cons. cbn [fst].
    destruct (decide (k = key)) as [->|Hk].
    + rewrite fmap_cons. cbn [fst]. rewrite decide_True by left. reflexivity.
    + rewrite fmap_cons, IH. cbn [fst].
      destruct (decide (key ∈ rest.*1)) as [Hin|Hin].
      * rewrite decide_True by (by right). reflexivity.
      * rewrite decide_False; [reflexivity|].
        intros [->|]%elem_of_cons; contradiction.
Qed.

Lemma collected_keys_grow submitted containers :
  ∃ more, (collected submitted containers).*1 = containers.*1 ++ more.
Proof.
  revert containers. induction submitted as [|c cs IH]; intros containers.
  - exists []. by rewrite app_nil_r.
  - unfold collected in *. simpl.
    destruct (IH (dict_append containers (container_type c) (container_name c)))
      as [more Hm].
    rewrite Hm, dict_append_keys_order.
    destruct (decide _); [eauto|]. rewrite <- app_assoc. eauto.
Qed.

Lemma collected_first_undeclared (declared : ContainerType -> Prop)
    before c after :
  Forall (fun x => declared (container_type x)) before →
  ¬ declared (container_type c) →
  ∃ known later,
    (collected (before ++ c :: after) []).*1
    = known ++ container_type c :: later
    ∧ Forall declared known.
Proof.
  intros Hbefore Hc. unfold collected. rewrite fold_left_app. simpl.
  fold (collected before []).
  set (d := collected before []).
  assert (Hd : Forall declared d.*1).
  { apply Forall_forall. intros role Hin. unfold d in Hin.
    apply collected_keys in Hin as [Hin|Hin]; [by apply elem_of_nil in Hin|].
    apply list_elem_of_fmap in Hin as (x & -> & Hx).
    rewrite Forall_forall in Hbefore. by apply Hbefore. }
  destruct (collected_keys_grow after
              (dict_append d (container_type c) (container_name c)))
    as [more Hm].
  unfold collected in Hm. rewrite Hm, dict_append_keys_order.
  destruct (decide (container_type c ∈ d.*1)) as [Hin|_].
  { rewrite Forall_forall in Hd. by apply Hd in Hin. }
  exists d.*1, more. by rewrite <- app_assoc.
Qed.

(** X5.  Which error [check_containers] reports.  The submitted
    containers are looked up in submission order, and the first that does
    not exist is the one reported, before any count is made.  When all
    exist and every declared role has an admissible number of containers,
    the first submitted container whose role is not declared is the one
    reported as unsupported.  When that passes too, an undeclared monitor
    role is reported. *)
Theorem check_containers_reports (w : Services) (definition : TaskDefinition)
    (config : TaskConfig) :
  (∀ before c after,
     config_containers config = before ++ c :: after →
     Forall (fun x => container_exists w (container_name x) StorageType_corpus
                      = true) before →
     container_exists w (container_name c) StorageType_corpus = false →
     check_containers w definition config =
     Raise (TaskConfigError ("missing container: " +:+ container_name c)))
  ∧ (Forall (fun x => container_exists w (container_name x) StorageType_corpus
                      = true) (config_containers config) →
     Forall (fun d => check_val (def_compare d) (def_value d)
                        (Z.of_nat (count_role (def_type d) config)) = true)
            (definition_containers definition) →
     (∀ before c after,
        config_containers config = before ++ c :: after →
        Forall (fun x => container_type x ∈ declared_roles definition) before →
        container_type c ∉ declared_roles definition →
        check_containers w definition config =
        Raise (TaskConfigError
                 ("unsupported container type for this task: "
                  +:+ ContainerType_name (container_type c))))
     ∧ (∀ monitor,
          Forall (fun x => container_type x ∈ declared_roles definition)
                 (config_containers config) →
          definition_monitor_queue definition = Some monitor →
          monitor ∉ declared_roles definition →
          check_containers w definition config =
          Raise (TaskConfigError
                   ("unable to monitor container type as it is not used by this task: "
                    +:+ ContainerType_name monitor)))).
Proof.
  split.
  - intros before c after Hsub Hbefore Hc. unfold check_containers.
    rewrite Hsub.
    rewrite (collect_containers_first_missing w before c after ∅ []);
      [reflexivity | set_solver | done | done].
  - intros Hex Hcard.
    assert (Hcollect : collect_containers w (config_containers config) ∅ []
                       = Ok (collected (config_containers config) [])).
    { pose proof (collect_containers_spec w (config_containers config) ∅ [])
        as Hc.
      destruct (collect_containers _ _ _ _) as [d|e].
      - destruct Hc as [-> _]; [set_solver|reflexivity].
      - destruct Hc as (c & Hin & Hf & _); [set_solver|].
        rewrite Forall_forall in Hex. specialize (Hex c Hin). congruence. }
    assert (Hdefs : for_each
              (fun container_def =>
                 check_container (def_compare container_def)
                   (def_value container_def) (def_type container_def)
                   (collected (config_containers config) []))
              (definition_containers definition) = Ok tt).
    { apply for_each_Ok. eapply Forall_impl; [exact Hcard|].
      intros d Hd. simpl in Hd.
      by rewrite check_container_Ok, length_dict_get_collected. }
    split.
    + intros before c after Hsub Hbefore Hc.
      unfold check_containers, mbind at 1, result_bind.
      rewrite Hcollect. unfold mbind at 1, result_bind. rewrite Hdefs.
      destruct (collected_first_undeclared
                  (fun role => role ∈ declared_roles definition)
                  before c after Hbefore Hc)
        as (known & later & Hkeys & Hknown).
      rewrite <- Hsub in Hkeys.
      apply fmap_app_inv in Hkeys as (e1 & e2 & -> & Hcons & ->).
      symmetry in Hcons.
      apply fmap_cons_inv in Hcons as (e & e3 & He & -> & ->).
      unfold mbind, result_bind.
      erewrite for_each_first_Raise; [reflexivity| |].
      * apply Forall_forall. intros entry Hin.
        rewrite Forall_forall in Hknown.
        assert (entry.1 ∈ declared_roles definition) as Hd.
        { apply Hknown. apply list_elem_of_fmap. eauto. }
        unfold declared_roles in Hd. by rewrite bool_decide_eq_false_2 by tauto.
      * simpl. rewrite He in Hc |- *. unfold declared_roles in Hc.
        by rewrite bool_decide_eq_true_2.
    + intros monitor Hroles Hm Hnot.
      unfold check_containers, mbind at 1, result_bind.
      rewrite Hcollect. unfold mbind at 1, result_bind.
      rewrite Hdefs. unfold mbind, result_bind.
      destruct (for_each _ (collected _ _)) as [[]|e] eqn:Hsupported.
      * rewrite Hm. unfold declared_roles in Hnot.
        by rewrite bool_decide_eq_true_2.
      * exfalso.
        apply for_each_Raise in Hsupported as ([k v] & Hin & Hraise).
        simpl in Hraise. case_bool_decide as Hk; [|discriminate].
        apply Hk.
        assert (Hkey : k ∈ (collected (config_containers config) []).*1)
          by (apply list_elem_of_fmap; by exists (k, v)).
        apply collected_keys in Hkey as [Hkey|Hkey];
          [by apply elem_of_nil in Hkey|].
        apply list_elem_of_fmap in Hkey as (x & -> & Hx).
        rewrite Forall_forall in Hroles. by apply Hroles.
Qed.

Example first_container_error_examples :
  let check containers :=
    tasks.check_containers one_setup.services one_setup.definition
      (one_setup.submit containers) in
  check [tasks.mkTaskContainers tasks.setup "a";
         tasks.mkTaskContainers tasks.tools "ghost";
         tasks.mkTaskContainers tasks.setup "phantom"]
  = Raise (tasks.TaskConfigError "missing container: ghost")
  ∧ check [tasks.mkTaskContainers tasks.setup "a";
           tasks.mkTaskContainers tasks.tools "b";
           tasks.mkTaskContainers (tasks.mkContainerType "crashes") "a"]
    = Raise (tasks.TaskConfigError
               "unsupported container type for this task: tools").
Proof. split; vm_compute; reflexivity. Qed.

End ContainerErrors.

Section UnitConfig.
Import py pathlib tasks spec.

(** ** The unit configuration as a whole *)

Lemma build_containers_keys w definition task_config
    (config : TaskUnitConfig) field :
  is_Some (build_containers w definition task_config config !! field) →
  is_Some (config !! field)
  ∨ ∃ d, d ∈ definition_containers definition
         ∧ ContainerType_name (def_type d) = field
         ∧ def_type d ≠ setup
         ∧ count_role (def_type d) task_config ≠ 0.
Proof.
  unfold build_containers. revert config.
  induction (definition_containers definition) as [|d defs IH];
    intros config Hset; simpl in Hset.
  - by left.
  - apply IH in Hset as [Hset|(d' & Hin & Hd')].
    + rewrite build_container_role_field in Hset.
      destruct (role_field w d task_config) as [v|] eqn:Hrole; [|by left].
      destruct (decide (ContainerType_name (def_type d) = field)) as [Hf|Hf].
      * right. exists d. split; [left|]. split; [exact Hf|].
        pose proof (role_field_None w d task_config) as Hnone.
        split; intros Hno; assert (role_field w d task_config = None) as Hn
            by (apply Hnone; tauto); congruence.
      * left. by rewrite lookup_insert_ne in Hset.
    + right. exists d'. split; [by right|exact Hd'].
Qed.

Lemma build_task_config_registered w job task definition :
  TASK_DEFINITIONS w (task_type (config_task (task_config task)))
  = Some definition →
  build_task_config w job task =
  (if truthy (job_logs (job_config job)) then []
   else [(WARNING,
          "Missing log container:  job_id " +:+ job_id job
          +:+ ", task_id " +:+ task_id task)],
   Ok (build_features definition (task_config task)
         (build_containers w definition (task_config task)
            (set_if (is_set (definition_monitor_queue definition))
               "input_queue"
               (VStr (get_queue_sas w (task_id task) StorageType_corpus
                        true true true true))
               (set_if (truthy (job_logs (job_config job))) "logs"
                  (of_option (fun logs => VStr (add_container_sas_url w logs))
                     (job_logs (job_config job)))
                  (<["instance_id" := VStr (get_instance_id w)]>
                   $ <["heartbeat_queue" :=
                         VStr (get_queue_sas w "task-heartbeat"
                                 StorageType_config true false false false)]>
                   $ <["microsoft_telemetry_key" :=
                         of_option VStr (environ_get w "ONEFUZZ_TELEMETRY")]>
                   $ <["instance_telemetry_key" :=
                         of_option VStr
                           (environ_get w "APPINSIGHTS_INSTRUMENTATIONKEY")]>
                   $ <["task_type" :=
                         VEnum "TaskType"
                           (TaskType_name
                              (task_type (config_task (task_config task))))]>
                   $ <["task_id" := VStr (task_id task)]>
                   $ <["job_id" := VStr (job_id job)]> ∅)))))).
Proof.
  intros Hdef. unfold build_task_config. rewrite Hdef.
  by destruct (truthy (job_logs (job_config job))).
Qed.

(** X6.  What [build_task_config] produces.  An unregistered task type is
    refused without any log record.  For a registered type a unit
    configuration is always returned; the only log record possible is the
    one warning about a job without a log container; every attribute of the
    unit configuration is a base attribute, a feature attribute, or bears
    the name of a declared role other than [setup] for which a container was
    submitted; in particular no attribute [setup] is ever set. *)
Theorem build_task_config_attributes (w : Services) (job : Job) (task : Task) :
  match TASK_DEFINITIONS w (task_type (config_task (task_config task))) with
  | None =>
      build_task_config w job task =
      ([], Raise (TaskConfigError
                    ("unsupported task type: "
                     +:+ TaskType_name
                           (task_type (config_task (task_config task))))))
  | Some definition =>
      ∃ config,
        outcome (build_task_config w job task) = Ok config
        ∧ records (build_task_config w job task) =
          (if truthy (job_logs (job_config job)) then []
           else [(WARNING,
                  "Missing log container:  job_id " +:+ job_id job
                  +:+ ", task_id " +:+ task_id task)])
        ∧ (∀ field,
             is_Some (config !! field) →
             field ∈ base_fields ∨ field ∈ feature_fields
             ∨ ∃ d, d ∈ definition_containers definition
                    ∧ ContainerType_name (def_type d) = field
                    ∧ def_type d ≠ setup
                    ∧ count_role (def_type d) (task_config task) ≠ 0)
        ∧ config !! "setup" = None
  end.
Proof.
  destruct (TASK_DEFINITIONS w _) as [definition|] eqn:Hdef.
  - destruct (build_task_config_stages w job task definition Hdef)
      as (base & Hout & Hbase).
    rewrite (build_task_config_registered w job task definition Hdef) in *.
    simpl in Hout. injection Hout as Hout.
    eexists. split; [reflexivity|]. split; [reflexivity|].
    rewrite Hout.
    assert (Hkeys : ∀ field,
      is_Some (build_features definition (task_config task)
                 (build_containers w definition (task_config task) base)
               !! field) →
      field ∈ base_fields ∨ field ∈ feature_fields
      ∨ ∃ d, d ∈ definition_containers definition
             ∧ ContainerType_name (def_type d) = field
             ∧ def_type d ≠ setup
             ∧ count_role (def_type d) (task_config task) ≠ 0).
    { intros field Hset.
      destruct (decide (field ∈ feature_fields)) as [|Hfeature]; [tauto|].
      rewrite build_features_untouched in Hset by exact Hfeature.
      apply build_containers_keys in Hset as [Hset|Hrole]; [|tauto].
      destruct (decide (field ∈ base_fields)) as [|Hb]; [tauto|].
      rewrite (Hbase field Hb) in Hset. by destruct Hset. }
    split; [exact Hkeys|].
    apply eq_None_not_Some. intros Hset.
    apply Hkeys in Hset as [Hin|[Hin|(d & _ & Hname & Hsetup & _)]].
    + unfold base_fields in Hin. set_solver.
    + unfold feature_fields in Hin. set_solver.
    + apply Hsetup. by apply ContainerType_name_inj.
  - unfold build_task_config. by rewrite Hdef.
Qed.

(** X7.  The base attributes of the unit configuration.  For a registered
    task type, when no declared role for which a container was submitted is
    named like a base attribute, the unit configuration carries the
    identifiers of the job and the task, the task type, the two telemetry
    keys read from the environment, the heartbeat queue, issued with the
    add permission alone, and the instance identifier; [logs] is set exactly
    when the job names a log container, and [input_queue] exactly when the
    definition has a monitored role, issued for the task's own queue with
    all four permissions. *)
Theorem build_task_config_base_attributes (w : Services) (job : Job)
    (task : Task) (definition : TaskDefinition) (config : TaskUnitConfig) :
  TASK_DEFINITIONS w (task_type (config_task (task_config task)))
  = Some definition →
  (∀ d, d ∈ definition_containers definition →
        def_type d ≠ setup →
        count_role (def_type d) (task_config task) ≠ 0 →
        ContainerType_name (def_type d) ∉ base_fields) →
  outcome (build_task_config w job task) = Ok config →
  config !! "job_id" = Some (VStr (job_id job))
  ∧ config !! "task_id" = Some (VStr (task_id task))
  ∧ config !! "task_type"
    = Some (VEnum "TaskType"
              (TaskType_name (task_type (config_task (task_config task)))))
  ∧ config !! "instance_telemetry_key"
    = Some (of_option VStr (environ_get w "APPINSIGHTS_INSTRUMENTATIONKEY"))
  ∧ config !! "microsoft_telemetry_key"
    = Some (of_option VStr (environ_get w "ONEFUZZ_TELEMETRY"))
  ∧ config !! "heartbeat_queue"
    = Some (VStr (get_queue_sas w "task-heartbeat" StorageType_config
                    true false false false))
  ∧ config !! "instance_id" = Some (VStr (get_instance_id w))
  ∧ config !! "logs"
    = match job_logs (job_config job) with
      | Some logs =>
          if String.eqb logs "" then None
          else Some (VStr (add_container_sas_url w logs))
      | None => None
      end
  ∧ config !! "input_queue"
    = match definition_monitor_queue definition with
      | Some _ =>
          Some (VStr (get_queue_sas w (task_id task) StorageType_corpus
                        true true true true))
      | None => None
      end.
Proof.
  intros Hdef Hroles Hout.
  rewrite (build_task_config_registered w job task definition Hdef) in Hout.
  simpl in Hout. injection Hout as <-.
  assert (Hbase : ∀ (base : TaskUnitConfig) field,
    field ∈ base_fields →
    build_features definition (task_config task)
      (build_containers w definition (task_config task) base) !! field
    = base !! field).
  { intros base field Hfield.
    rewrite build_features_untouched.
    - apply build_containers_untouched. intros d Hd.
      destruct (role_field w d (task_config task)) as [v|] eqn:Hrole;
        [right|by left].
      intros Hname. pose proof (role_field_None w d (task_config task)) as Hn.
      apply (Hroles d Hd); [| |by rewrite Hname].
      + intros Hs. assert (role_field w d (task_config task) = None)
          by (apply Hn; tauto). congruence.
      + intros Hs. assert (role_field w d (task_config task) = None)
          by (apply Hn; tauto). congruence.
    - intros Hfeature. by apply feature_fields_not_base in Hfeature. }
  repeat split; (rewrite Hbase by (unfold base_fields; set_solver)).
  all: try (rewrite !lookup_set_if_ne by done;
            repeat (rewrite lookup_insert_ne by done);
            by rewrite lookup_insert_eq).
  - rewrite lookup_set_if_ne by done. rewrite lookup_set_if_eq.
    repeat (rewrite lookup_insert_ne by done). rewrite lookup_empty.
    destruct (job_logs (job_config job)) as [logs|]; simpl; [|reflexivity].
    by destruct (String.eqb logs "").
  - rewrite lookup_set_if_eq, lookup_set_if_ne by done.
    repeat (rewrite lookup_insert_ne by done). rewrite lookup_empty.
    by destruct (definition_monitor_queue definition).
Qed.

End UnitConfig.

Lemma build_task_config_base_attributes_witness :
  match outcome (tasks.build_task_config fuzz.services fuzz.job fuzz.task) with
  | Ok config => config
  | Raise _ => ∅
  end !! "job_id" = Some (tasks.VStr "job-1").
Proof.
  refine (proj1 (build_task_config_base_attributes fuzz.services fuzz.job
                   fuzz.task fuzz.definition _ _ _ _)).
  - vm_compute. reflexivity.
  - intros d Hd _ _.
    repeat (apply elem_of_cons in Hd as [->|Hd]);
      try (refine (bool_decide_unpack _ _); vm_compute; exact I).
    by apply elem_of_nil in Hd.
  - vm_compute. reflexivity.
Defined.

Section BlobSegments.
Import py pathlib tasks spec.

(** ** Blob names without reference to path objects *)

Lemma join_split sep s : join (String sep "") (split sep s) = s.
Proof.
  induction s as [|c s IH]; [reflexivity|].
  pose proof (split_nonempty sep s) as Hne.
  simpl. destruct (Ascii.eqb_spec c sep) as [->|Hc].
  - destruct (split sep s) as [|h t] eqn:Hs; [done|].
    change (join (String sep "") ("" :: h :: t))
      with (String sep (join (String sep "") (h :: t))).
    by rewrite IH.
  - destruct (split sep s) as [|h t] eqn:Hs; [done|].
    destruct t as [|h' t].
    + simpl in *. by rewrite IH.
    + change (join (String sep "") (String c h :: h' :: t))
        with (String c (join (String sep "") (h :: h' :: t))).
      by rewrite IH.
Qed.

Lemma filter_all {A} (P : A → Prop) `{∀ x, Decision (P x)} (l : list A) :
  Forall P l → filter P l = l.
Proof.
  induction 1 as [|x l Hx _ IH]; [reflexivity|].
  by rewrite filter_cons_True, IH.
Qed.

(** X8.  The names [is_valid_blob_name] accepts, in terms of the name and
    its segments between slashes alone: the name ["."], and every name of
    1 to 1024 characters without leading or trailing whitespace, of at most
    254 segments, none of which is empty or ends with a dot.  So apart from
    ["."] a name with a leading, trailing or doubled slash is refused, and
    the tests on path objects add nothing else. *)
Theorem is_valid_blob_name_segments (s : string) :
  is_valid_blob_name s = true ↔
  s = "."
  ∨ (s = strip s
     ∧ 1 ≤ String.length s ≤ 1024
     ∧ length (split "/"%char s) ≤ 254
     ∧ ∀ segment, segment ∈ split "/"%char s →
                  segment ≠ "" ∧ endswith segment "." = false).
Proof.
  destruct (decide (s = ".")) as [->|Hdot]; [split; [by left|reflexivity]|].
  rewrite (is_valid_blob_name_rules s Hdot). unfold blob_name_rules.
  split.
  - intros (Hlen & Hstrip & Hseg & Hall & Hrel & _ & Hnorm). right.
    destruct (split_normalized _ Hrel Hdot Hnorm) as [_ Hkeep].
    repeat (split; [assumption|]).
    intros segment Hin. split; [|by apply Hall].
    rewrite Forall_forall in Hkeep. specialize (Hkeep _ Hin).
    unfold keep_component in Hkeep. intros ->. discriminate.
  - intros [->|(Hstrip & Hlen & Hseg & Hall)]; [done|].
    assert (Hrel : startswith s "/" = false).
    { destruct (startswith s "/") eqn:Hs; [|reflexivity].
      apply startswith_slash in Hs as [s' ->].
      destruct (Hall "") as [Hne _]; [|done].
      simpl. left. }
    assert (Hspecial : ∀ segment, segment ∈ split "/"%char s →
                                  segment ≠ "." ∧ segment ≠ "..").
    { intros segment Hin. destruct (Hall _ Hin) as [_ Hend].
      split; intros ->; discriminate. }
    repeat (split; [first [assumption | intros; by apply Hall]|]).
    rewrite (parse_relative _ Hrel). unfold as_posix. simpl.
    rewrite filter_all.
    + change ("" +:+ ?x) with x. rewrite join_split.
      destruct (String.eqb_spec s "") as [->|_]; [simpl in Hlen; lia|done].
    + apply Forall_forall. intros segment Hin.
      destruct (Hall _ Hin) as [Hne _]. destruct (Hspecial _ Hin) as [Hd _].
      unfold keep_component.
      destruct (String.eqb_spec segment ""); [done|].
      by destruct (String.eqb_spec segment ".").
Qed.

End BlobSegments.

Section GeneratorLookup.
Import py pathlib tasks spec.

(** ** The blob looked up for the generator *)

Lemma replace_from_skip old new a s :
  replace_from old new (a +:+ s) (String.length a) = replace_from old new s 0.
Proof. induction a as [|c a IH]; [reflexivity|]. simpl. exact IH. Qed.

Lemma replace_from_scan old new c s :
  replace_from old new (String c s) 0 =
  if String.prefix old (String c s)
  then new +:+ replace_from old new s (String.length old - 1)
  else String c (replace_from old new s 0).
Proof. reflexivity. Qed.

(** An occurrence at the head is replaced, and the scan goes on after it. *)
Lemma replace_head old new rest :
  old ≠ "" → replace (old +:+ rest) old new = new +:+ replace rest old new.
Proof.
  intros Hold. destruct old as [|c old]; [done|]. unfold replace.
  change (String c old +:+ rest) with (String c (old +:+ rest)).
  rewrite replace_from_scan.
  assert (String.prefix (String c old) (String c (old +:+ rest)) = true) as ->
    by (apply prefix_append; by exists rest).
  change (String.length (String c old) - 1) with (String.length old - 0).
  by rewrite Nat.sub_0_r, replace_from_skip.
Qed.

(** Without an occurrence nothing is replaced. *)
Lemma replace_absent old new s :
  contains old s = false → replace s old new = s.
Proof.
  unfold replace. induction s as [|c s IH]; [reflexivity|].
  change (contains old (String c s))
    with (String.prefix old (String c s) || contains old s).
  intros [Hp Hs]%orb_false_iff.
  by rewrite replace_from_scan, Hp, (IH Hs).
Qed.

(** X9.  The blob looked up for a generator.  With the feature declared,
    a [tools] container submitted and a non-empty [generator_exe]: a name
    made of one of the two placeholders followed by [rest] is accepted
    exactly when the first [tools] container holds the blob obtained from
    [rest] by deleting every further occurrence of the placeholder, which is
    [rest] itself when it has none; a name that starts with neither
    placeholder is accepted without any lookup. *)
Theorem check_generator_exe_lookup (w : Services) (config : TaskConfig)
    (definition : TaskDefinition) (container : TaskContainers)
    (others : list TaskContainers) (exe : string) :
  declares definition generator_exe = true →
  filter (fun x => container_type x = tools) (config_containers config)
  = container :: others →
  task_generator_exe (config_task config) = Some exe →
  exe ≠ "" →
  (∀ tool_path rest,
     tool_path ∈ ["{tools_dir}/"; "{tools_dir}\"] →
     exe = tool_path +:+ rest →
     outcome (check_generator_exe w config definition)
     = (if blob_exists w (container_name container)
             (replace rest tool_path "") StorageType_corpus
        then Ok tt
        else Raise (TaskConfigError (generator_missing exe container)))
     ∧ (contains tool_path rest = false → replace rest tool_path "" = rest))
  ∧ (startswith exe "{tools_dir}/" = false →
     startswith exe "{tools_dir}\" = false →
     check_generator_exe w config definition = ([], Ok tt)).
Proof.
  intros Hfeature Htools Hexe Hne. split.
  - intros tool_path rest Hpath ->. split; [|apply replace_absent].
    rewrite (check_generator_exe_outcome w config definition container others
               Hfeature Htools), Hexe.
    destruct (String.eqb_spec (tool_path +:+ rest) "") as [|_]; [done|].
    assert (Hstarts : startswith (tool_path +:+ rest) tool_path = true)
      by (apply prefix_append; by exists rest).
    apply elem_of_cons in Hpath as [->|Hpath];
      [|apply elem_of_cons in Hpath as [->|Hpath];
        [|by apply elem_of_nil in Hpath]].
    + rewrite Hstarts, replace_head by done.
      change ("" +:+ ?x) with x.
      destruct (blob_exists w _ _ _); simpl; [|reflexivity].
      destruct (startswith ("{tools_dir}/" +:+ rest) "{tools_dir}\") eqn:Hother;
        [|reflexivity].
      apply tools_paths_exclusive in Hother. congruence.
    + rewrite (tools_paths_exclusive _ Hstarts), Hstarts, replace_head by done.
      change ("" +:+ ?x) with x. simpl.
      by destruct (blob_exists w _ _ _).
  - intros Hslash Hbackslash. unfold check_generator_exe.
    rewrite Hfeature, Htools, Hexe. simpl when.
    destruct (String.eqb_spec exe "") as [|_]; [done|].
    unfold for_each_logged. by rewrite Hslash, Hbackslash.
Qed.

End GeneratorLookup.

Lemma check_generator_exe_lookup_witness :
  outcome (tasks.check_generator_exe generator.services
             (generator.submit (Some "{tools_dir}/present"))
             generator.definition) = Ok tt
  ∧ outcome (tasks.check_generator_exe generator.services
               (generator.submit (Some "{tools_dir}/pre{tools_dir}/sent"))
               generator.definition) = Ok tt.
Proof.
  split.
  - refine (proj1 (proj1 (check_generator_exe_lookup generator.services
              (generator.submit (Some "{tools_dir}/present"))
              generator.definition (tasks.mkTaskContainers tasks.tools "t") []
              "{tools_dir}/present" eq_refl eq_refl eq_refl _)
              "{tools_dir}/" "present" _ eq_refl)); [discriminate | left].
  - refine (proj1 (proj1 (check_generator_exe_lookup generator.services
              (generator.submit (Some "{tools_dir}/pre{tools_dir}/sent"))
              generator.definition (tasks.mkTaskContainers tasks.tools "t") []
              "{tools_dir}/pre{tools_dir}/sent" eq_refl eq_refl eq_refl _)
              "{tools_dir}/" "pre{tools_dir}/sent" _ eq_refl));
      [discriminate | left].
Defined.

Section ValidatedContainers.
Import py pathlib tasks spec.

(** ** Validation, then the unit configuration *)

Lemma last_declaration (role : ContainerType) (defs : list ContainerDefinition) :
  role ∈ map def_type defs →
  ∃ before d after,
    defs = before ++ d :: after
    ∧ def_type d = role
    ∧ Forall (fun d' => def_type d' ≠ role) after.
Proof.
  induction defs as [|d defs IH]; simpl; [by intros ?%elem_of_nil|].
  intros Hin.
  destruct (decide (role ∈ map def_type defs)) as [Hlater|Hlater].
  - destruct (IH Hlater) as (before & d' & after & -> & Hd' & Hafter).
    by exists (d :: before), d', after.
  - apply elem_of_cons in Hin as [->|Hin]; [|contradiction].
    exists [], d, defs. split; [reflexivity|]. split; [reflexivity|].
    apply Forall_forall. intros d' Hd' Heq. apply Hlater.
    rewrite <- Heq. apply list_elem_of_fmap. eauto.
Qed.

Lemma single_count container_def n :
  single container_def = true →
  check_val (def_compare container_def) (def_value container_def) (Z.of_nat n)
  = true →
  n ≤ 1.
Proof.
  unfold single, check_val.
  intros [Hcompare Hvalue]%andb_true_iff.
  apply bool_decide_eq_true in Hcompare, Hvalue. rewrite Hvalue.
  destruct Hcompare as [-> | ->]; lia.
Qed.

(** X10.  Validation and construction together: no submitted container is
    left out.  Once [check_config] has accepted a task, every submitted
    container whose role is not [setup], and whose role is not named like a
    feature attribute, is present in the unit configuration under the name
    of its role: either as the attribute itself or as a member of the list
    held there, with the path that carries its position in the submission.
    The cardinality check is what makes this so: a role declared with at
    most one container keeps the first entry only. *)
Theorem check_config_then_build_keeps_containers (w : Services) (job : Job)
    (task : Task) (config : TaskUnitConfig) (i : nat) (c : TaskContainers) :
  outcome (check_config w (task_config task)) = Ok tt →
  outcome (build_task_config w job task) = Ok config →
  (i, c) ∈ enumerate 0 (config_containers (task_config task)) →
  container_type c ≠ setup →
  ContainerType_name (container_type c) ∉ feature_fields →
  ∃ definition d,
    TASK_DEFINITIONS w (task_type (config_task (task_config task)))
    = Some definition
    ∧ d ∈ definition_containers definition
    ∧ def_type d = container_type c
    ∧ (config !! ContainerType_name (container_type c)
       = Some (entry w d i c)
       ∨ ∃ entries,
           config !! ContainerType_name (container_type c)
           = Some (VList entries)
           ∧ entry w d i c ∈ entries).
Proof.
  intros Hcheck Hbuild Hin Hsetup Hfeature.
  destruct (check_config_Ok_containers w (task_config task) Hcheck)
    as (definition & Hdef & Hcontainers & _).
  apply check_containers_Ok in Hcontainers as (_ & Hcard & Hroles & _).
  assert (Hc : c ∈ config_containers (task_config task)).
  { unfold enumerate in Hin. apply elem_of_zip_r in Hin. exact Hin. }
  rewrite Forall_forall in Hroles. specialize (Hroles c Hc).
  destruct (last_declaration _ _ Hroles)
    as (before & d & after & Hdefs & Hd & Hafter).
  assert (Hdin : d ∈ definition_containers definition)
    by (rewrite Hdefs; set_solver).
  exists definition, d. split; [exact Hdef|]. split; [exact Hdin|].
  split; [exact Hd|].
  destruct (build_task_config_stages w job task definition Hdef)
    as (base & Hout & _).
  rewrite Hout in Hbuild. injection Hbuild as <-.
  rewrite build_features_untouched by exact Hfeature.
  rewrite <- Hd in Hafter |- *.
  assert (Hentry : entry w d i c
                   ∈ container_entries w d 0
                       (config_containers (task_config task))).
  { rewrite container_entries_enumerate.
    apply (list_elem_of_fmap_2 (fun p => entry w d p.1 p.2) _ (i, c)).
    apply list_elem_of_filter. split; [by simpl; rewrite Hd | exact Hin]. }
  assert (Hlen : single d = true →
                 length (container_entries w d 0
                           (config_containers (task_config task))) ≤ 1).
  { intros Hsingle. rewrite length_container_entries.
    rewrite Forall_forall in Hcard.
    exact (single_count d _ Hsingle (Hcard d Hdin)). }
  assert (Hrole : role_field w d (task_config task)
                  = match container_entries w d 0
                            (config_containers (task_config task)) with
                    | [] => None
                    | first :: rest =>
                        Some (if single d then first else VList (first :: rest))
                    end).
  { unfold role_field. rewrite bool_decide_eq_false_2; [reflexivity|].
    by rewrite Hd. }
  destruct (container_entries w d 0 (config_containers (task_config task)))
    as [|first rest] eqn:Hentries; [by apply elem_of_nil in Hentry|].
  rewrite (build_containers_last w definition (task_config task) base
             before d after _ Hdefs Hafter Hrole).
  destruct (single d) eqn:Hsingle.
  - left. specialize (Hlen eq_refl). simpl in Hlen.
    destruct rest; [|simpl in Hlen; lia].
    apply list_elem_of_singleton in Hentry. by rewrite Hentry.
  - right. eauto.
Qed.

End ValidatedContainers.

Lemma check_config_then_build_keeps_containers_witness :
  ∃ definition d,
    tasks.TASK_DEFINITIONS fuzz.services
      (tasks.task_type (tasks.config_task (tasks.task_config fuzz.task)))
    = Some definition
    ∧ d ∈ tasks.definition_containers definition
    ∧ tasks.def_type d = fuzz.readonly_inputs
    ∧ (fuzz.built "readonly_inputs"
       = Some (spec.entry fuzz.services d 3
                 (tasks.mkTaskContainers fuzz.readonly_inputs "seeds-b"))
       ∨ ∃ entries,
           fuzz.built "readonly_inputs" = Some (tasks.VList entries)
           ∧ spec.entry fuzz.services d 3
               (tasks.mkTaskContainers fuzz.readonly_inputs "seeds-b")
             ∈ entries).
Proof.
  refine (check_config_then_build_keeps_containers fuzz.services fuzz.job
            fuzz.task
            (match outcome (tasks.build_task_config fuzz.services fuzz.job
                              fuzz.task) with
             | Ok config => config
             | Raise _ => ∅
             end)
            3 (tasks.mkTaskContainers fuzz.readonly_inputs "seeds-b")
            _ _ _ _ _).
  - vm_compute. reflexivity.
  - vm_compute. reflexivity.
  - unfold spec.enumerate. simpl. set_solver.
  - discriminate.
  - refine (bool_decide_unpack _ _). vm_compute. exact I.
Defined.

Section ConfigAccepts.
Import py deploylib.

(** ** The configuration files [Config] accepts *)

Lemma string_entry_Ok d key may_be_empty missing not_a_string s :
  string_entry d key may_be_empty missing not_a_string = Ok s ↔
  lookup_key d key = Some (PStr s) ∧ (may_be_empty = false → s ≠ "").
Proof.
  unfold string_entry.
  destruct (lookup_key d key) as [[| | |t| |]|];
    try (split; [discriminate | by intros [[=] _]]).
  destruct may_be_empty; simpl.
  - split; [by intros [= ->] | by intros [[= ->] _]].
  - destruct (String.eqb_spec t "") as [->|Ht].
    + split; [discriminate|]. intros [[= <-] Hs]. by destruct Hs.
    + split; [intros [= ->] | intros [[= ->] _]]; done.
Qed.

Lemma forallb_is_str l :
  forallb is_str l = true ↔ Forall (fun x => is_str x = true) l.
Proof. by rewrite forallb_forall, Forall_forall; setoid_rewrite list_elem_of_In. Qed.

Lemma parse_nsg_json_Ok config ips tags :
  parse_nsg_json config = Ok (ips, tags) ↔
  ∃ d p,
    config = PDict d
    ∧ lookup_key d "proxy_nsg_config" = Some (PDict p)
    ∧ lookup_key p "allowed_ips" = Some (PList ips)
    ∧ lookup_key p "allowed_service_tags" = Some (PList tags)
    ∧ (ips = []
       ∨ Forall (fun x => is_str x = true) ips
         ∧ Forall (fun x => is_str x = true) tags).
Proof.
  split.
  - destruct config as [| | | | |d]; try discriminate. simpl.
    destruct (length d =? 0); [discriminate|].
    destruct (lookup_key d "proxy_nsg_config") as [[| | | | |p]|] eqn:Hd;
      try discriminate.
    destruct (length p =? 0); [discriminate|].
    destruct (lookup_key p "allowed_ips") as [ips'|] eqn:Hips;
      [|discriminate].
    destruct (lookup_key p "allowed_service_tags") as [tags'|] eqn:Htags;
      [|by destruct ips'].
    destruct ips' as [| | | |ips'|]; try discriminate.
    destruct tags' as [| | | |tags'|]; try discriminate.
    destruct ips' as [|x ips'].
    + simpl. intros [= <- <-]. exists d, p. repeat split; auto.
    + change (length (x :: ips') =? 0) with false.
      cbn [negb andb].
      destruct (forallb is_str (x :: ips')) eqn:Hi; [|discriminate].
      destruct (forallb is_str tags') eqn:Ht; [|discriminate].
      simpl. intros [= <- <-]. exists d, p.
      apply forallb_is_str in Hi, Ht. repeat split; auto.
  - intros (d & p & -> & Hd & Hips & Htags & Hstr). simpl.
    rewrite (lookup_key_Some_nonempty _ _ _ Hd), Hd.
    rewrite (lookup_key_Some_nonempty _ _ _ Hips), Hips, Htags.
    destruct Hstr as [->|[Hi Ht]]; [reflexivity|].
    apply forallb_is_str in Hi, Ht. rewrite Hi, Ht.
    by destruct (length ips =? 0).
Qed.

(** X11.  The configuration files [Config] accepts, and what it keeps of
    them.  [Config] is constructed exactly from a dictionary whose
    [proxy_nsg_config] is a dictionary holding the lists [allowed_ips] and
    [allowed_service_tags], both made of strings or the first of them
    empty, and whose [cli_client_id], [tenant_id] and [tenant_domain] are
    non-empty strings, the first a UUID, and [multi_tenant_domain] a
    string, possibly empty; the six attributes of the object are these six
    entries, unchanged. *)
Theorem Config_init_accepts (lib : Library) (config : Any) (c : Config) :
  Config_init lib config = Ok c ↔
  ∃ d p,
    config = PDict d
    ∧ lookup_key d "proxy_nsg_config" = Some (PDict p)
    ∧ lookup_key p "allowed_ips" = Some (PList (allowed_ips c))
    ∧ lookup_key p "allowed_service_tags"
      = Some (PList (allowed_service_tags c))
    ∧ (allowed_ips c = []
       ∨ Forall (fun x => is_str x = true) (allowed_ips c)
         ∧ Forall (fun x => is_str x = true) (allowed_service_tags c))
    ∧ (lookup_key d "cli_client_id" = Some (PStr (cli_client_id c))
       ∧ cli_client_id c ≠ ""
       ∧ UUID_parses lib (cli_client_id c) = true)
    ∧ (lookup_key d "tenant_id" = Some (PStr (tenant_id c))
       ∧ tenant_id c ≠ "")
    ∧ (lookup_key d "tenant_domain" = Some (PStr (tenant_domain c))
       ∧ tenant_domain c ≠ "")
    ∧ lookup_key d "multi_tenant_domain"
      = Some (PStr (multi_tenant_domain c)).
Proof.
  destruct c as [id tenant domain multi ips tags]. simpl.
  unfold Config_init. split.
  - destruct (parse_nsg_json config) as [[ips' tags']|e] eqn:Hnsg;
      [|discriminate].
    apply parse_nsg_json_Ok in Hnsg as (d & p & -> & Hd & Hips & Htags & Hstr).
    unfold mbind at 1, result_bind. unfold parse_endpoint_json.
    unfold mbind, result_bind.
    destruct (string_entry d "cli_client_id" _ _ _) as [id'|] eqn:Hid;
      [|discriminate].
    destruct (UUID_parses lib id') eqn:Huuid; [|discriminate].
    destruct (string_entry d "tenant_id" _ _ _) as [tenant'|] eqn:Htenant;
      [|discriminate].
    destruct (string_entry d "tenant_domain" _ _ _) as [domain'|] eqn:Hdomain;
      [|discriminate].
    destruct (string_entry d "multi_tenant_domain" _ _ _) as [multi'|]
      eqn:Hmulti; [|discriminate].
    simpl. intros [= <- <- <- <- <- <-].
    apply string_entry_Ok in Hid as [Hid Hid'], Htenant as [Htenant Htenant'],
      Hdomain as [Hdomain Hdomain'], Hmulti as [Hmulti _].
    exists d, p. repeat split; auto.
  - intros (d & p & -> & Hd & Hips & Htags & Hstr & (Hid & Hid' & Huuid)
            & (Htenant & Htenant') & (Hdomain & Hdomain') & Hmulti).
    assert (parse_nsg_json (PDict d) = Ok (ips, tags)) as ->
      by (apply parse_nsg_json_Ok; exists d, p; auto).
    unfold mbind at 1, result_bind. unfold parse_endpoint_json.
    unfold mbind, result_bind.
    rewrite (proj2 (string_entry_Ok d "cli_client_id" false _ _ id))
      by (split; auto).
    rewrite Huuid.
    rewrite (proj2 (string_entry_Ok d "tenant_id" false _ _ tenant))
      by (split; auto).
    rewrite (proj2 (string_entry_Ok d "tenant_domain" false _ _ domain))
      by (split; auto).
    rewrite (proj2 (string_entry_Ok d "multi_tenant_domain" true _ _ multi))
      by (split; [auto | discriminate]).
    reflexivity.
Qed.

End ConfigAccepts.

Section RulesPipeline.
Import py deploylib spec_nsg.

(** ** From the configuration file to the stored rules *)

Lemma NsgRule_init_usable lib x :
  NsgRule_init lib x =
  if usable x then Ok (rule_of lib x)
  else Raise (ValueError [PStr
         "Invalid rule. Please provide a valid rule or supply the wild card *."]).
Proof.
  destruct x as [| | |s| |]; try reflexivity.
  rewrite NsgRule_init_string. unfold usable, rule_of, address_like.
  by destruct (String.length (strip s) =? 0).
Qed.

Lemma usable_string x :
  usable x = true ↔ ∃ s, x = PStr s ∧ strip s ≠ "".
Proof.
  destruct x as [| | |s| |]; simpl;
    try (split; [discriminate | by intros (? & [=] & _)]).
  rewrite negb_true_iff, Nat.eqb_neq. split.
  - intros Hs. exists s. split; [reflexivity|]. intros Hb. by rewrite Hb in Hs.
  - intros (s' & [= <-] & Hs) Hlen. apply Hs. by destruct (strip s).
Qed.

Lemma classify_usable lib fmt rules acc :
  classify lib fmt rules acc =
  match list_find (fun x => usable x = false) rules with
  | None => Ok (acc ++ map (rule_of lib) rules)
  | Some (_, x) => Raise (ValueError [PStr fmt; x])
  end.
Proof.
  revert acc. induction rules as [|x rules IH]; intros acc.
  - simpl. by rewrite app_nil_r.
  - cbn [classify list_find]. rewrite NsgRule_init_usable. case_decide as Hx.
    + by rewrite Hx.
    + apply not_false_is_true in Hx. rewrite Hx, IH.
      destruct (list_find _ rules) as [[i y]|]; simpl; [reflexivity|].
      by rewrite <- app_assoc.
Qed.

Lemma parse_rules_usable lib c :
  parse_rules lib c =
  if existsb (fun x => eq_str x "*") (allowed_ips c)
  then Ok [rule_of lib (PStr "*")]
  else
    match list_find (fun x => usable x = false) (allowed_ips c) with
    | Some (_, x) => Raise (ValueError [PStr invalid_ips; x])
    | None =>
        match list_find (fun x => usable x = false) (allowed_service_tags c)
        with
        | Some (_, x) => Raise (ValueError [PStr invalid_tags; x])
        | None =>
            Ok (map (rule_of lib)
                  (allowed_ips c ++ allowed_service_tags c))
        end
    end.
Proof.
  unfold parse_rules.
  destruct (existsb (fun x => eq_str x "*") (allowed_ips c)) eqn:Hw.
  - reflexivity.
  - destruct (length (allowed_ips c) + length (allowed_service_tags c) =? 0)
      eqn:Hlen.
    + apply Nat.eqb_eq in Hlen.
      destruct (allowed_ips c), (allowed_service_tags c); try discriminate.
      reflexivity.
    + unfold mbind, result_bind. rewrite classify_usable.
      destruct (list_find _ (allowed_ips c)) as [[i x]|]; [reflexivity|].
      rewrite classify_usable. simpl.
      destruct (list_find _ (allowed_service_tags c)) as [[i x]|];
        [reflexivity|].
      by rewrite map_app.
Qed.

Lemma list_find_usable l :
  list_find (fun x => usable x = false) l = None ↔
  Forall (fun x => usable x = true) l.
Proof.
  rewrite list_find_None. apply Forall_proper; [|done].
  intros x. by destruct (usable x).
Qed.

(** X12.  A constructed [Config] handed to [parse_rules].  The entries of
    [allowed_ips] of a constructed [Config] are strings.  [parse_rules]
    returns rules exactly when [allowed_ips] holds the wildcard or no entry
    of either list is refused by [NsgRule], whatever the address parsers
    say.  When it raises, the value reported is a blank string of
    [allowed_ips] under the invalid-ips message, or an entry of
    [allowed_service_tags] under the invalid-tags message that is a blank
    string, or is not a string at all, which happens only when
    [allowed_ips] is empty. *)
Theorem Config_init_then_parse_rules (lib : Library) (config : Any)
    (c : Config) :
  Config_init lib config = Ok c →
  Forall (fun x => is_str x = true) (allowed_ips c)
  ∧ ((∃ rules, parse_rules lib c = Ok rules) ↔
     PStr "*" ∈ allowed_ips c
     ∨ Forall (fun x => usable x = true)
         (allowed_ips c ++ allowed_service_tags c))
  ∧ (∀ e,
       parse_rules lib c = Raise e →
       (∃ s, PStr s ∈ allowed_ips c ∧ strip s = ""
             ∧ e = ValueError [PStr invalid_ips; PStr s])
       ∨ (∃ x, x ∈ allowed_service_tags c
               ∧ e = ValueError [PStr invalid_tags; x]
               ∧ ((∃ s, x = PStr s ∧ strip s = "")
                  ∨ (is_str x = false ∧ allowed_ips c = [])))).
Proof.
  intros Hinit.
  assert (Hstr : allowed_ips c = []
                 ∨ Forall (fun x => is_str x = true) (allowed_ips c)
                   ∧ Forall (fun x => is_str x = true)
                       (allowed_service_tags c)).
  { unfold Config_init in Hinit.
    destruct (parse_nsg_json config) as [[ips tags]|] eqn:Hnsg; [|discriminate].
    apply parse_nsg_json_Ok in Hnsg as (d & p & -> & _ & _ & _ & Hstr).
    unfold mbind, result_bind in Hinit.
    destruct (parse_endpoint_json lib d) as [[[[? ?] ?] ?]|]; [|discriminate].
    by injection Hinit as <-. }
  assert (Hblank : ∀ x, usable x = false → is_str x = true →
                        ∃ s, x = PStr s ∧ strip s = "").
  { intros [| | |s| |] Hx Hs; try discriminate. exists s. split; [done|].
    simpl in Hx. apply negb_false_iff, Nat.eqb_eq in Hx.
    by destruct (strip s). }
  split; [|split].
  - destruct Hstr as [->|[Hips _]]; [constructor | exact Hips].
  - rewrite parse_rules_usable, <- wildcard_in_list.
    destruct (existsb _ (allowed_ips c)) eqn:Hw.
    + split; [by left | eauto].
    + rewrite Forall_app, <- !list_find_usable.
      destruct (list_find _ (allowed_ips c)) as [[i x]|].
      { split; [by intros [? ?] | intros [?|[? _]]; done]. }
      destruct (list_find _ (allowed_service_tags c)) as [[i x]|].
      { split; [by intros [? ?] | intros [?|[_ ?]]; done]. }
      split; [by right | eauto].
  - intros e. rewrite parse_rules_usable.
    destruct (existsb _ (allowed_ips c)) eqn:Hw; [done|].
    destruct (list_find _ (allowed_ips c)) as [[i x]|] eqn:Hips.
    + intros [= <-]. left.
      apply list_find_Some in Hips as (Hi & Hx & _).
      apply list_elem_of_lookup_2 in Hi.
      assert (is_str x = true) as Hs.
      { destruct Hstr as [Hnil|[Hall _]]; [by rewrite Hnil in Hi; apply elem_of_nil in Hi|].
        rewrite Forall_forall in Hall. by apply Hall. }
      destruct (Hblank x Hx Hs) as (s & -> & Hb). eauto.
    + destruct (list_find _ (allowed_service_tags c)) as [[i x]|] eqn:Htags;
        [|discriminate].
      intros [= <-]. right.
      apply list_find_Some in Htags as (Hi & Hx & _).
      apply list_elem_of_lookup_2 in Hi.
      exists x. split; [exact Hi|]. split; [reflexivity|].
      destruct (is_str x) eqn:Hs; [left; by apply Hblank|].
      right. split; [reflexivity|].
      destruct Hstr as [Hnil|[_ Hall]]; [exact Hnil|].
      rewrite Forall_forall in Hall. specialize (Hall x Hi). congruence.
Qed.

Lemma filter_none {A} (P : A → Prop) `{∀ x, Decision (P x)} (l : list A) :
  Forall (fun x => ¬ P x) l → filter P l = [].
Proof.
  induction 1 as [|x l Hx _ IH]; [reflexivity|].
  by rewrite filter_cons_False, IH.
Qed.

Lemma filter_map_rule_of lib (l : list Any) (b : bool) :
  map rule (filter (fun r => is_tag r = b) (map (rule_of lib) l))
  = filter (fun x => address_like lib x = negb b) l.
Proof.
  induction l as [|x l IH]; [reflexivity|].
  simpl. rewrite !filter_cons. simpl.
  destruct (address_like lib x), b; simpl;
    repeat case_decide; try done; simpl; by rewrite IH.
Qed.

(** X13.  From the parsed rules to the stored lists.  What [update_nsg]
    writes for the rules [parse_rules] returned: with the wildcard in
    [allowed_ips], the single address ["*"] and no tag; otherwise the
    entries of both lists, in their order, sorted by form and not by the
    list they came from: those that read as an address go to
    [allowed_ips], the others to [allowed_service_tags].  So the stored
    lists are the lists of the file exactly when every entry sits in the
    list that matches its form.  The entity written is the row of the
    resource group in the table [InstanceConfig], and the call fails only
    if the table service does. *)
Theorem parse_rules_then_update_nsg (lib : Library) (c : Config)
    (rules : list NsgRule) :
  parse_rules lib c = Ok rules →
  (PStr "*" ∈ allowed_ips c →
   nsg_config rules =
   PDict [("allowed_service_tags", PList []);
          ("allowed_ips", PList [PStr "*"])])
  ∧ (PStr "*" ∉ allowed_ips c →
     nsg_config rules =
     PDict [("allowed_service_tags",
             PList (filter (fun x => address_like lib x = false)
                      (allowed_ips c ++ allowed_service_tags c)));
            ("allowed_ips",
             PList (filter (fun x => address_like lib x = true)
                      (allowed_ips c ++ allowed_service_tags c)))]
     ∧ (Forall (fun x => address_like lib x = true) (allowed_ips c) →
        Forall (fun x => address_like lib x = false)
          (allowed_service_tags c) →
        nsg_config rules =
        PDict [("allowed_service_tags", PList (allowed_service_tags c));
               ("allowed_ips", PList (allowed_ips c))]))
  ∧ (∀ enc config_client,
       update_nsg enc config_client rules =
       let entity :=
         [("PartitionKey", resource_group config_client);
          ("RowKey", resource_group config_client);
          ("proxy_nsg_config", dumps enc (nsg_config rules))] in
       ([insert_or_merge_entity TABLE_NAME entity],
        TableService_insert_or_merge_entity (table_service config_client)
          TABLE_NAME entity)).
Proof.
  rewrite parse_rules_usable. intros Hrules.
  split; [|split; [|reflexivity]].
  - intros Hw. apply wildcard_in_list in Hw. rewrite Hw in Hrules.
    by injection Hrules as <-.
  - intros Hw. rewrite <- wildcard_in_list in Hw.
    apply not_true_is_false in Hw. rewrite Hw in Hrules.
    destruct (list_find _ (allowed_ips c)) as [[? ?]|]; [discriminate|].
    destruct (list_find _ (allowed_service_tags c)) as [[? ?]|];
      [discriminate|].
    injection Hrules as <-. unfold nsg_config.
    rewrite (filter_map_rule_of lib _ true), (filter_map_rule_of lib _ false).
    split; [reflexivity|].
    intros Hips Htags. simpl negb. rewrite !filter_app.
    rewrite (filter_all _ _ Hips), (filter_all _ _ Htags).
    assert (filter (fun x => address_like lib x = false) (allowed_ips c) = [])
      as ->.
    { apply filter_none. eapply Forall_impl; [exact Hips|].
      simpl. intros x Hx. by rewrite Hx. }
    assert (filter (fun x => address_like lib x = true)
              (allowed_service_tags c) = []) as ->.
    { apply filter_none. eapply Forall_impl; [exact Htags|].
      simpl. intros x Hx. by rewrite Hx. }
    by rewrite app_nil_r.
Qed.

End RulesPipeline.

Lemma Config_init_then_parse_rules_witness :
  ∃ rules,
    deploylib.parse_rules sample_library.library
      (deploylib.mkConfig "82fb1363-1f4a-4e1f-b5a4-d4b3570f6bf4"
         "72f988bf-86f1-41af-91ab-2d7cd011db47" "contoso.onmicrosoft.com" ""
         [deploylib.PStr "10.0.0.0/24"] [deploylib.PStr "Internet"])
    = Ok rules.
Proof.
  refine (proj2 (proj1 (proj2
            (Config_init_then_parse_rules sample_library.library
               (sample_library.file
                  (deploylib.PList [deploylib.PStr "10.0.0.0/24"])
                  (deploylib.PList [deploylib.PStr "Internet"])
                  sample_library.client_id (deploylib.PStr ""))
               _ _))) _).
  - vm_compute. reflexivity.
  - right. repeat constructor.
Defined.

Lemma parse_rules_then_update_nsg_witness :
  deploylib.nsg_config
    [deploylib.mkNsgRule (deploylib.PStr "10.0.0.0/24") false;
     deploylib.mkNsgRule (deploylib.PStr "Internet") true]
  = deploylib.PDict
      [("allowed_service_tags", deploylib.PList [deploylib.PStr "Internet"]);
       ("allowed_ips", deploylib.PList [deploylib.PStr "10.0.0.0/24"])].
Proof.
  refine (proj2 (proj1 (proj2
            (parse_rules_then_update_nsg sample_library.library
               (deploylib.mkConfig "82fb1363-1f4a-4e1f-b5a4-d4b3570f6bf4"
                  "72f988bf-86f1-41af-91ab-2d7cd011db47"
                  "contoso.onmicrosoft.com" ""
                  [deploylib.PStr "10.0.0.0/24"] [deploylib.PStr "Internet"])
               _ _)) _) _ _).
  - vm_compute. reflexivity.
  - intros Hin. apply list_elem_of_singleton in Hin. discriminate.
  - repeat constructor.
  - repeat constructor.
Defined.

Section InstanceConfigRow.
Import py deploylib.

(** ** The client of the instance configuration table *)

(** X14.  Creating the client.  Whatever the table service answers, the
    logging of the storage client is switched off first and switched on
    again last, and every call to the table service lies between the two.
    The table is created exactly when the table service reports it
    missing: not when it exists, and not when the lookup itself fails.  The
    client is returned, with the table service and the resource group it
    was given, unless the lookup or the creation raises, and then that
    exception is the one raised. *)
Theorem InstanceConfigClient_init_logging (ts : TableService)
    (group : string) :
  let m := InstanceConfigClient_init ts group in
  (∃ calls,
     m.1 = set_disabled true :: calls ++ [set_disabled false]
     ∧ ∀ b, set_disabled b ∉ calls)
  ∧ (create_table TABLE_NAME ∈ m.1 ↔
     TableService_exists ts TABLE_NAME = Ok false)
  ∧ (∀ client,
       m.2 = Ok client ↔
       client = mkInstanceConfigClient ts group
       ∧ (TableService_exists ts TABLE_NAME = Ok true
          ∨ TableService_exists ts TABLE_NAME = Ok false
            ∧ TableService_create_table ts TABLE_NAME = Ok tt))
  ∧ (∀ e,
       m.2 = Raise e ↔
       TableService_exists ts TABLE_NAME = Raise e
       ∨ TableService_exists ts TABLE_NAME = Ok false
         ∧ TableService_create_table ts TABLE_NAME = Raise e).
Proof.
  unfold InstanceConfigClient_init, create_if_missing, try_finally,
    disable_storage_client_logging, enable_storage_client_logging, call,
    mbind, io_mbind, io_bind, io_ret.
  simpl.
  destruct (TableService_exists ts TABLE_NAME) as [[]|e0] eqn:Hexists; simpl.
  - split; [exists [exists_ TABLE_NAME]; split; [reflexivity | set_solver]|].
    split; [set_solver|].
    split; [intros client | intros e].
    + split; [intros [= <-]; auto | by intros [-> _]].
    + split; [discriminate | intros [[=]|[[=] _]]].
  - destruct (TableService_create_table ts TABLE_NAME) as [[]|e1] eqn:Hcreate;
      simpl.
    + split; [exists [exists_ TABLE_NAME; create_table TABLE_NAME];
              split; [reflexivity | set_solver]|].
      split; [set_solver|].
      split; [intros client | intros e].
      * split; [intros [= <-]; auto | by intros [-> _]].
      * split; [discriminate | intros [[=]|[_ [=]]]].
    + split; [exists [exists_ TABLE_NAME; create_table TABLE_NAME];
              split; [reflexivity | set_solver]|].
      split; [set_solver|].
      split; [intros client | intros e].
      * split; [discriminate | intros [_ [[=]|[_ [=]]]]].
      * split; [intros [= <-]; auto | intros [[=]|[_ [= <-]]]; reflexivity].
  - split; [exists [exists_ TABLE_NAME]; split; [reflexivity | set_solver]|].
    split; [set_solver|].
    split; [intros client | intros e].
    + split; [discriminate | intros [_ [[=]|[[=] _]]]].
    + split; [intros [= <-]; auto | intros [[= <-]|[[=] _]]; reflexivity].
Qed.

(** The three updates and the row they share.  Each of
    [update_nsg], [update_admins] and [update_allowed_aad_tenants] makes one
    call, which merges into the table [InstanceConfig] an entity whose
    partition key and row key are both the resource group, and which holds
    one further property, different for each of the three; the update fails
    exactly when that call does.  An empty list of admins is stored as the
    encoding of [None], an empty list of tenants as the encoding of the
    empty list; a list of admins that is not empty is encoded as the same
    list of tenants would be. *)
Lemma updates_share_row (enc : Encoders) (config_client : InstanceConfigClient)
    (allowed_rules : list NsgRule) (ids : list UUID) :
  let row property value :=
    [("PartitionKey", resource_group config_client);
     ("RowKey", resource_group config_client);
     (property, value)] in
  let merged entity : io unit :=
    ([insert_or_merge_entity TABLE_NAME entity],
     TableService_insert_or_merge_entity (table_service config_client)
       TABLE_NAME entity) in
  let encoded :=
    dumps enc (PList (map (fun x => PStr (str_of_UUID enc x)) ids)) in
  update_nsg enc config_client allowed_rules
  = merged (row "proxy_nsg_config" (dumps enc (nsg_config allowed_rules)))
  ∧ update_allowed_aad_tenants enc config_client ids
    = merged (row "allowed_aad_tenants" encoded)
  ∧ update_admins enc config_client ids
    = merged (row "admins" (if decide (ids = []) then dumps enc PNone
                            else encoded)).
Proof.
  split; [reflexivity|]. split; [reflexivity|].
  unfold update_admins. by destruct ids.
Qed.

End InstanceConfigRow.

Section UncaughtIndexError.
Import py pathlib tasks spec.

(** ** When [check_config] fails with an [IndexError] *)

(** X16.  The failure that is not a [TaskConfigError].  [check_config]
    ends with an uncaught [IndexError] exactly when the task type is
    registered, the checks of the containers, the pool and the required
    options have passed, and either a [target_exe] with a valid blob name
    was given although no [setup] container was submitted, or the target
    check has passed and the definition declares the generator feature
    although no [tools] container was submitted.  In the second case the
    failure comes before [generator_exe] itself is looked at. *)
Theorem check_config_IndexError (w : Services) (config : TaskConfig) :
  outcome (check_config w config) = Raise IndexError ↔
  ∃ definition,
    TASK_DEFINITIONS w (task_type (config_task config)) = Some definition
    ∧ outcome (check_containers_and_pool w config definition) = Ok tt
    ∧ ((∃ exe, task_target_exe (config_task config) = Some exe
               ∧ is_valid_blob_name exe = true
               ∧ count_role setup config = 0)
       ∨ (outcome (check_target_exe w config definition) = Ok tt
          ∧ declares definition generator_exe = true
          ∧ count_role tools config = 0)).
Proof.
  destruct (TASK_DEFINITIONS w (task_type (config_task config)))
    as [definition|] eqn:Hdef.
  2:{ rewrite (check_config_unregistered _ _ Hdef).
      split; [discriminate | by intros (? & ? & _)]. }
  rewrite (check_config_outcome _ _ _ Hdef).
  pose proof (check_target_exe_IndexError w config definition) as Htarget.
  pose proof (check_generator_exe_IndexError w config definition) as Hgen.
  pose proof (check_stats_file_outcome config definition) as Hstats.
  destruct (outcome (check_containers_and_pool w config definition))
    as [[]|e] eqn:Hcontainers.
  - destruct (outcome (check_target_exe w config definition)) as [[]|e]
      eqn:Ht.
    + destruct (outcome (check_generator_exe w config definition)) as [[]|e]
        eqn:Hg.
      * rewrite Hstats. split.
        -- by destruct (_ && _).
        -- intros (d & [= <-] & _ & [Hcase|(_ & Hcase)]).
           ++ apply Htarget in Hcase. discriminate.
           ++ apply Hgen in Hcase. discriminate.
      * split.
        -- intros [= ->]. exists definition. split; [done|].
           split; [done|]. right. split; [done|].
           by apply Hgen.
        -- intros (d & [= <-] & _ & [Hcase|(_ & Hcase)]).
           ++ apply Htarget in Hcase. discriminate.
           ++ apply Hgen in Hcase. exact Hcase.
    + split.
      * intros [= ->]. exists definition. split; [done|].
        split; [done|]. left. by apply Htarget.
      * intros (d & [= <-] & _ & [Hcase|(Hcase & _)]).
        -- apply Htarget in Hcase. exact Hcase.
        -- congruence.
  - split.
    + intros [= ->].
      apply check_containers_and_pool_Raise in Hcontainers as [msg [=]].
    + intros (d & [= <-] & ? & _). congruence.
Qed.

End UncaughtIndexError.

Section EntryPaths.
Import py pathlib tasks spec spec_paths.

(** ** The paths of the generated entries *)

Lemma occurs_app c a b : occurs c (a +:+ String c b) = true.
Proof.
  induction a as [|x a IH]; simpl.
  - by rewrite Ascii.eqb_refl.
  - rewrite IH. apply orb_true_r.
Qed.

(** A name followed by an underscore and a field without underscore
    determines both. *)
Lemma underscore_suffix r1 r2 d1 d2 :
  occurs "_" d1 = false → occurs "_" d2 = false →
  r1 +:+ String "_" d1 = r2 +:+ String "_" d2 →
  r1 = r2 ∧ d1 = d2.
Proof.
  intros H1 H2. revert r2.
  induction r1 as [|c r1 IH]; intros [|c' r2]; simpl; intros Heq.
  - by injection Heq.
  - injection Heq as <- ->. by rewrite occurs_app in H1.
  - injection Heq as -> <-. by rewrite occurs_app in H2.
  - injection Heq as -> Heq. destruct (IH _ Heq) as [-> ->]. done.
Qed.

Lemma digits_no_underscore d :
  occurs "_" (NilEmpty.string_of_uint d) = false.
Proof. induction d; simpl; done. Qed.

Lemma str_of_nat_no_underscore n : occurs "_" (str_of_nat n) = false.
Proof.
  unfold str_of_nat, str_of_int.
  destruct (Z.of_nat n) as [|p|p] eqn:Hn; simpl; [reflexivity| |lia].
  unfold NilZero.string_of_uint.
  destruct (Pos.to_uint p); try reflexivity; apply digits_no_underscore.
Qed.

Lemma str_of_nat_inj n m : str_of_nat n = str_of_nat m → n = m.
Proof.
  unfold str_of_nat, str_of_int. intros Heq.
  assert (Hnonnil : ∀ z, Z.to_int z ≠ Decimal.Pos Decimal.Nil
                         ∧ Z.to_int z ≠ Decimal.Neg Decimal.Nil).
  { intros [|p|p]; simpl; split; try discriminate;
      intros [= H]; by apply DecimalPos.Unsigned.to_uint_nonnil in H. }
  assert (Hint : Z.to_int (Z.of_nat n) = Z.to_int (Z.of_nat m)).
  { destruct (Hnonnil (Z.of_nat n)) as [Hn Hn'].
    destruct (Hnonnil (Z.of_nat m)) as [Hm Hm'].
    pose proof (NilZero.isi _ Hn Hn') as Hisn.
    pose proof (NilZero.isi _ Hm Hm') as Hism.
    rewrite Heq in Hisn. congruence. }
  apply (f_equal Z.of_int) in Hint. rewrite !DecimalZ.of_to in Hint. lia.
Qed.

Lemma entry_path w container_def i container :
  path_of (entry w container_def i container)
  = Some ("task_" +:+ ContainerType_name (def_type container_def)
          +:+ "_" +:+ str_of_nat i).
Proof. reflexivity. Qed.

Lemma enumerate_lookup {A} start (l : list A) i x :
  (i, x) ∈ enumerate start l → start ≤ i ∧ l !! (i - start) = Some x.
Proof.
  revert start. induction l as [|y l IH]; intros start.
  - by intros ?%elem_of_nil.
  - rewrite enumerate_cons. intros [[= -> ->]|Hin]%elem_of_cons.
    + split; [lia|]. by rewrite Nat.sub_diag.
    + apply IH in Hin as [Hle Hl]. split; [lia|].
      replace (i - start) with (S (i - S start)) by lia. exact Hl.
Qed.

(** X15.  The paths of the unit configuration identify the containers.  In
    the entries [build_task_config] generates from one submission, for
    whatever declared roles, two entries with the same [path] belong to the
    same role and to the same submitted container: the path
    [task_<role>_<index>] determines the role and the position in the
    submission, whatever underscores and digits the role's name holds. *)
Theorem container_entries_paths_identify (w : Services)
    (submitted : list TaskContainers) (d1 d2 : ContainerDefinition)
    (v1 v2 : value) (path : string) :
  v1 ∈ container_entries w d1 0 submitted →
  v2 ∈ container_entries w d2 0 submitted →
  path_of v1 = Some path →
  path_of v2 = Some path →
  def_type d1 = def_type d2
  ∧ ∃ i container,
      submitted !! i = Some container
      ∧ container_type container = def_type d1
      ∧ v1 = entry w d1 i container
      ∧ v2 = entry w d2 i container.
Proof.
  rewrite !container_entries_enumerate.
  intros ([i1 c1] & -> & [Hc1 Hin1]%list_elem_of_filter)%list_elem_of_fmap.
  intros ([i2 c2] & -> & [Hc2 Hin2]%list_elem_of_filter)%list_elem_of_fmap.
  cbn [fst snd] in *. rewrite !entry_path. intros [= <-] [= Heq].
  change ("" +:+ ?x) with x in Heq.
  change ("_" +:+ ?x) with (String "_" x) in Heq.
  apply underscore_suffix in Heq as [Hname Hindex];
    try apply str_of_nat_no_underscore.
  apply ContainerType_name_inj in Hname. apply str_of_nat_inj in Hindex.
  subst i2. split; [done|].
  apply enumerate_lookup in Hin1 as [_ Hin1], Hin2 as [_ Hin2].
  rewrite Nat.sub_0_r in Hin1, Hin2.
  assert (c2 = c1) as -> by congruence.
  exists i1, c1. done.
Qed.

End EntryPaths.

Lemma container_entries_paths_identify_witness :
  tasks.def_type (tasks.mkContainerDefinition fuzz.readonly_inputs
                    tasks.AtLeast 1 [tasks.Read; tasks.List])
  = tasks.def_type (tasks.mkContainerDefinition fuzz.readonly_inputs
                      tasks.Equal 1 [tasks.Write]).
Proof.
  refine (proj1 (container_entries_paths_identify fuzz.services
            (tasks.config_containers (tasks.task_config fuzz.task))
            (tasks.mkContainerDefinition fuzz.readonly_inputs
               tasks.AtLeast 1 [tasks.Read; tasks.List])
            (tasks.mkContainerDefinition fuzz.readonly_inputs
               tasks.Equal 1 [tasks.Write])
            (tasks.VDict [("path", tasks.VStr "task_readonly_inputs_3");
                          ("url", tasks.VStr "seeds-b?rl")])
            (tasks.VDict [("path", tasks.VStr "task_readonly_inputs_3");
                          ("url", tasks.VStr "seeds-b?w")])
            "task_readonly_inputs_3" _ _ eq_refl eq_refl)).
  - vm_compute. set_solver.
  - vm_compute. set_solver.
Defined.
